(** * VTS browser: bound-layer compositor, tile traversal and mesh upload

    A shallow embedding of the parts of the VTS browser that decide which
    tiles are drawn and with which textures:

    - [BrowserLib]  : [vts-browser-lib/mapUtilities.cpp]
                      ([BoundParamInfo::uvMatrix], [BoundParamInfo::prepare],
                      [TilesetMapping::update], [MapImpl::travDistance],
                      [MapImpl::computeResourcePriority], [RenderTask::ready],
                      [Renders], the [TraverseNode] constructor and
                      [TraverseQueueItem::operator <]);
    - [Renderer]    : [vts-librenderer/classes.cpp] ([Mesh::clear],
                      [Mesh::load], [setDebugLabel], [Texture] with
                      [findInternalFormat], [findFormat], [magFilter] and
                      [enforceUsingMipMaps], [RenderContext::loadTexture],
                      [UniformBuffer], and [Shader::loadShader], [Shader::load]
                      and [Shader::loadUniformLocations]);
    - [LibBrowser]  : [vts-libbrowser/camera/traversal.cpp]
                      ([travDistance], [updateNodePriority],
                      [travInternalTexture], [generateMonolithicGeodataTrav],
                      [travDetermineMeta], [travDetermineDraws] with its
                      surface and geodata variants, [travInit], and the
                      strategies [travModeFlat], [travModeStable],
                      [travModeBalanced], [travModeHierarchical], [travLod]
                      with [myVisibilityTest], [travModeFixed],
                      [travModeDistanceBaseFixed], and their dispatch in
                      [traverseRender]).

    Conventions.  C++ integers are [Z] with the wrap-around of unsigned
    arithmetic written out ([Num.u32]); [double] is Rocq's primitive binary64
    [float], and a value of C++ type [float] is a [float] that went through
    [Num.to_f32] (round to nearest even at 24 bits).  A resource handle
    ([std::shared_ptr<Resource>]) is the resource's name: the cache holds one
    resource per name.  Calls into the resource cache, the statistics and the
    renderer are recorded as events, in program order; the state of the
    cache is the one the pass reads.  Classes and helpers whose code is
    outside the embedded files appear as record fields (what the embedded
    code reads from them) or as function-valued fields of the object they
    are called on.  For [Mesh] the OpenGL context is a state holding the
    buffer stores; for the other renderer classes the calls made on OpenGL
    are recorded as a list, in program order, and a name OpenGL hands out
    is an argument of the function that asks for it.  A C++ exception is a
    result of the call.  Assertions are preconditions and are not
    executed. *)

From Stdlib Require Import ZArith Lia Bool List String.
From Stdlib Require Import PrimFloat FloatOps SpecFloat Uint63.
From Stdlib Require FloatAxioms.
From stdpp Require Import base option list gmap.

Set Warnings "-register-all".

Local Open Scope Z_scope.

(* ================================================================== *)
(** * Numbers *)
(* ================================================================== *)

Module Num.

(** Reduction of a mathematical integer to [uint32]. *)
Definition u32 (z : Z) : Z := z mod 2 ^ 32.

(** [a << n] on [uint32]. *)
Definition shl_u32 (a n : Z) : Z := u32 (Z.shiftl a n).

(** [a - b] on [uint32]. *)
Definition sub_u32 (a b : Z) : Z := u32 (a - b).

(** Reduction of a mathematical integer to [int] (32 bits, two's
    complement). *)
Definition s32 (z : Z) : Z := (z + 2 ^ 31) mod 2 ^ 32 - 2 ^ 31.

(** [a << n] on [int], for [0 <= n < 32] (a larger shift is undefined in
    C++): the value modulo 2^32, as C++20 defines the shift and as the
    compilers have it before; [1 << 31] is [INT_MIN]. *)
Definition shl_i32 (a n : Z) : Z := s32 (Z.shiftl a n).

(** Conversion of a non-negative C++ integer to [double] (exact below 2^53). *)
Definition of_Z (z : Z) : float := PrimFloat.of_uint63 (Uint63.of_Z z).

(** Conversion of an [int] to [double] (exact). *)
Definition of_int (z : Z) : float :=
  if z <? 0 then (- of_Z (- z))%float else of_Z z.

(** The conversion [(float)d] of a [double]: rounding to binary32, the result
    kept as the [double] that represents it exactly. *)
Definition to_f32 (d : float) : float :=
  match Prim2SF d with
  | S754_finite s m e =>
      SF2Prim (binary_normalize 24 128 (if s then Z.neg m else Z.pos m) e s)
  | _ => d
  end.

Definition vec3 : Type := float * float * float.

(** A 3x3 matrix of [float], row by row. *)
Definition mat3f : Type := list (list float).

(** [upperLeftSubMatrix(identityMatrix()).cast<float>()]. *)
Definition identity3f : mat3f :=
  [[1; 0; 0]; [0; 1; 0]; [0; 0; 1]]%float.

End Num.

(* ================================================================== *)
(** * Tile identifiers (vtslibs::vts) *)
(* ================================================================== *)

Module TileId.

(** [vtslibs::vts::TileId]: [lod] is a [uint8], [x] and [y] are [uint32]. *)
Record t : Type := mk { lod : Z; x : Z; y : Z }.

Definition wf (i : t) : Prop :=
  0 <= lod i < 256 /\ 0 <= x i < 2 ^ 32 /\ 0 <= y i < 2 ^ 32.

(** Modelled from the spec: [vtslibs::vts::parent], which is not part of the
    sources; "parent(t) = (lod-1, x>>1, y>>1)". *)
Definition parent (i : t) : t :=
  mk (lod i - 1) (Z.shiftr (x i) 1) (Z.shiftr (y i) 1).

(** Modelled from the spec: [vtslibs::vts::children], which is not part of the
    sources; "the four children of (lod,x,y) are (lod+1, 2x+{0,1}, 2y+{0,1});
    child index i in 0..3 is (x&1) | ((y&1)<<1)". *)
Definition child (i : t) (k : Z) : t :=
  mk (lod i + 1) (2 * x i + Z.land k 1) (2 * y i + Z.shiftr k 1).

Definition children (i : t) : list t := map (child i) [0; 1; 2; 3].

End TileId.

(** [Validity] of a resource, as [getResourceValidity] reports it. *)
Inductive Validity : Type := Invalid | Indeterminate | Valid.

Definition Validity_eqb (a b : Validity) : bool :=
  match a, b with
  | Invalid, Invalid | Indeterminate, Indeterminate | Valid, Valid => true
  | _, _ => false
  end.

(** [UrlTemplate::Vars]: the values substituted into a URL template. *)
Module Vars.
Record t : Type := mk { tileId : TileId.t; localId : TileId.t; subMesh : Z }.
(** [Vars(id)] with the defaulted arguments. *)
Definition ofTile (i : TileId.t) : t := mk i (TileId.mk 0 0 0) 0.
(** [Vars(id, local)] with the defaulted sub-mesh index. *)
Definition ofTileLocal (i l : TileId.t) : t := mk i l 0.
End Vars.

(* ================================================================== *)
(** * vts-browser-lib/mapUtilities.cpp *)
(* ================================================================== *)

Module BrowserLib.

(** [NodeInfo]: what the embedded code reads from a reference-frame node.
    [local] is the value of the helper [local(nodeInfo)], the id of the tile
    inside its reference-frame subtree. *)
Module NodeInfo.
Record t : Type := mk {
  nodeId : TileId.t;
  local : TileId.t;
  srs : string;
  extents_ll : float * float;
  extents_ur : float * float }.
End NodeInfo.

(** [BoundInfo]: a bound layer of the map configuration.  [metaUrl] records
    whether the optional meta URL is present, [urlMeta] expands it. *)
Module BoundInfo.
Record t : Type := mk {
  lodRange_min : Z;
  lodRange_max : Z;
  tileRange_ll : Z * Z;
  tileRange_ur : Z * Z;
  metaUrl : bool;
  urlMeta : Vars.t -> string;
  isTransparent : bool }.
End BoundInfo.

Inductive TraverseMode : Type :=
  | TM_Hierarchical | TM_Flat | TM_Balanced.

(** [vtslibs::vts::GeomExtents]: the z range of the geometry of a tile. *)
Module GeomExtents.
Record t : Type := mk { z_min : float; z_max : float }.
End GeomExtents.

(** [MapImpl]: the parts of the map the embedded functions use.  The cache
    ([getResourceValidity], the flags of a loaded bound meta tile), the map
    configuration ([getBoundInfo], the physical SRS), the options and the
    coordinate convertor are outside the embedded file. *)
Module MapImpl.
Record t : Type := mk {
  getBoundInfo : string -> option BoundInfo.t;
  getResourceValidity : string -> Validity;
  boundMetaTileFlags : string -> Z -> Z;
  traverseMode : TraverseMode;
  debugDisableMeta5 : bool;
  physicalSrs : string;
  convert : Num.vec3 -> string -> string -> Num.vec3;
  focusPosPhys : Num.vec3 }.
End MapImpl.

(** Calls on the resource cache made by [BoundParamInfo::prepare]. *)
Inductive Event : Type :=
  | GetBoundMetaTile (name : string)
  | UpdatePriority (name : string) (priority : float).

Module BoundParamInfo.

(** [id] and [alpha] are the inherited [View::BoundLayerParams]. *)
Record t : Type := mk {
  id : string;
  alpha : option float;
  orig : Vars.t;
  vars : Vars.t;
  bound : option BoundInfo.t;
  depth : Z;
  watertight : bool;
  transparent : bool }.

(** [BoundParamInfo::BoundParamInfo(params)]. *)
Definition make (id : string) (alpha : option float) : t :=
  mk id alpha (Vars.ofTile (TileId.mk 0 0 0)) (Vars.ofTile (TileId.mk 0 0 0))
     None 0 true false.

(** [BoundParamInfo::uvMatrix].  [1 << dep] is an [int] shift and
    [1.0 / (1 << dep)] divides by that [int]: at [dep = 31] it is [INT_MIN]
    and the scale is negative.  The shifts are defined in C++ for
    [dep < 32].  The [uint32] operations on the local id wrap. *)
Definition uvMatrix (self : t) : Num.mat3f :=
  let dep := depth self in
  if dep =? 0 then Num.identity3f
  else
    let lx := TileId.x (Vars.localId (orig self)) in
    let ly := TileId.y (Vars.localId (orig self)) in
    let scale := (1 / Num.of_int (Num.shl_i32 1 dep))%float in
    let tx := (scale * Num.of_Z
                 (Num.sub_u32 lx (Num.shl_u32 (Z.shiftr lx dep) dep)))%float in
    let ty := (scale * Num.of_Z
                 (Num.sub_u32 ly (Num.shl_u32 (Z.shiftr ly dep) dep)))%float in
    let ty := (1 - scale - ty)%float in
    map (map Num.to_f32) [[scale; 0; tx]; [0; scale; ty]; [0; 0; 1]]%float.

(** The block "check lodRange and tileRange" of [prepare]: [true] when the
    tile passes both checks. *)
Definition checkRanges (b : BoundInfo.t) (t : TileId.t) : bool :=
  let m := BoundInfo.lodRange_min b in
  if TileId.lod t <? m then false
  else
    let tx := Z.shiftr (TileId.x t) (TileId.lod t - m) in
    let ty := Z.shiftr (TileId.y t) (TileId.lod t - m) in
    if (tx <? fst (BoundInfo.tileRange_ll b)) || (tx >? fst (BoundInfo.tileRange_ur b))
    then false
    else if (ty <? snd (BoundInfo.tileRange_ll b)) || (ty >? snd (BoundInfo.tileRange_ur b))
    then false
    else true.

(** The ancestor substituted when [depth > 0]: [lod -= depth] on a [uint8],
    [x >>= depth] and [y >>= depth]. *)
Definition ancestor (i : TileId.t) (depth : Z) : TileId.t :=
  TileId.mk ((TileId.lod i - depth) mod 256)
            (Z.shiftr (TileId.x i) depth) (Z.shiftr (TileId.y i) depth).

(** [x &= ~255] and [y &= ~255]. *)
Definition metaAligned (i : TileId.t) : TileId.t :=
  TileId.mk (TileId.lod i) (Z.land (TileId.x i) (Z.lnot 255))
            (Z.land (TileId.y i) (Z.lnot 255)).

Section Prepare.

(** [BoundLayer::MetaFlags::available] and [::watertight] (vtslibs). *)
Variables (available watertightFlag : Z).

(** [BoundParamInfo::prepare]: the validity, the object after the call and
    the calls made on the resource cache. *)
Definition prepare (self : t) (nodeInfo : NodeInfo.t) (impl : MapImpl.t)
    (subMeshIndex : Z) (priority : float) : Validity * t * list Event :=
  let self := mk (id self) (alpha self) (orig self) (vars self)
                 (MapImpl.getBoundInfo impl (id self))
                 (depth self) (watertight self) (transparent self) in
  match bound self with
  | None => (Indeterminate, self, [])
  | Some b =>
    if negb (checkRanges b (NodeInfo.nodeId nodeInfo)) then (Invalid, self, [])
    else
      let v0 := Vars.mk (NodeInfo.nodeId nodeInfo) (NodeInfo.local nodeInfo)
                        subMeshIndex in
      let dep := Z.max (TileId.lod (NodeInfo.nodeId nodeInfo)
                        - BoundInfo.lodRange_max b) 0 in
      let v1 := if dep >? 0
                then Vars.mk (ancestor (Vars.tileId v0) dep)
                             (ancestor (Vars.localId v0) dep) (Vars.subMesh v0)
                else v0 in
      let self := mk (id self) (alpha self) v0 v1 (bound self) dep
                     (watertight self) (transparent self) in
      let finish (self : t) (ev : list Event) :=
        let tr := BoundInfo.isTransparent b
                  || match alpha self with
                     | Some a => (a <? 1)%float
                     | None => false
                     end in
        (Valid,
         mk (id self) (alpha self) (orig self) (vars self) (bound self)
            (depth self) (watertight self) tr,
         ev) in
      if BoundInfo.metaUrl b then
        let v := Vars.mk (metaAligned (Vars.tileId v1))
                         (metaAligned (Vars.localId v1)) (Vars.subMesh v1) in
        let boundName := BoundInfo.urlMeta b v in
        let ev := [GetBoundMetaTile boundName; UpdatePriority boundName priority] in
        match MapImpl.getResourceValidity impl boundName with
        | Indeterminate => (Indeterminate, self, ev)
        | Invalid => (Invalid, self, ev)
        | Valid =>
          let f := MapImpl.boundMetaTileFlags impl boundName
                     (Z.land (TileId.y (Vars.tileId v1)) 255 * 256
                      + Z.land (TileId.x (Vars.tileId v1)) 255) in
          if negb (Z.land f available =? available) then (Invalid, self, ev)
          else
            finish (mk (id self) (alpha self) (orig self) (vars self)
                       (bound self) (depth self)
                       (Z.land f watertightFlag =? watertightFlag)
                       (transparent self)) ev
        end
      else finish self []
  end.

End Prepare.

End BoundParamInfo.

(** ** [TilesetMapping::update] *)

(** The configuration object a [SurfaceInfo] is built from: the one
    [findSurface] returns for a surface id, or the one [findGlue] returns for
    a list of ids. *)
Inductive SurfaceCommonConfig : Type :=
  | SurfaceConfig (id : string)
  | GlueConfig (ids : list string).

Module SurfaceInfo.
Record t : Type := mk {
  config : SurfaceCommonConfig;
  parentPath : string;
  name : list string }.
End SurfaceInfo.

(** [MapConfig::SurfaceStackItem]; a default-constructed item has no surface. *)
Module SurfaceStackItem.
Record t : Type := mk { surface : option SurfaceInfo.t }.
Definition empty : t := mk None.
End SurfaceStackItem.

Module TilesetMapping.

(** [vsId[k]]. *)
Definition vsIdAt (vsId : list string) (k : nat) : string :=
  nth k vsId EmptyString.

(** The item pushed for one record of [dataRaw]: a surface when the record
    has one reference, a glue otherwise. *)
Definition item (mapConfigName : string) (vsId : list string) (it : list nat)
    : SurfaceStackItem.t :=
  match it with
  | [k] =>
      SurfaceStackItem.mk (Some (SurfaceInfo.mk
        (SurfaceConfig (vsIdAt vsId k)) mapConfigName [vsIdAt vsId k]))
  | _ =>
      let ids := map (vsIdAt vsId) it in
      SurfaceStackItem.mk (Some (SurfaceInfo.mk
        (GlueConfig ids) mapConfigName ids))
  end.

(** The loop of [update]: [surfaceStack.push_back] per record. *)
Fixpoint pushAll (mapConfigName : string) (vsId : list string)
    (dataRaw : list (list nat)) (surfaceStack : list SurfaceStackItem.t)
    : list SurfaceStackItem.t :=
  match dataRaw with
  | [] => surfaceStack
  | it :: rest =>
      pushAll mapConfigName vsId rest
              (surfaceStack ++ [item mapConfigName vsId it])
  end.

Section Update.

(** [MapConfig::colorizeSurfaceStack], outside the embedded file. *)
Variable colorizeSurfaceStack :
  list SurfaceStackItem.t -> list SurfaceStackItem.t.

(** The stack handed to [colorizeSurfaceStack]: cleared, the placeholder
    pushed ("the sourceReference in metanodes is one-based"), then one item
    per record. *)
Definition stackBeforeColorize (mapConfigName : string) (vsId : list string)
    (dataRaw : list (list nat)) : list SurfaceStackItem.t :=
  pushAll mapConfigName vsId dataRaw [SurfaceStackItem.empty].

(** [TilesetMapping::update]: the new value of [surfaceStack]. *)
Definition update (mapConfigName : string) (vsId : list string)
    (dataRaw : list (list nat)) : list SurfaceStackItem.t :=
  colorizeSurfaceStack (stackBeforeColorize mapConfigName vsId dataRaw).

End Update.

End TilesetMapping.

(** ** [MapImpl::travDistance] and [MapImpl::computeResourcePriority] *)

Module MetaInfo.
Record t : Type := mk {
  geomExtents : GeomExtents.t;
  aabbPhys : Num.vec3 * Num.vec3 }.
End MetaInfo.

Module TraverseNode.
Record t : Type := mk {
  nodeInfo : NodeInfo.t;
  meta : option MetaInfo.t;
  priority : float }.
End TraverseNode.

(** [vec2to3(v, z)]. *)
Definition vec2to3 (v : float * float) (z : float) : Num.vec3 :=
  (fst v, snd v, z).

Section Priority.

(** [aabbPointDist] (math utilities) and [vtslibs::vts::empty] on geometry
    extents, both outside the embedded file. *)
Variable aabbPointDist : Num.vec3 -> Num.vec3 -> Num.vec3 -> float.
Variable geomExtentsEmpty : GeomExtents.t -> bool.

(** [MapImpl::travDistance]; [None] stands for the dereference of an unset
    [trav->meta]. *)
Definition travDistance (impl : MapImpl.t) (trav : TraverseNode.t)
    (pointPhys : Num.vec3) : option float :=
  match TraverseNode.meta trav with
  | None => None
  | Some meta =>
    let ni := TraverseNode.nodeInfo trav in
    if negb (geomExtentsEmpty (MetaInfo.geomExtents meta))
       && negb (String.eqb (NodeInfo.srs ni) EmptyString)
       && negb (MapImpl.debugDisableMeta5 impl)
    then
      let el := vec2to3 (NodeInfo.extents_ll ni)
                        (GeomExtents.z_min (MetaInfo.geomExtents meta)) in
      let eu := vec2to3 (NodeInfo.extents_ur ni)
                        (GeomExtents.z_max (MetaInfo.geomExtents meta)) in
      let p := MapImpl.convert impl pointPhys (MapImpl.physicalSrs impl)
                               (NodeInfo.srs ni) in
      Some (aabbPointDist p el eu)
    else
      Some (aabbPointDist pointPhys (fst (MetaInfo.aabbPhys meta))
                          (snd (MetaInfo.aabbPhys meta)))
  end.

(** [MapImpl::computeResourcePriority].  [100.f / lod] is a [float]
    division; the other branch is computed in [double] and converted. *)
Definition computeResourcePriority (impl : MapImpl.t) (trav : TraverseNode.t)
    : option float :=
  match MapImpl.traverseMode impl with
  | TM_Hierarchical =>
      Some (Num.to_f32
              (100 / Num.of_Z (TileId.lod
                 (NodeInfo.nodeId (TraverseNode.nodeInfo trav))))%float)
  | _ =>
      match travDistance impl trav (MapImpl.focusPosPhys impl) with
      | Some d => Some (Num.to_f32 (1e6 / (d + 1))%float)
      | None => None
      end
  end.

End Priority.

(** ** The bound meta tile of [prepare] *)

(** The variables [prepare] expands the meta URL with: a copy of [vars] with
    [x &= ~255] and [y &= ~255] on the tile id and on the local id. *)
Definition boundMetaVars (v : Vars.t) : Vars.t :=
  Vars.mk (BoundParamInfo.metaAligned (Vars.tileId v))
          (BoundParamInfo.metaAligned (Vars.localId v)) (Vars.subMesh v).

(** The index at which [prepare] reads [bmt->flags]:
    [(vars.tileId.y & 255) * 256 + (vars.tileId.x & 255)]. *)
Definition flagIndex (v : Vars.t) : Z :=
  Z.land (TileId.y (Vars.tileId v)) 255 * 256
  + Z.land (TileId.x (Vars.tileId v)) 255.

(** ** [RenderTask] and [Renders] *)

(** [RenderTask]: the resources of a task, by name.  [meshAgg],
    [textureColor] and [textureMask] may be null, [mesh] is always set. *)
Module RenderTask.
Record t : Type := mk {
  meshAgg : option string;
  mesh : string;
  textureColor : option string;
  textureMask : option string }.

Section Ready.

(** [Resource::operator bool], outside the embedded file: whether the
    resource of that name is ready for use. *)
Variable resourceReady : string -> bool.

(** [p && !*p] for a resource pointer that may be null. *)
Definition setButNotReady (p : option string) : bool :=
  match p with
  | Some r => negb (resourceReady r)
  | None => false
  end.

(** [RenderTask::ready]. *)
Definition ready (self : t) : bool :=
  if setButNotReady (meshAgg self) then false
  else if negb (resourceReady (mesh self)) then false
  else if setButNotReady (textureColor self) then false
  else if setButNotReady (textureMask self) then false
  else true.

End Ready.

(** The resources a task refers to. *)
Definition resources (self : t) : list string :=
  option_list (meshAgg self) ++ [mesh self]
  ++ option_list (textureColor self) ++ option_list (textureMask self).

End RenderTask.

Module Renders.
Record t : Type := mk {
  opaque : list RenderTask.t;
  transparent : list RenderTask.t;
  infographic : list RenderTask.t }.

(** [Renders::clear]. *)
Definition clear (self : t) : t := mk [] [] [].

(** [Renders::empty]. *)
Definition empty (self : t) : bool :=
  match opaque self, transparent self, infographic self with
  | [], [], [] => true
  | _, _, _ => false
  end.

Section Ready.

Variable resourceReady : string -> bool.

(** One of the loops [for (auto &&it : list) r = r && it->ready()]. *)
Definition allReady (r : bool) (tasks : list RenderTask.t) : bool :=
  fold_left (fun r it => r && RenderTask.ready resourceReady it) tasks r.

(** [Renders::ready]. *)
Definition ready (self : t) : bool :=
  let r := true in
  let r := allReady r (opaque self) in
  let r := allReady r (transparent self) in
  let r := allReady r (infographic self) in
  r.

End Ready.

(** The resources the tasks of the three lists refer to. *)
Definition resources (self : t) : list string :=
  flat_map RenderTask.resources
           (opaque self ++ transparent self ++ infographic self).

End Renders.

(** ** The traverse queue *)

(** [TraverseNode::TraverseNode(parent, nodeInfo)]: no meta node yet, and a
    priority that is not a number. *)
Definition newTraverseNode (nodeInfo : NodeInfo.t) : TraverseNode.t :=
  TraverseNode.mk nodeInfo None PrimFloat.nan.

Module TraverseQueueItem.
Record t : Type := mk { trav : TraverseNode.t; loadOnly : bool }.

(** [TraverseQueueItem::operator <]. *)
Definition lt (self other : t) : bool :=
  (TraverseNode.priority (trav self) <? TraverseNode.priority (trav other))%float.
End TraverseQueueItem.

End BrowserLib.

(* ================================================================== *)
(** * vts-librenderer/classes.cpp: [Mesh] *)
(* ================================================================== *)

Module Renderer.

(** The contents of a GL buffer object: a block of [elemSize]-byte values in
    the layout of the host. *)
Module BufferData.
Record t : Type := mk { elemSize : Z; elems : list Z }.
Definition sizeInBytes (d : t) : Z := elemSize d * Z.of_nat (length (elems d)).
End BufferData.

Inductive Target : Type := ARRAY_BUFFER | ELEMENT_ARRAY_BUFFER.

(** The GL context as far as buffer objects go: the next unused name, the
    buffer bound to each target (0 is "none") and the data stores.  OpenGL
    may hand out any name that is not in use, one it has deleted included;
    the counter is one such behaviour, and nothing stated of [Mesh::load]
    below is about which names it is given. *)
Module GL.
Record t : Type := mk {
  nextName : Z;
  boundArray : Z;
  boundElementArray : Z;
  store : gmap Z BufferData.t }.

Definition bound (gl : t) (target : Target) : Z :=
  match target with
  | ARRAY_BUFFER => boundArray gl
  | ELEMENT_ARRAY_BUFFER => boundElementArray gl
  end.

(** [glGenBuffers(1, &name)]. *)
Definition glGenBuffers (gl : t) : Z * t :=
  (nextName gl,
   mk (nextName gl + 1) (boundArray gl) (boundElementArray gl) (store gl)).

(** [glBindBuffer(target, name)]. *)
Definition glBindBuffer (gl : t) (target : Target) (name : Z) : t :=
  match target with
  | ARRAY_BUFFER => mk (nextName gl) name (boundElementArray gl) (store gl)
  | ELEMENT_ARRAY_BUFFER => mk (nextName gl) (boundArray gl) name (store gl)
  end.

(** [glBufferData(target, size, data, GL_STATIC_DRAW)]. *)
Definition glBufferData (gl : t) (target : Target) (data : BufferData.t) : t :=
  mk (nextName gl) (boundArray gl) (boundElementArray gl)
     (<[bound gl target := data]> (store gl)).

(** [glDeleteBuffers(1, &name)]: the store goes, and so do bindings to it. *)
Definition glDeleteBuffers (gl : t) (name : Z) : t :=
  mk (nextName gl)
     (if boundArray gl =? name then 0 else boundArray gl)
     (if boundElementArray gl =? name then 0 else boundElementArray gl)
     (delete name (store gl)).
End GL.

(** [GpuMeshSpec]: [vertices] is the byte buffer, [indices] the index buffer
    read as the [uint32_t] array [Mesh::load] casts it to. *)
Module GpuMeshSpec.
Record t : Type := mk {
  vertices : list Z;
  indices : list Z;
  verticesCount : Z;
  indicesCount : Z }.
(** [spec.indices.size()], in bytes. *)
Definition indicesSize (s : t) : Z := 4 * Z.of_nat (length (indices s)).
Definition verticesSize (s : t) : Z := Z.of_nat (length (vertices s)).
End GpuMeshSpec.

Module ResourceInfo.
Record t : Type := mk { ramMemoryCost : Z; gpuMemoryCost : Z }.
End ResourceInfo.

Module Mesh.

Record t : Type := mk {
  vbo : Z;
  vio : Z;
  spec : GpuMeshSpec.t;
  debugId : string }.

(** [Mesh::clear]. *)
Definition clear (self : t) (gl : GL.t) : t * GL.t :=
  let gl := if vbo self =? 0 then gl else GL.glDeleteBuffers gl (vbo self) in
  let gl := if vio self =? 0 then gl else GL.glDeleteBuffers gl (vio self) in
  (mk 0 0 (spec self) (debugId self), gl).

(** The assignment [uint16_indices[i] = uint32_indices[i]]: the conversion
    to [uint16_t] keeps the value modulo 2^16. *)
Definition to_u16 (v : Z) : Z := v mod 65536.

(** The loop [for (i = 0; i < indicesCount; i++) uint16_indices[i] =
    uint32_indices[i]], [n] iterations from index [i] on.  Reading
    [uint32_indices] past the buffer has no defined value in C++; the model
    reads 0 there. *)
Fixpoint convertIndices (n i : nat) (uint32_indices uint16_indices : list Z)
    : list Z :=
  match n with
  | O => uint16_indices
  | S n' =>
      convertIndices n' (S i) uint32_indices
        (<[i := to_u16 (nth i uint32_indices 0)]> uint16_indices)
  end.

Section Load.

(** [sizeof(Mesh)]. *)
Variable sizeofMesh : Z.

(** [Mesh::load].  The debug label and [CHECK_GL] do not touch buffer
    contents and are left out; [Buffer::free] empties the two buffers of the
    spec the mesh keeps. *)
Definition load (self : t) (gl : GL.t) (info : ResourceInfo.t)
    (specp : GpuMeshSpec.t) (debugIdp : string)
    : t * GL.t * ResourceInfo.t :=
  let '(self, gl) := clear self gl in
  let spec := specp in
  let '(vbo, gl) :=
    if GpuMeshSpec.verticesCount spec =? 0 then (vbo self, gl)
    else
      let '(name, gl) := GL.glGenBuffers gl in
      let gl := GL.glBindBuffer gl ARRAY_BUFFER name in
      (name, GL.glBufferData gl ARRAY_BUFFER
               (BufferData.mk 1 (GpuMeshSpec.vertices spec))) in
  let '(vio, gl) :=
    if GpuMeshSpec.indicesCount spec =? 0 then (vio self, gl)
    else
      let '(name, gl) := GL.glGenBuffers gl in
      let gl := GL.glBindBuffer gl ELEMENT_ARRAY_BUFFER name in
      let count := Z.to_nat (GpuMeshSpec.indicesCount spec) in
      let uint16_indices_buffer := replicate count 0 in
      let uint16_indices :=
        convertIndices count 0 (GpuMeshSpec.indices spec)
                       uint16_indices_buffer in
      (name, GL.glBufferData gl ELEMENT_ARRAY_BUFFER
               (BufferData.mk 2 uint16_indices)) in
  let info :=
    ResourceInfo.mk
      (ResourceInfo.ramMemoryCost info + sizeofMesh)
      (ResourceInfo.gpuMemoryCost info
       + GpuMeshSpec.verticesSize spec + GpuMeshSpec.indicesSize spec) in
  (mk vbo vio
      (GpuMeshSpec.mk [] [] (GpuMeshSpec.verticesCount spec)
                      (GpuMeshSpec.indicesCount spec))
      debugIdp,
   gl, info).

End Load.

End Mesh.

(** ** GL calls of the other classes

    [Texture], [UniformBuffer] and [Shader] are embedded with the GL calls
    they make, in program order.  Names of GL objects are [GLuint]s; the
    name a [glGen*] or [glCreate*] call hands out is an argument of the
    function that makes the call.  [CHECK_GL], which reports the errors of
    the GL itself, and logging are left out. *)

(** The C++ exceptions the file throws. *)
Inductive Exn : Type := invalid_argument | runtime_error.

(** The outcome of a call that may throw. *)
Inductive Result (A : Type) : Type :=
  | Returns (a : A)
  | Throws (e : Exn).
Arguments Returns {A} a.
Arguments Throws {A} e.

(** [GpuTypeEnum]; [Other] stands for a value of the type that is none of
    the enumerators the file names. *)
Module GpuTypeEnum.
Inductive t : Type :=
  | Byte | UnsignedByte | Short | UnsignedShort | Int | UnsignedInt
  | HalfFloat | Float | Other.
End GpuTypeEnum.

(** [GpuTextureSpec::FilterMode], with [Other] as for [GpuTypeEnum]. *)
Module FilterMode.
Inductive t : Type :=
  | Nearest | Linear
  | NearestMipmapNearest | LinearMipmapNearest
  | NearestMipmapLinear | LinearMipmapLinear
  | Other.
End FilterMode.

(** The GL constants [findInternalFormat] and [findFormat] answer with;
    [Raw v] is a [GLenum] given by its value. *)
Module GLenum.
Inductive t : Type :=
  | GL_R8 | GL_RG8 | GL_RGB8 | GL_RGBA8
  | GL_R16 | GL_RG16 | GL_RGB16 | GL_RGBA16
  | GL_R32I | GL_RG32I | GL_RGB32I | GL_RGBA32I
  | GL_R32UI | GL_RG32UI | GL_RGB32UI | GL_RGBA32UI
  | GL_R16F | GL_RG16F | GL_RGB16F | GL_RGBA16F
  | GL_R32F | GL_RG32F | GL_RGB32F | GL_RGBA32F
  | GL_RED | GL_RG | GL_RGB | GL_RGBA
  | Raw (v : Z).
End GLenum.

Inductive ObjectType : Type := GL_PROGRAM | GL_TEXTURE | GL_BUFFER.

Inductive ShaderStage : Type := GL_VERTEX_SHADER | GL_FRAGMENT_SHADER.

(** The parameter and the value of a [glTexParameteri] or [glTexParameterf]
    call on [GL_TEXTURE_2D]. *)
Inductive TexParameter : Type :=
  | GL_TEXTURE_MIN_FILTER (mode : FilterMode.t)
  | GL_TEXTURE_MAG_FILTER (mode : FilterMode.t)
  | GL_TEXTURE_WRAP_S (wrapMode : Z)
  | GL_TEXTURE_WRAP_T (wrapMode : Z)
  | GL_TEXTURE_MAX_ANISOTROPY_EXT (samples : float).

Inductive Call : Type :=
  | glObjectLabel (type : ObjectType) (id : Z) (label : string)
  | glFinish
  (* textures, all on GL_TEXTURE_2D *)
  | glDeleteTextures (id : Z)
  | glGenTextures (id : Z)
  | glBindTexture (id : Z)
  | glTexImage2D (internalFormat : GLenum.t) (width height : Z)
                 (format : GLenum.t) (type : GpuTypeEnum.t) (data : list Z)
  | glTexParameter (p : TexParameter)
  | glGenerateMipmap
  (* uniform buffers, all on GL_UNIFORM_BUFFER *)
  | glDeleteBuffers (name : Z)
  | glGenBuffers (name : Z)
  | glBindBuffer (name : Z)
  | glBindBufferBase (index name : Z)
  | glBufferSubData (offset size : Z) (data : list Z)
  | glBufferData (size : Z) (data : list Z) (usage : Z)
  (* shaders and programs *)
  | glDeleteProgram (program : Z)
  | glCreateProgram (program : Z)
  | glUseProgram (program : Z)
  | glCreateShader (stage : ShaderStage) (shader : Z)
  | glShaderSource (shader : Z) (source : string)
  | glCompileShader (shader : Z)
  | glDeleteShader (shader : Z)
  | glAttachShader (program shader : Z)
  | glLinkProgram (program : Z).

(** [setDebugLabel]; [khr_debug] is [GLAD_GL_KHR_debug]. *)
Definition setDebugLabel (khr_debug : bool) (type : ObjectType) (id : Z)
    (name : string) : list Call :=
  if negb khr_debug || String.eqb name EmptyString || (id =? 0) then []
  else
    let name := substring 0 200 name in
    [glObjectLabel type id name].

(** [GpuTextureSpec]: [buffer] is the byte buffer, [internalFormat] is 0
    when the format is to be deduced. *)
Module GpuTextureSpec.
Record t : Type := mk {
  width : Z;
  height : Z;
  components : Z;
  type : GpuTypeEnum.t;
  internalFormat : Z;
  filterMode : FilterMode.t;
  wrapMode : Z;
  buffer : list Z }.

Definition set_filterMode (v : FilterMode.t) (self : t) : t :=
  mk (width self) (height self) (components self) (type self)
     (internalFormat self) v (wrapMode self) (buffer self).
End GpuTextureSpec.

(** [findInternalFormat]. *)
Definition findInternalFormat (spec : GpuTextureSpec.t) : Result GLenum.t :=
  if negb (GpuTextureSpec.internalFormat spec =? 0)
  then Returns (GLenum.Raw (GpuTextureSpec.internalFormat spec))
  else
    match GpuTextureSpec.type spec with
    | GpuTypeEnum.Byte | GpuTypeEnum.UnsignedByte =>
        match GpuTextureSpec.components spec with
        | 1 => Returns GLenum.GL_R8
        | 2 => Returns GLenum.GL_RG8
        | 3 => Returns GLenum.GL_RGB8
        | 4 => Returns GLenum.GL_RGBA8
        | _ => Throws invalid_argument
        end
    | GpuTypeEnum.Short | GpuTypeEnum.UnsignedShort =>
        match GpuTextureSpec.components spec with
        | 1 => Returns GLenum.GL_R16
        | 2 => Returns GLenum.GL_RG16
        | 3 => Returns GLenum.GL_RGB16
        | 4 => Returns GLenum.GL_RGBA16
        | _ => Throws invalid_argument
        end
    | GpuTypeEnum.Int =>
        match GpuTextureSpec.components spec with
        | 1 => Returns GLenum.GL_R32I
        | 2 => Returns GLenum.GL_RG32I
        | 3 => Returns GLenum.GL_RGB32I
        | 4 => Returns GLenum.GL_RGBA32I
        | _ => Throws invalid_argument
        end
    | GpuTypeEnum.UnsignedInt =>
        match GpuTextureSpec.components spec with
        | 1 => Returns GLenum.GL_R32UI
        | 2 => Returns GLenum.GL_RG32UI
        | 3 => Returns GLenum.GL_RGB32UI
        | 4 => Returns GLenum.GL_RGBA32UI
        | _ => Throws invalid_argument
        end
    | GpuTypeEnum.HalfFloat =>
        match GpuTextureSpec.components spec with
        | 1 => Returns GLenum.GL_R16F
        | 2 => Returns GLenum.GL_RG16F
        | 3 => Returns GLenum.GL_RGB16F
        | 4 => Returns GLenum.GL_RGBA16F
        | _ => Throws invalid_argument
        end
    | GpuTypeEnum.Float =>
        match GpuTextureSpec.components spec with
        | 1 => Returns GLenum.GL_R32F
        | 2 => Returns GLenum.GL_RG32F
        | 3 => Returns GLenum.GL_RGB32F
        | 4 => Returns GLenum.GL_RGBA32F
        | _ => Throws invalid_argument
        end
    | GpuTypeEnum.Other => Throws invalid_argument
    end.

(** [findFormat]. *)
Definition findFormat (spec : GpuTextureSpec.t) : Result GLenum.t :=
  match GpuTextureSpec.components spec with
  | 1 => Returns GLenum.GL_RED
  | 2 => Returns GLenum.GL_RG
  | 3 => Returns GLenum.GL_RGB
  | 4 => Returns GLenum.GL_RGBA
  | _ => Throws invalid_argument
  end.

(** [magFilter]. *)
Definition magFilter (filterMode : FilterMode.t) : Result FilterMode.t :=
  match filterMode with
  | FilterMode.Nearest
  | FilterMode.NearestMipmapNearest
  | FilterMode.LinearMipmapNearest => Returns FilterMode.Nearest
  | FilterMode.Linear
  | FilterMode.LinearMipmapLinear
  | FilterMode.NearestMipmapLinear => Returns FilterMode.Linear
  | FilterMode.Other => Throws invalid_argument
  end.

(** [enforceUsingMipMaps]: the new value of the filter mode. *)
Definition enforceUsingMipMaps (filterMode : FilterMode.t)
    : Result FilterMode.t :=
  match filterMode with
  | FilterMode.Nearest
  | FilterMode.NearestMipmapNearest
  | FilterMode.LinearMipmapNearest => Returns FilterMode.LinearMipmapNearest
  | FilterMode.Linear
  | FilterMode.LinearMipmapLinear
  | FilterMode.NearestMipmapLinear => Returns FilterMode.LinearMipmapLinear
  | FilterMode.Other => Throws invalid_argument
  end.

(** [gpuTypeInteger]. *)
Definition gpuTypeInteger (type : GpuTypeEnum.t) : bool :=
  match type with
  | GpuTypeEnum.Byte | GpuTypeEnum.UnsignedByte
  | GpuTypeEnum.Short | GpuTypeEnum.UnsignedShort
  | GpuTypeEnum.Int | GpuTypeEnum.UnsignedInt => true
  | _ => false
  end.

Module Texture.

Record t : Type := mk { id : Z; grayscale : bool; debugId : string }.

(** [Texture::Texture()]: an object that owns no GL texture. *)
Definition make : t := mk 0 false EmptyString.

(** [Texture::clear]. *)
Definition clear (self : t) : t * list Call :=
  (mk 0 (grayscale self) (debugId self),
   if id self =? 0 then [] else [glDeleteTextures (id self)]).

(** [Texture::setId]. *)
Definition setId (self : t) (id : Z) : t * list Call :=
  let '(self, calls) := clear self in
  (mk id false (debugId self), calls).

Section Load.

(** [GLAD_GL_KHR_debug], [GLAD_GL_EXT_texture_filter_anisotropic],
    [maxAnisotropySamples] and [sizeof(Texture)]. *)
Variable khr_debug : bool.
Variable ext_texture_filter_anisotropic : bool.
Variable maxAnisotropySamples : float.
Variable sizeofTexture : Z.

(** [Texture::setDebugId]. *)
Definition setDebugId (self : t) (name : string) : t * list Call :=
  let self := mk (id self) (grayscale self) name in
  (self, setDebugLabel khr_debug GL_TEXTURE (id self) name).

(** [Texture::load]: the exception that ends the call, if one does, the
    texture and the resource info as the call leaves them, and the GL calls
    made.  [newId] is the name [glGenTextures] hands out.  The arguments of
    [glTexImage2D] are evaluated before the call, in an order C++ leaves
    open; both deductions throw the same exception. *)
Definition load (newId : Z) (self : t) (info : ResourceInfo.t)
    (spec : GpuTextureSpec.t) (debugIdp : string)
    : option Exn * t * ResourceInfo.t * list Call :=
  let '(self, calls) := clear self in
  let self := mk newId (grayscale self) (debugId self) in
  let calls := calls ++ [glGenTextures newId; glBindTexture newId] in
  match findInternalFormat spec, findFormat spec with
  | Throws e, _ | Returns _, Throws e => (Some e, self, info, calls)
  | Returns internalFormat, Returns format =>
    let calls :=
      calls ++ [glTexImage2D internalFormat (GpuTextureSpec.width spec)
                  (GpuTextureSpec.height spec) format
                  (GpuTextureSpec.type spec) (GpuTextureSpec.buffer spec);
                glTexParameter
                  (GL_TEXTURE_MIN_FILTER (GpuTextureSpec.filterMode spec))] in
    match magFilter (GpuTextureSpec.filterMode spec) with
    | Throws e => (Some e, self, info, calls)
    | Returns mag =>
      let calls :=
        calls ++ [glTexParameter (GL_TEXTURE_MAG_FILTER mag);
                  glTexParameter
                    (GL_TEXTURE_WRAP_S (GpuTextureSpec.wrapMode spec));
                  glTexParameter
                    (GL_TEXTURE_WRAP_T (GpuTextureSpec.wrapMode spec))] in
      let calls :=
        if ext_texture_filter_anisotropic
        then calls ++ [glTexParameter
                         (GL_TEXTURE_MAX_ANISOTROPY_EXT maxAnisotropySamples)]
        else calls in
      let calls :=
        match GpuTextureSpec.filterMode spec with
        | FilterMode.Nearest | FilterMode.Linear => calls
        | _ => calls ++ [glGenerateMipmap]
        end in
      let self := mk (id self) (GpuTextureSpec.components spec =? 1)
                     (debugId self) in
      let '(self, label) := setDebugId self debugIdp in
      let info :=
        ResourceInfo.mk
          (ResourceInfo.ramMemoryCost info + sizeofTexture)
          (ResourceInfo.gpuMemoryCost info
           + Z.of_nat (length (GpuTextureSpec.buffer spec))) in
      (None, self, info, calls ++ label)
    end
  end.

(** [RenderContext::loadTexture]: the exception, the texture stored in
    [info.userData] when the call returns, the resource info, the spec as
    the call leaves it (it is passed by reference), and the GL calls.
    The two flags are the options [enforceUsingMipMaps] and
    [callGlFinishAfterUploadingData].  When [load] throws, the new texture
    object goes out of scope and its destructor runs [clear]. *)
Definition loadTexture (optEnforceUsingMipMaps optCallGlFinish : bool)
    (newId : Z) (info : ResourceInfo.t) (spec : GpuTextureSpec.t)
    (debugIdp : string)
    : option Exn * option t * ResourceInfo.t * GpuTextureSpec.t * list Call :=
  let enforced :=
    if optEnforceUsingMipMaps
    then enforceUsingMipMaps (GpuTextureSpec.filterMode spec)
    else Returns (GpuTextureSpec.filterMode spec) in
  match enforced with
  | Throws e => (Some e, None, info, spec, [])
  | Returns mode =>
    let spec := GpuTextureSpec.set_filterMode mode spec in
    let r := make in
    match load newId r info spec debugIdp with
    | (Some e, r, info, calls) =>
        (Some e, None, info, spec, calls ++ snd (clear r))
    | (None, r, info, calls) =>
        (None, Some r, info, spec,
         calls ++ (if optCallGlFinish then [glFinish] else []))
    end
  end.

End Load.

End Texture.

Module UniformBuffer.

Record t : Type := mk {
  debugId : string;
  ubo : Z;
  lastUsage : Z;
  capacity : Z }.

(** [UniformBuffer::UniformBuffer()]. *)
Definition make : t := mk EmptyString 0 0 0.

(** [UniformBuffer::clear]. *)
Definition clear (self : t) : t * list Call :=
  (mk (debugId self) 0 0 0,
   if ubo self =? 0 then [] else [glDeleteBuffers (ubo self)]).

Section Bind.

Variable khr_debug : bool.

(** [UniformBuffer::setDebugId]. *)
Definition setDebugId (self : t) (id : string) : t * list Call :=
  let self := mk id (ubo self) (lastUsage self) (capacity self) in
  (self, setDebugLabel khr_debug GL_BUFFER (ubo self) (debugId self)).

(** [UniformBuffer::bindInit]; [newName] is the name [glGenBuffers] hands
    out when it is called. *)
Definition bindInit (newName : Z) (self : t) : t * list Call :=
  if ubo self =? 0 then
    let self := mk (debugId self) newName (lastUsage self) (capacity self) in
    let '(self, label) := setDebugId self (debugId self) in
    (self, [glGenBuffers newName; glBindBuffer newName] ++ label)
  else (self, []).

(** [UniformBuffer::bind]. *)
Definition bind (newName : Z) (self : t) : t * list Call :=
  let '(self, calls) := bindInit newName self in
  (self, calls ++ [glBindBuffer (ubo self)]).

(** [UniformBuffer::bindToIndex]. *)
Definition bindToIndex (newName : Z) (self : t) (index : Z) : t * list Call :=
  let '(self, calls) := bindInit newName self in
  (self, calls ++ [glBindBufferBase index (ubo self)]).

End Bind.

(** [UniformBuffer::load(data, size, usage)], in a build without
    [VTSR_UWP]. *)
Definition load (self : t) (data : list Z) (size usage : Z) : t * list Call :=
  if (size <=? capacity self) && (usage =? lastUsage self)
  then (self, [glBufferSubData 0 size data])
  else (mk (debugId self) (ubo self) usage size,
        [glBufferData size data usage]).


End UniformBuffer.

Module Shader.

Record t : Type := mk {
  id : Z;
  debugId : string;
  uniformLocations : list Z }.

(** [Shader::clear]. *)
Definition clear (self : t) : t * list Call :=
  (mk 0 (debugId self) (uniformLocations self),
   if id self =? 0 then [] else [glDeleteProgram (id self)]).

Section Load.

Variable khr_debug : bool.
(** [Shader::preamble]. *)
Variable preamble : string.
(** What the GL answers: [GL_COMPILE_STATUS] of a source compiled for a
    stage, [GL_LINK_STATUS] of the program linked from two sources, and
    [glGetUniformLocation]. *)
Variable compiles : ShaderStage -> string -> bool.
Variable links : string -> string -> bool.
Variable glGetUniformLocation : Z -> string -> Z.

(** [Shader::setDebugId]. *)
Definition setDebugId (self : t) (name : string) : t * list Call :=
  let self := mk (id self) name (uniformLocations self) in
  (self, setDebugLabel khr_debug GL_PROGRAM (id self) (debugId self)).

(** [Shader::bind]. *)
Definition bind (self : t) : list Call := [glUseProgram (id self)].

(** [Shader::loadShader]; [s] is the name [glCreateShader] hands out. *)
Definition loadShader (s : Z) (source : string) (stage : ShaderStage)
    : Result Z * list Call :=
  let calls := [glCreateShader stage s; glShaderSource s source;
                glCompileShader s] in
  if compiles stage source then (Returns s, calls)
  else (Throws runtime_error, calls ++ [glDeleteShader s]).

(** The line feed of the C++ string literals. *)
Definition lf : string := String (Ascii.ascii_of_nat 10) EmptyString.

(** The sources [load] compiles:
    [preamble + "#define VTS_STAGE_VERTEX\n" + vertexShader] and its
    counterpart for the fragment stage. *)
Definition vertexSource (vertexShader : string) : string :=
  (preamble ++ "#define VTS_STAGE_VERTEX" ++ lf ++ vertexShader)%string.

Definition fragmentSource (fragmentShader : string) : string :=
  (preamble ++ "#define VTS_STAGE_FRAGMENT" ++ lf ++ fragmentShader)%string.

(** [Shader::load]; [newProgram], [v] and [f] are the names [glCreateProgram]
    and the two [glCreateShader] calls hand out.  [failed] is the handler
    [catch (...) { glDeleteProgram(id); id = 0; throw; }]. *)
Definition load (newProgram v f : Z) (self : t)
    (vertexShader fragmentShader : string) : option Exn * t * list Call :=
  let '(self, calls) := clear self in
  let self := mk newProgram (debugId self) (uniformLocations self) in
  let calls := calls ++ [glCreateProgram newProgram] in
  let failed (e : Exn) (calls : list Call) :=
    (Some e, mk 0 (debugId self) (uniformLocations self),
     calls ++ [glDeleteProgram (id self)]) in
  match loadShader v (vertexSource vertexShader) GL_VERTEX_SHADER with
  | (Throws e, cv) => failed e (calls ++ cv)
  | (Returns v, cv) =>
    match loadShader f (fragmentSource fragmentShader) GL_FRAGMENT_SHADER with
    | (Throws e, cf) => failed e (calls ++ cv ++ cf)
    | (Returns f, cf) =>
      let calls :=
        calls ++ cv ++ cf
        ++ [glAttachShader (id self) v; glAttachShader (id self) f;
            glLinkProgram (id self); glDeleteShader v; glDeleteShader f] in
      if links (vertexSource vertexShader) (fragmentSource fragmentShader)
      then
        let '(self, label) := setDebugId self (debugId self) in
        (None, self, calls ++ label)
      else failed runtime_error calls
    end
  end.

(** [Shader::loadUniformLocations]: the index of the first new location,
    the shader, and the GL calls. *)
Definition loadUniformLocations (self : t) (names : list string)
    : Z * t * list Call :=
  let calls := bind self in
  let res := Z.of_nat (length (uniformLocations self)) in
  (res,
   mk (id self) (debugId self)
      (uniformLocations self
       ++ List.map (glGetUniformLocation (id self)) names),
   calls).

End Load.

End Shader.

(** The bytes GL holds for the two buffers of a mesh. *)
Definition meshBytes (gl : GL.t) (m : Mesh.t) : Z :=
  match GL.store gl !! Mesh.vbo m with
  | Some d => BufferData.sizeInBytes d
  | None => 0
  end
  + match GL.store gl !! Mesh.vio m with
    | Some d => BufferData.sizeInBytes d
    | None => 0
    end.

(** The names GL has not handed out yet are unused: every buffer that
    exists, and every buffer of the mesh, has a name below [nextName]. *)
Definition namesInUse (gl : GL.t) (m : Mesh.t) : Prop :=
  0 < GL.nextName gl
  /\ (forall (name : Z) (d : BufferData.t),
        GL.store gl !! name = Some d -> 0 < name < GL.nextName gl)
  /\ 0 <= Mesh.vbo m < GL.nextName gl
  /\ 0 <= Mesh.vio m < GL.nextName gl.

End Renderer.

(* ================================================================== *)
(** * vts-libbrowser/camera/traversal.cpp *)
(* ================================================================== *)

Module LibBrowser.

Definition mat4 : Type := list float.

(** [vtslibs::vts::MetaNode] as the traversal reads it: the values of
    [flags()], [childFlags()], [alien()], [geometry()], [sourceReference]
    and [credits()]. *)
Module VtsMetaNode.
Record t : Type := mk {
  flags : Z;
  childFlags : Z;
  alien : bool;
  geometry : bool;
  sourceReference : nat;
  credits : list Z }.
End VtsMetaNode.

(** The browser's [MetaNode] ([trav->meta]). *)
Module MetaNode.
Record t : Type := mk {
  localId : TileId.t;
  aabbPhys : Num.vec3 * Num.vec3;
  surrogatePhys : Num.vec3;
  texelSize : float }.
End MetaNode.

(** [SurfaceInfo]: the URL templates of a surface and its alien flag. *)
Module SurfaceInfo.
Record t : Type := mk {
  urlMeta : Vars.t -> string;
  urlMesh : Vars.t -> string;
  urlIntTex : Vars.t -> string;
  urlGeodata : Vars.t -> string;
  alien : bool }.
Definition empty : t :=
  mk (fun _ => EmptyString) (fun _ => EmptyString) (fun _ => EmptyString)
     (fun _ => EmptyString) false.
End SurfaceInfo.

(** A [const SurfaceInfo *]: the traversal only ever stores the address of an
    element of [layer->surfaceStack.surfaces] or of
    [layer->tilesetStack->surfaces]. *)
Inductive SurfaceRef : Type :=
  | InSurfaceStack (i : nat)
  | InTilesetStack (i : nat).

Module BoundInfo.
(** [credits]: the keys of the bound layer's credits. *)
Record t : Type := mk { credits : list Z }.
End BoundInfo.

(** [BoundParamInfo] as the draw classification reads it after
    [reorderBoundLayers]; [uvTrans] is the value of [uvTrans()]. *)
Module BoundParamInfo.
Record t : Type := mk {
  id : string;
  alpha : option float;
  bound : option BoundInfo.t;
  boundMetaTile : option string;
  textureColor : option string;
  textureMask : option string;
  transparent : bool;
  uvTrans : Num.mat3f }.
(** [BoundParamInfo(View::BoundLayerParams(id))]. *)
Definition make (id : string) : t :=
  mk id None None None None None false Num.identity3f.
End BoundParamInfo.

Module MeshPart.
Record t : Type := mk {
  renderable : string;
  normToPhys : mat4;
  internalUv : bool;
  externalUv : bool;
  textureLayer : Z;
  surfaceReference : Z }.
End MeshPart.

Module RenderSurfaceTask.
(** [color3] is [color(3)]. *)
Record t : Type := mk {
  mesh : option string;
  textureColor : option string;
  textureMask : option string;
  model : mat4;
  uvTrans : Num.mat3f;
  color3 : float;
  externalUv : bool;
  boundLayerId : string }.
(** A default-constructed task. *)
Definition empty : t :=
  mk None None None [] Num.identity3f 1%float false EmptyString.
End RenderSurfaceTask.

Module RenderColliderTask.
Record t : Type := mk { mesh : option string; model : mat4 }.
End RenderColliderTask.

Module DrawGeodataTask.
(** The aliasing pointer [shared_ptr<void>(geo, r.userData.get())]: the
    geodata tile and the user data of one of its renders. *)
Record t : Type := mk { geodata : string * Z }.
End DrawGeodataTask.

Module TraverseNode.

Inductive t : Type := mk {
  id : TileId.t;
  meta : option MetaNode.t;
  surface : option SurfaceRef;
  determined : bool;
  metaTiles : list (option string);
  priority : float;
  credits : list Z;
  resources : list string;
  opaque : list RenderSurfaceTask.t;
  transparent : list RenderSurfaceTask.t;
  colliders : list RenderColliderTask.t;
  geodata : list DrawGeodataTask.t;
  lastAccessTime : Z;
  lastRenderTime : Z;
  childs : list t }.

Definition set_meta (v : option MetaNode.t) (self : t) : t :=
  mk (id self) v (surface self) (determined self) (metaTiles self) (priority self) (credits self) (resources self) (opaque self) (transparent self) (colliders self) (geodata self) (lastAccessTime self) (lastRenderTime self) (childs self).
Definition set_surface (v : option SurfaceRef) (self : t) : t :=
  mk (id self) (meta self) v (determined self) (metaTiles self) (priority self) (credits self) (resources self) (opaque self) (transparent self) (colliders self) (geodata self) (lastAccessTime self) (lastRenderTime self) (childs self).
Definition set_determined (v : bool) (self : t) : t :=
  mk (id self) (meta self) (surface self) v (metaTiles self) (priority self) (credits self) (resources self) (opaque self) (transparent self) (colliders self) (geodata self) (lastAccessTime self) (lastRenderTime self) (childs self).
Definition set_metaTiles (v : list (option string)) (self : t) : t :=
  mk (id self) (meta self) (surface self) (determined self) v (priority self) (credits self) (resources self) (opaque self) (transparent self) (colliders self) (geodata self) (lastAccessTime self) (lastRenderTime self) (childs self).
Definition set_priority (v : float) (self : t) : t :=
  mk (id self) (meta self) (surface self) (determined self) (metaTiles self) v (credits self) (resources self) (opaque self) (transparent self) (colliders self) (geodata self) (lastAccessTime self) (lastRenderTime self) (childs self).
Definition set_credits (v : list Z) (self : t) : t :=
  mk (id self) (meta self) (surface self) (determined self) (metaTiles self) (priority self) v (resources self) (opaque self) (transparent self) (colliders self) (geodata self) (lastAccessTime self) (lastRenderTime self) (childs self).
Definition set_resources (v : list string) (self : t) : t :=
  mk (id self) (meta self) (surface self) (determined self) (metaTiles self) (priority self) (credits self) v (opaque self) (transparent self) (colliders self) (geodata self) (lastAccessTime self) (lastRenderTime self) (childs self).
Definition set_opaque (v : list RenderSurfaceTask.t) (self : t) : t :=
  mk (id self) (meta self) (surface self) (determined self) (metaTiles self) (priority self) (credits self) (resources self) v (transparent self) (colliders self) (geodata self) (lastAccessTime self) (lastRenderTime self) (childs self).
Definition set_transparent (v : list RenderSurfaceTask.t) (self : t) : t :=
  mk (id self) (meta self) (surface self) (determined self) (metaTiles self) (priority self) (credits self) (resources self) (opaque self) v (colliders self) (geodata self) (lastAccessTime self) (lastRenderTime self) (childs self).
Definition set_colliders (v : list RenderColliderTask.t) (self : t) : t :=
  mk (id self) (meta self) (surface self) (determined self) (metaTiles self) (priority self) (credits self) (resources self) (opaque self) (transparent self) v (geodata self) (lastAccessTime self) (lastRenderTime self) (childs self).
Definition set_geodata (v : list DrawGeodataTask.t) (self : t) : t :=
  mk (id self) (meta self) (surface self) (determined self) (metaTiles self) (priority self) (credits self) (resources self) (opaque self) (transparent self) (colliders self) v (lastAccessTime self) (lastRenderTime self) (childs self).
Definition set_lastAccessTime (v : Z) (self : t) : t :=
  mk (id self) (meta self) (surface self) (determined self) (metaTiles self) (priority self) (credits self) (resources self) (opaque self) (transparent self) (colliders self) (geodata self) v (lastRenderTime self) (childs self).
Definition set_lastRenderTime (v : Z) (self : t) : t :=
  mk (id self) (meta self) (surface self) (determined self) (metaTiles self) (priority self) (credits self) (resources self) (opaque self) (transparent self) (colliders self) (geodata self) (lastAccessTime self) v (childs self).
Definition set_childs (v : list t) (self : t) : t :=
  mk (id self) (meta self) (surface self) (determined self) (metaTiles self) (priority self) (credits self) (resources self) (opaque self) (transparent self) (colliders self) (geodata self) (lastAccessTime self) (lastRenderTime self) v.

(** [TraverseNode(layer, parent, id)]: a node nothing is known about. *)
Definition make (i : TileId.t) : t :=
  mk i None None false [] PrimFloat.nan [] [] [] [] [] [] 0 0 [].

(** [rendersEmpty()]. *)
Definition rendersEmpty (self : t) : bool :=
  match opaque self, transparent self, geodata self, colliders self with
  | [], [], [], [] => true
  | _, _, _, _ => false
  end.

End TraverseNode.

Inductive FreeLayerType : Type :=
  | FL_meshTiles | FL_geodataTiles | FL_geodata.

(** [MapLayer]: the stacks of the layer, the type of its free layer (if it
    is one), and the values of [isGeodata()] and [boundList(...)]. *)
Module MapLayer.
Record t : Type := mk {
  surfaceStack : list SurfaceInfo.t;
  tilesetStack : option (list SurfaceInfo.t);
  freeLayer : option FreeLayerType;
  freeLayerName : string;
  isGeodata : bool;
  boundList : option SurfaceRef -> Z -> list BoundParamInfo.t }.

(** [*ref] for a surface pointer of this layer.  The code only dereferences
    pointers it has set; the model reads an empty surface elsewhere. *)
Definition deref (layer : t) (ref : option SurfaceRef) : SurfaceInfo.t :=
  match ref with
  | Some (InSurfaceStack i) => nth i (surfaceStack layer) SurfaceInfo.empty
  | Some (InTilesetStack i) =>
      nth i (default [] (tilesetStack layer)) SurfaceInfo.empty
  | None => SurfaceInfo.empty
  end.
End MapLayer.

(** [MapImpl]: the resource cache and the map configuration, as the
    traversal reads them during one pass.  The contents of loaded resources
    are given per resource name. *)
Module MapImpl.
Record t : Type := mk {
  renderTickIndex : Z;
  getResourceValidity : string -> Validity;
  roundId : TileId.t -> TileId.t;
  (* MetaTile::get and MetaTile::getNode *)
  metaTileGet : string -> TileId.t -> VtsMetaNode.t;
  metaTileGetNode : string -> TileId.t -> MetaNode.t;
  (* MeshAggregate::submeshes *)
  submeshes : string -> list MeshPart.t;
  (* mapconfig->boundLayers.get(k).id *)
  boundLayerId : Z -> string;
  (* credits->find(key) *)
  creditsFind : Z -> option Z;
  getActualGeoStyle : string -> Validity * string;
  getActualGeoFeatures : string -> string -> float -> Validity * string;
  (* GeodataTile::renders, by user data *)
  geodataRenders : string -> list Z;
  (* generateMetaNode(mapconfig, convertor, id, g) *)
  generateMetaNode : TileId.t -> MetaNode.t }.
End MapImpl.

Inductive ResourceType : Type :=
  | RT_MetaTile | RT_MeshAggregate | RT_Texture | RT_GeodataTile.

Inductive Statistic : Type :=
  | currentNodeMetaUpdates
  | currentNodeDrawsUpdates
  | metaNodesTraversedTotal
  | metaNodesTraversedPerLod (lod : Z).

(** What a traversal does to the world outside the traverse tree, in
    program order. *)
Inductive Event : Type :=
  (* map->getMetaTile(name), getMeshAggregate, getTexture, getGeodata *)
  | Get (type : ResourceType) (name : string)
  (* map->touchResource(r) *)
  | Touch (name : string)
  (* r->updatePriority(p) *)
  | UpdatePriority (name : string) (p : float)
  (* map->getActualGeoStyle(layer), map->getActualGeoFeatures(layer, geo, p) *)
  | GeoStyle (layerName : string)
  | GeoFeatures (layerName geoName : string) (p : float)
  (* geo->update(style, features, ...) *)
  | GeodataUpdate (name style features : string)
  (* statistics.<counter>++ *)
  | Count (s : Statistic)
  (* gridPreloadRequest(trav), whose code is outside the embedded file *)
  | GridPreloadRequest (trav : TileId.t)
  (* renderNode(trav), with the node as it is at the call *)
  | RenderNode (trav : TraverseNode.t).

(** [CameraImpl]: the map, the focus point and the methods of the camera
    whose code is outside the embedded file.  The two tests read the id and
    the meta node of the node they are given (and the camera).
    [reorderBoundLayers] gives the validity and the list as it leaves it,
    reordered and resolved; its own calls on the cache are not recorded. *)
Module CameraImpl.
Record t : Type := mk {
  map : MapImpl.t;
  focusPosPhys : Num.vec3;
  maxLods : Z;
  aabbPointDist : Num.vec3 -> Num.vec3 -> Num.vec3 -> float;
  visibilityTest : TileId.t -> option MetaNode.t -> bool;
  coarsenessTest : TileId.t -> option MetaNode.t -> bool;
  reorderBoundLayers :
    TileId.t -> TileId.t -> Z -> list BoundParamInfo.t -> float ->
    Validity * list BoundParamInfo.t }.
End CameraImpl.

(** [trav->meta->localId]; the code reads it only where [meta] is set. *)
Definition metaLocalId (trav : TraverseNode.t) : TileId.t :=
  match TraverseNode.meta trav with
  | Some m => MetaNode.localId m
  | None => TileId.mk 0 0 0
  end.

Definition isSome {A : Type} (o : option A) : bool :=
  match o with Some _ => true | None => false end.

Definition isNil {A : Type} (l : list A) : bool :=
  match l with [] => true | _ => false end.

(** [float * int] and the like: the product of two [float]s. *)
Definition mul_f32 (a b : float) : float := Num.to_f32 (a * b)%float.

(** Modelled from the spec: [CameraImpl::touchDraws], which is not part of
    the sources; it touches ("touch(r): sets last_access_tick = now") the
    resources the node pins for its draws, and leaves the node as it is. *)
Definition touchDraws (trav : TraverseNode.t) : list Event :=
  map Touch (TraverseNode.resources trav).

(** Modelled from the spec: [CameraImpl::renderNodeCoarser], which is not
    part of the sources; it "walks toward the root until it finds an ancestor
    that is determined and emits that instead".  [ancestors] are the
    ancestors of the node, the parent first. *)
Fixpoint renderNodeCoarser (ancestors : list TraverseNode.t) : list Event :=
  match ancestors with
  | [] => []
  | a :: rest =>
      if TraverseNode.determined a then [RenderNode a]
      else renderNodeCoarser rest
  end.

(** The state of the loop "find topmost nonempty surface". *)
Module Topmost.
Record t : Type := mk {
  topmost : option SurfaceRef;
  chosen : option string;
  childsAvailable : list bool }.
Definition init : t := mk None None [false; false; false; false].
End Topmost.

(** The accumulators of the loop over the bound layers of one submesh. *)
Module Classify.
Record t : Type := mk {
  anyOpaqueLayer : bool;
  allTransparent : bool;
  newOpaque : list RenderSurfaceTask.t;
  newTransparent : list RenderSurfaceTask.t;
  newCredits : list Z }.
End Classify.

(** The accumulators of the loop over the submeshes. *)
Module Draws.
Record t : Type := mk {
  determined : bool;
  newOpaque : list RenderSurfaceTask.t;
  newTransparent : list RenderSurfaceTask.t;
  newCredits : list Z;
  resources : list string;
  events : list Event }.
End Draws.

(** [TraverseMode], and the camera options the strategies read:
    [fixedTraversalDistance] is a [double], [fixedTraversalLod] an integer. *)
Inductive TraverseMode : Type :=
  | TM_None | TM_Flat | TM_Stable | TM_Balanced | TM_Hierarchical
  | TM_Fixed | TM_DistanceBaseFixed.

Module CameraOptions.
Record t : Type := mk {
  traverseModeSurfaces : TraverseMode;
  traverseModeGeodata : TraverseMode;
  fixedTraversalDistance : float;
  fixedTraversalLod : Z }.
End CameraOptions.

(** [myVisibilityTest]: whether the node lies over the rectangle of tiles
    [a1..a2] x [b1..b2] of level [lod].  The shifts are [int] shifts, defined
    in C++ for a shift below 32; each comparison is between a [uint32]
    coordinate of the node and a shifted [int], converted to [uint32]. *)
Definition myVisibilityTest (trav : TraverseNode.t) (lod a1 b1 a2 b2 : Z)
    : bool :=
  let shift := lod - TileId.lod (TraverseNode.id trav) in
  if shift <? 0 then false
  else
    let a1 := Z.shiftr a1 shift in
    let a2 := Z.shiftr a2 shift in
    let b1 := Z.shiftr b1 shift in
    let b2 := Z.shiftr b2 shift in
    (TileId.x (TraverseNode.id trav) >=? Num.u32 a1)
    && (TileId.x (TraverseNode.id trav) <=? Num.u32 a2)
    && (TileId.y (TraverseNode.id trav) >=? Num.u32 b1)
    && (TileId.y (TraverseNode.id trav) <=? Num.u32 b2).

(** [max_lod_diff]. *)
Definition max_lod_diff : Z := 4.

(** [pow(2, n)] for an [int] [n] that is not negative: the power of two,
    which binary64 holds exactly (infinity from 2^1024 on). *)
Definition pow2 (n : Z) : float := Z.ldexp 1 n.

Section Traversal.

(** [vtslibs::vts::MetaNode::Flag::ulChild]. *)
Variable ulChild : Z.
Variable cam : CameraImpl.t.
(** [trav->layer]: one traverse tree belongs to one layer. *)
Variable layer : MapLayer.t.

Let themap := CameraImpl.map cam.

(** [CameraImpl::travDistance]; it reads [trav->meta] only, so the meta node
    stands for the node. *)
Definition travDistance (meta : MetaNode.t) (pointPhys : Num.vec3) : float :=
  CameraImpl.aabbPointDist cam pointPhys
    (fst (MetaNode.aabbPhys meta)) (snd (MetaNode.aabbPhys meta)).

(** [CameraImpl::updateNodePriority]; [parent] is [trav->parent]. *)
Definition updateNodePriority (parent : option TraverseNode.t)
    (trav : TraverseNode.t) : TraverseNode.t :=
  match TraverseNode.meta trav with
  | Some meta =>
      TraverseNode.set_priority
        (Num.to_f32 (1e6 / (travDistance meta (CameraImpl.focusPosPhys cam) + 1))%float)
        trav
  | None =>
      match parent with
      | Some p => TraverseNode.set_priority (TraverseNode.priority p) trav
      | None => TraverseNode.set_priority 0%float trav
      end
  end.

(** [CameraImpl::travInternalTexture]: the texture and the calls made. *)
Definition travInternalTexture (trav : TraverseNode.t) (subMeshIndex : Z)
    : string * list Event :=
  let vars := Vars.mk (TraverseNode.id trav) (metaLocalId trav) subMeshIndex in
  let res := SurfaceInfo.urlIntTex
               (MapLayer.deref layer (TraverseNode.surface trav)) vars in
  (res, [Get RT_Texture res; Touch res;
         UpdatePriority res (TraverseNode.priority trav)]).

(** [CameraImpl::generateMonolithicGeodataTrav]. *)
Definition generateMonolithicGeodataTrav (parent : option TraverseNode.t)
    (trav : TraverseNode.t) : bool * TraverseNode.t * list Event :=
  let trav := TraverseNode.set_meta
                (Some (MapImpl.generateMetaNode themap (TraverseNode.id trav))) trav in
  let trav := TraverseNode.set_surface (Some (InSurfaceStack 0)) trav in
  (true, updateNodePriority parent trav, []).

(** ** [travDetermineMeta] *)

(** [(nodeId.x % 2) + (nodeId.y % 2) * 2]. *)
Definition childIndex (nodeId : TileId.t) : Z :=
  TileId.x nodeId mod 2 + (TileId.y nodeId mod 2) * 2.

(** The test made for slot [i] of a node with a parent: [true] when the loop
    [continue]s, that is when the parent has no meta tile for the surface or
    its meta node lacks the child flag of this node. *)
Definition skipsMetaTile (p : TraverseNode.t) (nodeId : TileId.t) (i : nat)
    : bool :=
  match nth i (TraverseNode.metaTiles p) None with
  | None => true
  | Some pm =>
      let node := MapImpl.metaTileGet themap pm (TileId.parent nodeId) in
      Z.land (VtsMetaNode.flags node) (Z.shiftl ulChild (childIndex nodeId)) =? 0
  end.

(** The loop "retrieve metatile resource handles": [n] iterations from
    index [i] on. *)
Fixpoint retrieveMetaTiles (parent : option TraverseNode.t)
    (nodeId : TileId.t) (n i : nat) (metaTiles : list (option string))
    : list (option string) * list Event :=
  match n with
  | O => (metaTiles, [])
  | S n' =>
      let skip := match parent with
                  | Some p => skipsMetaTile p nodeId i
                  | None => false
                  end in
      if skip then retrieveMetaTiles parent nodeId n' (S i) metaTiles
      else
        let name := SurfaceInfo.urlMeta
                      (nth i (MapLayer.surfaceStack layer) SurfaceInfo.empty)
                      (Vars.ofTile (MapImpl.roundId themap nodeId)) in
        let '(mts, ev) := retrieveMetaTiles parent nodeId n' (S i)
                            (<[i := Some name]> metaTiles) in
        (mts, Get RT_MetaTile name :: ev)
  end.

(** The loop "check metatiles download status": the priority updates, and
    whether no meta tile is [Indeterminate]. *)
Fixpoint checkMetaTiles (priority : float) (metaTiles : list (option string))
    : bool * list Event :=
  match metaTiles with
  | [] => (true, [])
  | None :: rest => checkMetaTiles priority rest
  | Some m :: rest =>
      let '(determined, ev) := checkMetaTiles priority rest in
      (match MapImpl.getResourceValidity themap m with
       | Indeterminate => false
       | _ => determined
       end,
       UpdatePriority m (mul_f32 priority 2) :: ev)
  end.

(** [n.childFlags() & (ulChild << j)], as a [bool], for [j] in 0..3. *)
Definition childFlagsOf (n : VtsMetaNode.t) : list bool :=
  List.map (fun j => negb (Z.land (VtsMetaNode.childFlags n) (Z.shiftl ulChild j) =? 0))
           [0; 1; 2; 3].

(** The loop "find topmost nonempty surface", from index [i] on. *)
Fixpoint findTopmost (nodeId : TileId.t) (i : nat)
    (metaTiles : list (option string)) (st : Topmost.t) : Topmost.t :=
  match metaTiles with
  | [] => st
  | None :: rest => findTopmost nodeId (S i) rest st
  | Some m :: rest =>
      let n := MapImpl.metaTileGet themap m nodeId in
      let ca := zip_with orb (Topmost.childsAvailable st) (childFlagsOf n) in
      if isSome (Topmost.topmost st)
         || negb (Bool.eqb (VtsMetaNode.alien n)
                    (SurfaceInfo.alien
                       (nth i (MapLayer.surfaceStack layer) SurfaceInfo.empty)))
      then findTopmost nodeId (S i) rest
             (Topmost.mk (Topmost.topmost st) (Topmost.chosen st) ca)
      else
        let '(chosen, topmost) :=
          if VtsMetaNode.geometry n then
            (Some m,
             Some (if isSome (MapLayer.tilesetStack layer)
                   then InTilesetStack (VtsMetaNode.sourceReference n)
                   else InSurfaceStack i))
          else (Topmost.chosen st, Topmost.topmost st) in
        let chosen := match chosen with None => Some m | Some c => Some c end in
        findTopmost nodeId (S i) rest (Topmost.mk topmost chosen ca)
  end.

(** "prepare children": the nodes created, given which are wanted. *)
Definition newChilds (nodeId : TileId.t) (initAllChild : bool)
    (childsAvailable : list bool) : list TraverseNode.t :=
  if initAllChild || existsb (fun b => b) childsAvailable then
    List.map (fun '(c, _) => TraverseNode.make c)
      (List.filter (fun '(_, a) => initAllChild || a)
         (combine (TileId.children nodeId) childsAvailable))
  else [].

(** [CameraImpl::travDetermineMeta]. *)
Definition travDetermineMeta (parent : option TraverseNode.t)
    (trav : TraverseNode.t) (initAllChild : bool)
    : bool * TraverseNode.t * list Event :=
  let ev0 := [Count currentNodeMetaUpdates] in
  match MapLayer.freeLayer layer with
  | Some FL_geodata =>
      let '(r, trav, ev) := generateMonolithicGeodataTrav parent trav in
      (r, trav, ev0 ++ ev)
  | _ =>
    let nodeId := TraverseNode.id trav in
    let '(metaTiles, ev1) :=
      if isNil (TraverseNode.metaTiles trav) then
        let e := length (MapLayer.surfaceStack layer) in
        retrieveMetaTiles parent nodeId e 0 (replicate e None)
      else (TraverseNode.metaTiles trav, []) in
    let trav := TraverseNode.set_metaTiles metaTiles trav in
    let '(determined, ev2) :=
      checkMetaTiles (TraverseNode.priority trav) metaTiles in
    if negb determined then (false, trav, ev0 ++ ev1 ++ ev2)
    else
      let st := findTopmost nodeId 0 metaTiles Topmost.init in
      match Topmost.chosen st with
      | None => (false, trav, ev0 ++ ev1 ++ ev2)
      | Some chosen =>
        let trav :=
          match Topmost.topmost st with
          | Some topmost =>
              TraverseNode.set_credits
                (TraverseNode.credits trav
                 ++ VtsMetaNode.credits (MapImpl.metaTileGet themap chosen nodeId))
                (TraverseNode.set_surface (Some topmost) trav)
          | None => trav
          end in
        let trav := TraverseNode.set_meta
                      (Some (MapImpl.metaTileGetNode themap chosen nodeId)) trav in
        let trav := TraverseNode.set_childs
                      (newChilds nodeId initAllChild (Topmost.childsAvailable st))
                      trav in
        (true, updateNodePriority parent trav, ev0 ++ ev1 ++ ev2)
      end
  end.

(** ** [travDetermineDraws] *)

(** The resources of a bound layer that the node pins: [boundMetaTile],
    [textureColor] and [textureMask], each when set. *)
Definition boundLayerResources (b : BoundParamInfo.t) : list string :=
  option_list (BoundParamInfo.boundMetaTile b)
  ++ option_list (BoundParamInfo.textureColor b)
  ++ option_list (BoundParamInfo.textureMask b).

(** The credits of a bound layer that the map knows. *)
Definition boundLayerCredits (b : BoundParamInfo.t) : list Z :=
  match BoundParamInfo.bound b with
  | Some l =>
      flat_map (fun key => option_list (MapImpl.creditsFind themap key))
               (BoundInfo.credits l)
  | None => []
  end.

(** The draw task of a bound layer on a submesh. *)
Definition boundLayerTask (part : MeshPart.t) (b : BoundParamInfo.t)
    : RenderSurfaceTask.t :=
  RenderSurfaceTask.mk
    (Some (MeshPart.renderable part))
    (BoundParamInfo.textureColor b)
    (BoundParamInfo.textureMask b)
    (MeshPart.normToPhys part)
    (BoundParamInfo.uvTrans b)
    (match BoundParamInfo.alpha b with
     | Some a => Num.to_f32 a
     | None => 1%float
     end)
    true
    (BoundParamInfo.id b).

(** [!b.transparent && !b.textureMask]. *)
Definition opaqueLayer (b : BoundParamInfo.t) : bool :=
  negb (BoundParamInfo.transparent b) && negb (isSome (BoundParamInfo.textureMask b)).

(** The loop [for (const BoundParamInfo &b : bls)] that builds the draw
    tasks. *)
Fixpoint classifyBoundLayers (part : MeshPart.t) (bls : list BoundParamInfo.t)
    (st : Classify.t) : Classify.t :=
  match bls with
  | [] => st
  | b :: rest =>
      let newCredits := Classify.newCredits st ++ boundLayerCredits b in
      let task := boundLayerTask part b in
      let renderTransparent := BoundParamInfo.transparent b in
      let '(renderTransparent, anyOpaqueLayer) :=
        if negb renderTransparent && isSome (BoundParamInfo.textureMask b) then
          if Classify.anyOpaqueLayer st then (true, Classify.anyOpaqueLayer st)
          else (renderTransparent, true)
        else (renderTransparent, Classify.anyOpaqueLayer st) in
      let '(newOpaque, newTransparent) :=
        if renderTransparent
        then (Classify.newOpaque st, Classify.newTransparent st ++ [task])
        else (Classify.newOpaque st ++ [task], Classify.newTransparent st) in
      classifyBoundLayers part rest
        (Classify.mk anyOpaqueLayer
           (Classify.allTransparent st && BoundParamInfo.transparent b)
           newOpaque newTransparent newCredits)
  end.

(** The draw task of the internal texture of a submesh: a default task with
    the texture, the mesh and the model matrix set, [externalUv] cleared. *)
Definition internalTextureTask (part : MeshPart.t) (textureColor : string)
    : RenderSurfaceTask.t :=
  RenderSurfaceTask.mk
    (Some (MeshPart.renderable part)) (Some textureColor)
    (RenderSurfaceTask.textureMask RenderSurfaceTask.empty)
    (MeshPart.normToPhys part)
    (RenderSurfaceTask.uvTrans RenderSurfaceTask.empty)
    (RenderSurfaceTask.color3 RenderSurfaceTask.empty)
    false
    (RenderSurfaceTask.boundLayerId RenderSurfaceTask.empty).

(** The block "internal texture" of the submesh loop. *)
Definition internalTexture (trav : TraverseNode.t) (subMeshIndex : Z)
    (part : MeshPart.t) (st : Draws.t) : Draws.t :=
  if MeshPart.internalUv part then
    let '(textureColor, ev) :=
      travInternalTexture trav subMeshIndex in
    let resources := Draws.resources st ++ [textureColor] in
    let events := Draws.events st ++ ev in
    match MapImpl.getResourceValidity themap textureColor with
    | Indeterminate =>
        Draws.mk false (Draws.newOpaque st) (Draws.newTransparent st)
                 (Draws.newCredits st) resources events
    | Invalid =>
        Draws.mk (Draws.determined st) (Draws.newOpaque st)
                 (Draws.newTransparent st) (Draws.newCredits st)
                 resources events
    | Valid =>
        let task := internalTextureTask part textureColor in
        Draws.mk (Draws.determined st) (task :: Draws.newOpaque st)
                 (Draws.newTransparent st) (Draws.newCredits st)
                 resources events
    end
  else st.

(** The list handed to [reorderBoundLayers]: the bound list of the surface,
    and the texture layer of the submesh when it has one. *)
Definition boundLayersOf (trav : TraverseNode.t) (part : MeshPart.t)
    : list BoundParamInfo.t :=
  let bls := MapLayer.boundList layer (TraverseNode.surface trav)
                                (MeshPart.surfaceReference part) in
  if MeshPart.textureLayer part =? 0 then bls
  else bls ++ [BoundParamInfo.make
                 (MapImpl.boundLayerId themap (MeshPart.textureLayer part))].

(** One iteration of the loop over the submeshes. *)
Definition submeshStep (trav : TraverseNode.t) (subMeshIndex : Z)
    (part : MeshPart.t) (st : Draws.t) : Draws.t :=
  if MeshPart.externalUv part then
    let '(validity, bls) :=
      CameraImpl.reorderBoundLayers cam (TraverseNode.id trav)
        (metaLocalId trav) subMeshIndex (boundLayersOf trav part)
        (TraverseNode.priority trav) in
    let resources := Draws.resources st ++ flat_map boundLayerResources bls in
    match validity with
    | Indeterminate =>
        Draws.mk false (Draws.newOpaque st) (Draws.newTransparent st)
                 (Draws.newCredits st) resources (Draws.events st)
    | Invalid =>
        Draws.mk (Draws.determined st) (Draws.newOpaque st)
                 (Draws.newTransparent st) (Draws.newCredits st)
                 resources (Draws.events st)
    | Valid =>
        let c := classifyBoundLayers part bls
                   (Classify.mk (existsb opaqueLayer bls) true
                      (Draws.newOpaque st) (Draws.newTransparent st)
                      (Draws.newCredits st)) in
        let st := Draws.mk (Draws.determined st) (Classify.newOpaque c)
                           (Classify.newTransparent c) (Classify.newCredits c)
                           resources (Draws.events st) in
        if negb (Classify.allTransparent c) then st
        else internalTexture trav subMeshIndex part st
    end
  else internalTexture trav subMeshIndex part st.

(** The loop over the submeshes, from index [subMeshIndex] on. *)
Fixpoint submeshLoop (trav : TraverseNode.t) (subMeshIndex : Z)
    (parts : list MeshPart.t) (st : Draws.t) : Draws.t :=
  match parts with
  | [] => st
  | part :: rest =>
      submeshLoop trav (subMeshIndex + 1) rest
                  (submeshStep trav subMeshIndex part st)
  end.

Definition colliderTask (part : MeshPart.t) : RenderColliderTask.t :=
  RenderColliderTask.mk (Some (MeshPart.renderable part))
                        (MeshPart.normToPhys part).

(** [CameraImpl::travDetermineDrawsSurface]. *)
Definition travDetermineDrawsSurface (trav : TraverseNode.t)
    : bool * TraverseNode.t * list Event :=
  let nodeId := TraverseNode.id trav in
  let ev0 := List.map Touch (TraverseNode.resources trav) in
  if existsb (fun it => Validity_eqb (MapImpl.getResourceValidity themap it)
                                     Indeterminate)
             (TraverseNode.resources trav)
  then (false, trav, ev0)
  else
    let name := SurfaceInfo.urlMesh
                  (MapLayer.deref layer (TraverseNode.surface trav))
                  (Vars.ofTileLocal nodeId (metaLocalId trav)) in
    let meshAgg := name in
    let trav := TraverseNode.set_resources [meshAgg] trav in
    let ev1 := ev0 ++ [Get RT_MeshAggregate name;
                       UpdatePriority meshAgg (TraverseNode.priority trav)] in
    match MapImpl.getResourceValidity themap meshAgg with
    | Invalid =>
        (false,
         TraverseNode.set_resources [] (TraverseNode.set_surface None trav),
         ev1)
    | Indeterminate => (false, trav, ev1)
    | Valid =>
        let parts := MapImpl.submeshes themap meshAgg in
        let st := submeshLoop trav 0 parts
                    (Draws.mk true [] [] [] (TraverseNode.resources trav) ev1) in
        let trav := TraverseNode.set_resources (Draws.resources st) trav in
        if Draws.determined st then
          let trav := TraverseNode.set_opaque (Draws.newOpaque st) trav in
          let trav := TraverseNode.set_transparent (Draws.newTransparent st) trav in
          let trav := TraverseNode.set_colliders
                        (TraverseNode.colliders trav ++ List.map colliderTask parts)
                        trav in
          let trav := TraverseNode.set_credits
                        (TraverseNode.credits trav ++ Draws.newCredits st) trav in
          (true, trav, Draws.events st)
        else (false, trav, Draws.events st)
    end.

(** [CameraImpl::travDetermineDrawsGeodata]. *)
Definition travDetermineDrawsGeodata (trav : TraverseNode.t)
    : bool * TraverseNode.t * list Event :=
  let nodeId := TraverseNode.id trav in
  let geoName := SurfaceInfo.urlGeodata
                   (MapLayer.deref layer (TraverseNode.surface trav))
                   (Vars.ofTileLocal nodeId (metaLocalId trav)) in
  let style := MapImpl.getActualGeoStyle themap (MapLayer.freeLayerName layer) in
  let features := MapImpl.getActualGeoFeatures themap
                    (MapLayer.freeLayerName layer) geoName
                    (TraverseNode.priority trav) in
  let ev0 := [GeoStyle (MapLayer.freeLayerName layer);
              GeoFeatures (MapLayer.freeLayerName layer) geoName
                          (TraverseNode.priority trav)] in
  if Validity_eqb (fst style) Invalid || Validity_eqb (fst features) Invalid
  then (false, TraverseNode.set_surface None trav, ev0)
  else if Validity_eqb (fst style) Indeterminate
          || Validity_eqb (fst features) Indeterminate
  then (false, trav, ev0)
  else
    let geo := (geoName ++ "#tile")%string in
    let ev1 := ev0 ++ [Get RT_GeodataTile geo;
                       UpdatePriority geo (TraverseNode.priority trav);
                       GeodataUpdate geo (snd style) (snd features)] in
    match MapImpl.getResourceValidity themap geo with
    | Invalid => (false, TraverseNode.set_surface None trav, ev1)
    | Indeterminate => (false, trav, ev1)
    | Valid =>
        (true,
         TraverseNode.set_geodata
           (TraverseNode.geodata trav
            ++ List.map (fun r => DrawGeodataTask.mk (geo, r))
                        (MapImpl.geodataRenders themap geo))
           trav,
         ev1)
    end.

(** [CameraImpl::travDetermineDraws]. *)
Definition travDetermineDraws (parent : option TraverseNode.t)
    (trav : TraverseNode.t) : bool * TraverseNode.t * list Event :=
  let ev0 := touchDraws trav in
  if negb (isSome (TraverseNode.surface trav)) || TraverseNode.determined trav
  then (TraverseNode.determined trav, trav, ev0)
  else
    let ev1 := ev0 ++ [Count currentNodeDrawsUpdates] in
    let trav := updateNodePriority parent trav in
    let '(r, trav, ev) :=
      if MapLayer.isGeodata layer then travDetermineDrawsGeodata trav
      else travDetermineDrawsSurface trav in
    (r, TraverseNode.set_determined r trav, ev1 ++ ev).

(** ** Traversal strategies *)

(** [CameraImpl::travInit]. *)
Definition travInit (parent : option TraverseNode.t) (trav : TraverseNode.t)
    (initAllChildren : bool) : bool * TraverseNode.t * list Event :=
  let ev0 := [Count metaNodesTraversedTotal;
              Count (metaNodesTraversedPerLod
                       (Z.min (TileId.lod (TraverseNode.id trav))
                              (CameraImpl.maxLods cam - 1)))] in
  let trav := TraverseNode.set_lastAccessTime
                (MapImpl.renderTickIndex themap) trav in
  let trav := updateNodePriority parent trav in
  match TraverseNode.meta trav with
  | None =>
      let ev1 := flat_map (fun it => List.map Touch (option_list it))
                          (TraverseNode.metaTiles trav) in
      let '(r, trav, ev) := travDetermineMeta parent trav initAllChildren in
      (r, trav, ev0 ++ ev1 ++ ev)
  | Some _ => (true, trav, ev0)
  end.

(** [for (auto &t : trav->childs) f(&t)]: the results, the children after
    the calls, and the events. *)
Fixpoint forChilds {A : Type}
    (f : TraverseNode.t -> A * TraverseNode.t * list Event)
    (childs : list TraverseNode.t)
    : list A * list TraverseNode.t * list Event :=
  match childs with
  | [] => ([], [], [])
  | c :: rest =>
      let '(a, c', ev) := f c in
      let '(results, rest', evs) := forChilds f rest in
      (a :: results, c' :: rest', ev ++ evs)
  end.

(** The strategies recurse into children that the pass itself creates, so
    the recursion is bounded by [fuel]: with no fuel left a call returns at
    once.  [ancestors] lists the ancestors of [trav], its parent first. *)

(** [CameraImpl::travModeFlat]. *)
Fixpoint travModeFlat (fuel : nat) (ancestors : list TraverseNode.t)
    (trav : TraverseNode.t) : TraverseNode.t * list Event :=
  match fuel with
  | O => (trav, [])
  | S fuel =>
    let parent := head ancestors in
    let '(ok, trav, ev0) := travInit parent trav false in
    if negb ok then (trav, ev0)
    else if negb (CameraImpl.visibilityTest cam (TraverseNode.id trav)
                                            (TraverseNode.meta trav))
    then (trav, ev0)
    else if CameraImpl.coarsenessTest cam (TraverseNode.id trav)
                                      (TraverseNode.meta trav)
            || isNil (TraverseNode.childs trav)
    then
      let '(d, trav, ev1) := travDetermineDraws parent trav in
      (trav, ev0 ++ ev1 ++ (if d then [RenderNode trav] else []))
    else
      let '(_, childs, ev1) :=
        forChilds (fun t => let '(t', ev) :=
                              travModeFlat fuel (trav :: ancestors) t in
                            (tt, t', ev))
                  (TraverseNode.childs trav) in
      (TraverseNode.set_childs childs trav, ev0 ++ ev1)
  end.

(** The common entry of [travModeStable] and [travModeBalanced]: a
    render-only call needs the meta node and stamps the access time, any
    other call runs [travInit]. *)
Definition enter (renderOnly : bool) (parent : option TraverseNode.t)
    (trav : TraverseNode.t) : bool * TraverseNode.t * list Event :=
  if renderOnly then
    if isSome (TraverseNode.meta trav)
    then (true,
          TraverseNode.set_lastAccessTime (MapImpl.renderTickIndex themap) trav,
          [])
    else (false, trav, [])
  else travInit parent trav false.

(** [CameraImpl::travModeStable]; [mode] is 0 (default), 1 (load only) or
    2 (render only). *)
Fixpoint travModeStable (fuel : nat) (ancestors : list TraverseNode.t)
    (trav : TraverseNode.t) (mode : Z) : bool * TraverseNode.t * list Event :=
  match fuel with
  | O => (false, trav, [])
  | S fuel =>
    let parent := head ancestors in
    let '(ok, trav, ev0) := enter (mode =? 2) parent trav in
    if negb ok then (false, trav, ev0)
    else if negb (CameraImpl.visibilityTest cam (TraverseNode.id trav)
                                            (TraverseNode.meta trav))
    then (true, trav, ev0)
    else if mode =? 2 then
      if TraverseNode.determined trav
      then (true, trav, ev0 ++ touchDraws trav ++ [RenderNode trav])
      else
        let '(_, childs, ev1) :=
          forChilds (fun t => travModeStable fuel (trav :: ancestors) t 2)
                    (TraverseNode.childs trav) in
        (true, TraverseNode.set_childs childs trav, ev0 ++ ev1)
    else if CameraImpl.coarsenessTest cam (TraverseNode.id trav)
                                      (TraverseNode.meta trav)
            || isNil (TraverseNode.childs trav)
    then
      let '(_, trav, ev1) := travDetermineDraws parent trav in
      if mode =? 1 then
        (TraverseNode.determined trav,
         TraverseNode.set_lastRenderTime (MapImpl.renderTickIndex themap) trav,
         ev0 ++ ev1)
      else if TraverseNode.determined trav
      then (true, trav, ev0 ++ ev1 ++ [RenderNode trav])
      else
        let '(_, childs, ev2) :=
          forChilds (fun t => travModeStable fuel (trav :: ancestors) t 2)
                    (TraverseNode.childs trav) in
        (true, TraverseNode.set_childs childs trav, ev0 ++ ev1 ++ ev2)
    else
      let '(rendered, trav, ev1) :=
        if (mode =? 0) && TraverseNode.determined trav then
          let '(oks, childs, ev) :=
            forChilds (fun t => travModeStable fuel (trav :: ancestors) t 1)
                      (TraverseNode.childs trav) in
          let trav := TraverseNode.set_childs childs trav in
          if negb (forallb (fun ok => ok) oks)
          then (true, trav, ev ++ touchDraws trav ++ [RenderNode trav])
          else (false, trav, ev)
        else (false, trav, []) in
      if rendered then (true, trav, ev0 ++ ev1)
      else
        let '(oks, childs, ev2) :=
          forChilds (fun t => travModeStable fuel (trav :: ancestors) t mode)
                    (TraverseNode.childs trav) in
        (forallb (fun ok => ok) oks, TraverseNode.set_childs childs trav,
         ev0 ++ ev1 ++ ev2)
  end.

(** The second loop of [travModeBalanced]: [renderNodeCoarser(&it)] for the
    children whose call returned [false]. *)
Definition renderFailedCoarser (ancestors : list TraverseNode.t)
    (oks : list bool) : list Event :=
  flat_map (fun ok : bool => if ok then [] else renderNodeCoarser ancestors) oks.

(** [CameraImpl::travModeBalanced]. *)
Fixpoint travModeBalanced (fuel : nat) (ancestors : list TraverseNode.t)
    (trav : TraverseNode.t) (renderOnly : bool)
    : bool * TraverseNode.t * list Event :=
  match fuel with
  | O => (false, trav, [])
  | S fuel =>
    let parent := head ancestors in
    let '(ok, trav, ev0) := enter renderOnly parent trav in
    if negb ok then (false, trav, ev0)
    else if negb (CameraImpl.visibilityTest cam (TraverseNode.id trav)
                                            (TraverseNode.meta trav))
    then (true, trav, ev0)
    else
      let '(rendered, renderOnly, trav, ev1) :=
        if renderOnly then
          if TraverseNode.determined trav
          then (true, renderOnly, trav, touchDraws trav ++ [RenderNode trav])
          else (false, renderOnly, trav, [])
        else if CameraImpl.coarsenessTest cam (TraverseNode.id trav)
                                          (TraverseNode.meta trav)
                || isNil (TraverseNode.childs trav)
        then
          let '(d, trav, ev) := travDetermineDraws parent trav in
          if d
          then (true, renderOnly, trav,
                GridPreloadRequest (TraverseNode.id trav) :: ev
                ++ [RenderNode trav])
          else (false, true, trav,
                GridPreloadRequest (TraverseNode.id trav) :: ev)
        else (false, renderOnly, trav, []) in
      if rendered then (true, trav, ev0 ++ ev1)
      else
        let '(oks, childs, ev2) :=
          forChilds
            (fun t => travModeBalanced fuel (trav :: ancestors) t renderOnly)
            (TraverseNode.childs trav) in
        let trav := TraverseNode.set_childs childs trav in
        if isNil (List.filter (fun ok : bool => ok) oks) && renderOnly
        then (false, trav, ev0 ++ ev1 ++ ev2)
        else (true, trav,
              ev0 ++ ev1 ++ ev2 ++ renderFailedCoarser (trav :: ancestors) oks)
  end.

(** ** The other strategies *)

Variable options : CameraOptions.t.

(** The first loop over the children in [travModeHierarchical]: [ok] stays
    [true] when every child has its meta node and none has a surface
    without being determined. *)
Fixpoint childsReady (ok : bool) (childs : list TraverseNode.t) : bool :=
  match childs with
  | [] => ok
  | t :: rest =>
      if negb (isSome (TraverseNode.meta t)) then childsReady false rest
      else if isSome (TraverseNode.surface t)
              && negb (TraverseNode.determined t)
      then childsReady false rest
      else childsReady ok rest
  end.

(** [CameraImpl::travModeHierarchical]. *)
Fixpoint travModeHierarchical (fuel : nat) (ancestors : list TraverseNode.t)
    (trav : TraverseNode.t) (loadOnly : bool) : TraverseNode.t * list Event :=
  match fuel with
  | O => (trav, [])
  | S fuel =>
    let parent := head ancestors in
    let '(ok, trav, ev0) := travInit parent trav false in
    if negb ok then (trav, ev0)
    else
      let trav := TraverseNode.set_lastRenderTime
                    (TraverseNode.lastAccessTime trav) trav in
      let '(_, trav, ev1) := travDetermineDraws parent trav in
      if loadOnly then (trav, ev0 ++ ev1)
      else if negb (CameraImpl.visibilityTest cam (TraverseNode.id trav)
                                              (TraverseNode.meta trav))
      then (trav, ev0 ++ ev1)
      else if CameraImpl.coarsenessTest cam (TraverseNode.id trav)
                                        (TraverseNode.meta trav)
              || isNil (TraverseNode.childs trav)
      then (trav,
            ev0 ++ ev1
            ++ (if TraverseNode.determined trav then [RenderNode trav] else []))
      else
        let ok := childsReady true (TraverseNode.childs trav) in
        let '(_, childs, ev2) :=
          forChilds (fun t => let '(t', ev) :=
                                travModeHierarchical fuel (trav :: ancestors) t
                                                     (negb ok) in
                              (tt, t', ev))
                    (TraverseNode.childs trav) in
        let trav := TraverseNode.set_childs childs trav in
        (trav,
         ev0 ++ ev1 ++ ev2
         ++ (if negb ok && TraverseNode.determined trav
             then [RenderNode trav] else []))
  end.

(** [CameraImpl::travLod].  The counter [okc] is written and never read. *)
Fixpoint travLod (fuel : nat) (ancestors : list TraverseNode.t)
    (trav : TraverseNode.t) (lod a1 b1 a2 b2 : Z)
    : bool * TraverseNode.t * list Event :=
  match fuel with
  | O => (false, trav, [])
  | S fuel =>
    let parent := head ancestors in
    let '(ok, trav, ev0) := travInit parent trav false in
    if negb ok then (false, trav, ev0)
    else if negb (myVisibilityTest trav lod a1 b1 a2 b2)
    then (true, trav, ev0)
    else
      let '(rendered, trav, ev1) :=
        if (TileId.lod (TraverseNode.id trav) >=? lod)
           || isNil (TraverseNode.childs trav)
        then
          let '(d, trav, ev) := travDetermineDraws parent trav in
          if d
          then (true, trav,
                GridPreloadRequest (TraverseNode.id trav) :: ev
                ++ [RenderNode trav])
          else (false, trav, GridPreloadRequest (TraverseNode.id trav) :: ev)
        else (false, trav, []) in
      if rendered then (true, trav, ev0 ++ ev1)
      else
        let '(oks, childs, ev2) :=
          forChilds
            (fun t => travLod fuel (trav :: ancestors) t lod a1 b1 a2 b2)
            (TraverseNode.childs trav) in
        let trav := TraverseNode.set_childs childs trav in
        (true, trav,
         ev0 ++ ev1 ++ ev2 ++ renderFailedCoarser (trav :: ancestors) oks)
  end.

(** [CameraImpl::travModeFixed].  [travDistance] reads [trav->meta], which
    is set once [travInit] has answered [true]. *)
Fixpoint travModeFixed (fuel : nat) (ancestors : list TraverseNode.t)
    (trav : TraverseNode.t) : TraverseNode.t * list Event :=
  match fuel with
  | O => (trav, [])
  | S fuel =>
    let parent := head ancestors in
    let '(ok, trav, ev0) := travInit parent trav false in
    if negb ok then (trav, ev0)
    else
      match TraverseNode.meta trav with
      | None => (trav, ev0)
      | Some meta =>
        if (CameraOptions.fixedTraversalDistance options
            <? travDistance meta (CameraImpl.focusPosPhys cam))%float
        then (trav, ev0)
        else if (TileId.lod (TraverseNode.id trav)
                 >=? CameraOptions.fixedTraversalLod options)
                || isNil (TraverseNode.childs trav)
        then
          let '(d, trav, ev1) := travDetermineDraws parent trav in
          (trav, ev0 ++ ev1 ++ (if d then [RenderNode trav] else []))
        else
          let '(_, childs, ev1) :=
            forChilds (fun t => let '(t', ev) :=
                                  travModeFixed fuel (trav :: ancestors) t in
                                (tt, t', ev))
                      (TraverseNode.childs trav) in
          (TraverseNode.set_childs childs trav, ev0 ++ ev1)
      end
  end.

(** The last loop of [travModeDistanceBaseFixed]: a child whose call
    answered [false] is rendered as it is, when its draws are determined. *)
Fixpoint renderUnrendered (trav : TraverseNode.t) (rendered : list bool)
    (childs : list TraverseNode.t) : list TraverseNode.t * list Event :=
  match rendered, childs with
  | r :: rendered, t :: childs =>
      let '(t, ev) :=
        if r then (t, [])
        else
          let '(d, t, ev) := travDetermineDraws (Some trav) t in
          (t, ev ++ (if d then [RenderNode t] else [])) in
      let '(childs, evs) := renderUnrendered trav rendered childs in
      (t :: childs, ev ++ evs)
  | _, _ => (childs, [])
  end.

(** [CameraImpl::travModeDistanceBaseFixed].  [lodDiff] is the difference
    of the two lods as an [int], or 0 when that is negative. *)
Fixpoint travModeDistanceBaseFixed (fuel : nat)
    (ancestors : list TraverseNode.t) (trav : TraverseNode.t)
    : bool * TraverseNode.t * list Event :=
  match fuel with
  | O => (false, trav, [])
  | S fuel =>
    let parent := head ancestors in
    let '(ok, trav, ev0) := travInit parent trav false in
    if negb ok then (false, trav, ev0)
    else
      match TraverseNode.meta trav with
      | None => (false, trav, ev0)
      | Some meta =>
        let lodDiff :=
          Z.max 0 (CameraOptions.fixedTraversalLod options
                   - TileId.lod (TraverseNode.id trav)) in
        let targetTraversalDistance :=
          (CameraOptions.fixedTraversalDistance options * pow2 lodDiff)%float in
        let tileDistance := travDistance meta (CameraImpl.focusPosPhys cam) in
        if (targetTraversalDistance <? tileDistance)%float
        then (false, trav, ev0)
        else if ((lodDiff <? max_lod_diff)
                 && (targetTraversalDistance / 2 <? tileDistance)%float)
                || isNil (TraverseNode.childs trav)
        then
          let '(d, trav, ev1) := travDetermineDraws parent trav in
          (true, trav, ev0 ++ ev1 ++ (if d then [RenderNode trav] else []))
        else
          let '(rendered, childs, ev1) :=
            forChilds
              (fun t => travModeDistanceBaseFixed fuel (trav :: ancestors) t)
              (TraverseNode.childs trav) in
          let isRendered := existsb (fun r : bool => r) rendered in
          let trav := TraverseNode.set_childs childs trav in
          if lodDiff >? max_lod_diff then (isRendered, trav, ev0 ++ ev1)
          else if negb isRendered then (isRendered, trav, ev0 ++ ev1)
          else
            let '(childs, ev2) := renderUnrendered trav rendered childs in
            (isRendered, TraverseNode.set_childs childs trav,
             ev0 ++ ev1 ++ ev2)
      end
  end.

(** [CameraImpl::traverseRender]; [ancestors] are the ancestors of [trav],
    none for the root of a layer. *)
Definition traverseRender (fuel : nat) (ancestors : list TraverseNode.t)
    (trav : TraverseNode.t) : TraverseNode.t * list Event :=
  match (if MapLayer.isGeodata layer
         then CameraOptions.traverseModeGeodata options
         else CameraOptions.traverseModeSurfaces options) with
  | TM_None => (trav, [])
  | TM_Flat => travModeFlat fuel ancestors trav
  | TM_Stable =>
      let '(_, trav, ev) := travModeStable fuel ancestors trav 0 in (trav, ev)
  | TM_Balanced =>
      let '(_, trav, ev) := travModeBalanced fuel ancestors trav false in
      (trav, ev)
  | TM_Hierarchical => travModeHierarchical fuel ancestors trav false
  | TM_Fixed => travModeFixed fuel ancestors trav
  | TM_DistanceBaseFixed =>
      let '(_, trav, ev) := travModeDistanceBaseFixed fuel ancestors trav in
      (trav, ev)
  end.

(** ** What the claims observe *)

(** The name of the mesh aggregate of a node: [urlMesh] of its surface for
    its tile and local id. *)
Definition meshAggregateName (trav : TraverseNode.t) : string :=
  SurfaceInfo.urlMesh (MapLayer.deref layer (TraverseNode.surface trav))
    (Vars.ofTileLocal (TraverseNode.id trav) (metaLocalId trav)).





(** The name of the meta tile of surface [i] for a node. *)
Definition metaTileName (nodeId : TileId.t) (i : nat) : string :=
  SurfaceInfo.urlMeta (nth i (MapLayer.surfaceStack layer) SurfaceInfo.empty)
                      (Vars.ofTile (MapImpl.roundId themap nodeId)).

(** The wish of slot [j] of a node under [parent]: nothing when the loop
    skips the slot, the meta tile of surface [j] otherwise. *)
Definition slotRequest (parent : option TraverseNode.t) (nodeId : TileId.t)
    (j : nat) : option string :=
  if match parent with
     | Some p => skipsMetaTile p nodeId j
     | None => false
     end
  then None
  else Some (metaTileName nodeId j).

(** The handles a node of a tiled layer holds after [travDetermineMeta]. *)
Definition handlesAfter (parent : option TraverseNode.t)
    (trav : TraverseNode.t) : list (option string) * list Event :=
  if isNil (TraverseNode.metaTiles trav) then
    retrieveMetaTiles parent (TraverseNode.id trav)
      (length (MapLayer.surfaceStack layer)) 0
      (replicate (length (MapLayer.surfaceStack layer)) None)
  else (TraverseNode.metaTiles trav, []).


End Traversal.

(** The meta tiles requested by a run, in order. *)
Definition metaTileRequests (ev : list Event) : list string :=
  flat_map (fun e => match e with
                     | Get RT_MetaTile name => [name]
                     | _ => []
                     end) ev.

(** The nodes [renderNode] was called on during a run, each as it was at
    the call. *)
Definition rendered (ev : list Event) : list TraverseNode.t :=
  flat_map (fun e => match e with
                     | RenderNode trav => [trav]
                     | _ => []
                     end) ev.

(** The node passes the visibility test, respectively the coarseness test,
    of the camera. *)
Definition visible (cam : CameraImpl.t) (trav : TraverseNode.t) : Prop :=
  CameraImpl.visibilityTest cam (TraverseNode.id trav) (TraverseNode.meta trav)
  = true.

Definition coarseEnough (cam : CameraImpl.t) (trav : TraverseNode.t) : Prop :=
  CameraImpl.coarsenessTest cam (TraverseNode.id trav) (TraverseNode.meta trav)
  = true.

(** A rendered node is visible and determined. *)
Definition renderedWell (cam : CameraImpl.t) (trav : TraverseNode.t) : Prop :=
  visible cam trav /\ TraverseNode.determined trav = true.

(** Under [Flat] it is moreover coarse enough, or a leaf. *)
Definition renderedWellFlat (cam : CameraImpl.t) (trav : TraverseNode.t)
    : Prop :=
  visible cam trav /\ TraverseNode.determined trav = true
  /\ (coarseEnough cam trav \/ TraverseNode.childs trav = []).

(** The task draws a submesh of [parts], at the place of that submesh. *)
Definition drawsSubmeshOf (parts : list MeshPart.t)
    (task : RenderSurfaceTask.t) : Prop :=
  exists part : MeshPart.t,
    In part parts
    /\ RenderSurfaceTask.mesh task = Some (MeshPart.renderable part)
    /\ RenderSurfaceTask.model task = MeshPart.normToPhys part.

(** The meta node that meta tile [m] holds for the tile has the alien flag
    of surface [i] of the layer: the test
    [n.alien() != trav->layer->surfaceStack.surfaces[i].alien] fails. *)
Definition alienMatches (cam : CameraImpl.t) (layer : MapLayer.t)
    (nodeId : TileId.t) (i : nat) (m : string) : Prop :=
  VtsMetaNode.alien (MapImpl.metaTileGet (CameraImpl.map cam) m nodeId)
  = SurfaceInfo.alien (nth i (MapLayer.surfaceStack layer) SurfaceInfo.empty).

(** The meta tile a node holds for a surface, if any, is not loading. *)
Definition notLoading (cam : CameraImpl.t) (handle : option string) : Prop :=
  forall m : string,
    handle = Some m ->
    MapImpl.getResourceValidity (CameraImpl.map cam) m <> Indeterminate.

(** A child the first loop of [travModeHierarchical] finds not ready: it
    has no meta node, or a surface without determined draws. *)
Definition childNotReady (t : TraverseNode.t) : Prop :=
  TraverseNode.meta t = None
  \/ (TraverseNode.surface t <> None /\ TraverseNode.determined t = false).

(** Child [j] of the tile is wanted by "prepare children" of
    [travDetermineMeta]: [initAllChild] is set, or one of the meta tiles
    held has the bit [ulChild << j] among the child flags of its meta node
    for the tile. *)
Definition childWanted (ulChild : Z) (cam : CameraImpl.t) (nodeId : TileId.t)
    (initAllChild : bool) (metaTiles : list (option string)) (j : Z) : bool :=
  initAllChild
  || existsb (fun h : option string =>
                match h with
                | Some m =>
                    negb (Z.land (VtsMetaNode.childFlags
                                    (MapImpl.metaTileGet (CameraImpl.map cam)
                                                         m nodeId))
                                 (Z.shiftl ulChild j) =? 0)
                | None => false
                end) metaTiles.

(** The node lies over the grid [myVisibilityTest] tests against. *)
Definition overGrid (lod a1 b1 a2 b2 : Z) (t : TraverseNode.t) : Prop :=
  myVisibilityTest t lod a1 b1 a2 b2 = true.

End LibBrowser.

(* ================================================================== *)
(** * The specification's formulas *)
(* ================================================================== *)

(** Definitions that follow the words of the specification, to be compared
    with the code above. *)
Module Spec.

(** "priority = 1e6 / (distance_to_focus_phys + 1)", as a [float]. *)
Definition priorityOfDistance (d : float) : float :=
  Num.to_f32 (1e6 / (d + 1))%float.

(** "child index i in 0..3 is (x&1) | ((y&1)<<1)". *)
Definition childIndex (i : TileId.t) : Z :=
  Z.lor (Z.land (TileId.x i) 1) (Z.shiftl (Z.land (TileId.y i) 1) 1).

(** "distance ... in physical SRS (or in the node SRS with geometric extents
    when available and debugDisableMeta5 is false)". *)
Definition nodeSrsUsable (geomExtentsEmpty : BrowserLib.GeomExtents.t -> bool)
    (impl : BrowserLib.MapImpl.t) (ni : BrowserLib.NodeInfo.t)
    (meta : BrowserLib.MetaInfo.t) : bool :=
  negb (geomExtentsEmpty (BrowserLib.MetaInfo.geomExtents meta))
  && negb (String.eqb (BrowserLib.NodeInfo.srs ni) EmptyString)
  && negb (BrowserLib.MapImpl.debugDisableMeta5 impl).

Definition distanceToFocus
    (aabbPointDist : Num.vec3 -> Num.vec3 -> Num.vec3 -> float)
    (geomExtentsEmpty : BrowserLib.GeomExtents.t -> bool)
    (impl : BrowserLib.MapImpl.t) (ni : BrowserLib.NodeInfo.t)
    (meta : BrowserLib.MetaInfo.t) : float :=
  let focus := BrowserLib.MapImpl.focusPosPhys impl in
  if nodeSrsUsable geomExtentsEmpty impl ni meta then
    aabbPointDist
      (BrowserLib.MapImpl.convert impl focus
         (BrowserLib.MapImpl.physicalSrs impl) (BrowserLib.NodeInfo.srs ni))
      (BrowserLib.NodeInfo.extents_ll ni,
       BrowserLib.GeomExtents.z_min (BrowserLib.MetaInfo.geomExtents meta))
      (BrowserLib.NodeInfo.extents_ur ni,
       BrowserLib.GeomExtents.z_max (BrowserLib.MetaInfo.geomExtents meta))
  else
    aabbPointDist focus (fst (BrowserLib.MetaInfo.aabbPhys meta))
                        (snd (BrowserLib.MetaInfo.aabbPhys meta)).

(** ** Draw classification of bound layers

    "A layer with a texture mask is rendered as transparent to preserve
    painter ordering, unless no other opaque layer exists, in which case this
    layer is promoted to opaque so depth is written." *)

(** The index of the first element that satisfies [p]. *)
Fixpoint firstIndex {A : Type} (p : A -> bool) (l : list A) : option nat :=
  match l with
  | [] => None
  | a :: rest => if p a then Some 0%nat else option_map S (firstIndex p rest)
  end.

Definition isIndex (o : option nat) (k : nat) : bool :=
  match o with Some j => Nat.eqb j k | None => false end.

(** A layer that is not transparent and carries a texture mask. *)
Definition maskedLayer (b : LibBrowser.BoundParamInfo.t) : bool :=
  negb (LibBrowser.BoundParamInfo.transparent b)
  && LibBrowser.isSome (LibBrowser.BoundParamInfo.textureMask b).

(** A layer that is opaque by itself: not transparent, no texture mask. *)
Definition plainOpaqueLayer (b : LibBrowser.BoundParamInfo.t) : bool :=
  negb (LibBrowser.BoundParamInfo.transparent b)
  && negb (LibBrowser.isSome (LibBrowser.BoundParamInfo.textureMask b)).

(** The layer promoted to the opaque list: the first masked layer of a stack
    that has no layer opaque by itself. *)
Definition promoted (bls : list LibBrowser.BoundParamInfo.t) : option nat :=
  if existsb plainOpaqueLayer bls then None else firstIndex maskedLayer bls.

(** Layer [b], at index [k] of the stack [bls], goes to the transparent
    draw list. *)
Definition onTransparentList (bls : list LibBrowser.BoundParamInfo.t)
    (k : nat) (b : LibBrowser.BoundParamInfo.t) : bool :=
  LibBrowser.BoundParamInfo.transparent b
  || (maskedLayer b && negb (isIndex (promoted bls) k)).

(** The layers of [rest], which sit at the indices [k], [k+1], ... of [bls],
    that go to the transparent list ([transparentList = true]) or to the
    opaque list ([false]), in stack order. *)
Fixpoint layersFrom (bls : list LibBrowser.BoundParamInfo.t) (k : nat)
    (rest : list LibBrowser.BoundParamInfo.t) (transparentList : bool)
    : list LibBrowser.BoundParamInfo.t :=
  match rest with
  | [] => []
  | b :: rest' =>
      if Bool.eqb (onTransparentList bls k b) transparentList
      then b :: layersFrom bls (S k) rest' transparentList
      else layersFrom bls (S k) rest' transparentList
  end.

Definition layersOn (bls : list LibBrowser.BoundParamInfo.t)
    (transparentList : bool) : list LibBrowser.BoundParamInfo.t :=
  layersFrom bls 0 bls transparentList.

End Spec.

(* ================================================================== *)
(** * Concrete inputs used by the examples below *)
(* ================================================================== *)

Module Examples.

Import BrowserLib.

(** A bound layer defined for lods 0..8 over the whole tile range. *)
Definition bound8 : BoundInfo.t :=
  BoundInfo.mk 0 8 (0, 0) (4294967295, 4294967295) false
               (fun _ => "bound-meta"%string) false.

(** A bound layer defined for lods 5..18 and tiles (16..31, 16..31) of lod 5. *)
Definition bound5 : BoundInfo.t :=
  BoundInfo.mk 5 18 (16, 16) (31, 31) true
               (fun _ => "bound-meta"%string) false.

Definition zero3 : Num.vec3 := (0, 0, 0)%float.

Definition mapWith (b : BoundInfo.t) (mode : TraverseMode) : MapImpl.t :=
  MapImpl.mk (fun _ => Some b) (fun _ => Valid) (fun _ _ => 0) mode false
             "phys"%string (fun p _ _ => p) zero3.

(** The tile (lod 10, x 400, y 300) in the subtree of the root node, where
    the local id is the tile id. *)
Definition tile_10_400_300 : NodeInfo.t :=
  NodeInfo.mk (TileId.mk 10 400 300) (TileId.mk 10 400 300) EmptyString
              (0, 0)%float (0, 0)%float.

(** A tile of lod 3, below the range of [bound5]. *)
Definition tile_3_1_1 : NodeInfo.t :=
  NodeInfo.mk (TileId.mk 3 1 1) (TileId.mk 3 1 1) EmptyString
              (0, 0)%float (0, 0)%float.

Definition layerParams : BoundParamInfo.t :=
  BoundParamInfo.make "layer"%string None.

(** A node of lod 5 whose bounding box holds the focus point, so that every
    box distance from the focus is 0. *)
Definition nodeAtFocus : TraverseNode.t :=
  TraverseNode.mk
    (NodeInfo.mk (TileId.mk 5 3 7) (TileId.mk 5 3 7) EmptyString
                 (0, 0)%float (0, 0)%float)
    (Some (MetaInfo.mk (GeomExtents.mk 0 0) (zero3, zero3)))
    PrimFloat.nan.

(** The box distance of a point inside the box. *)
Definition distInside (p lo hi : Num.vec3) : float := 0%float.

Definition noGeomExtents (g : GeomExtents.t) : bool := true.

(** ** Inputs for the traversal *)

Definition meta0 : LibBrowser.MetaNode.t :=
  LibBrowser.MetaNode.mk (TileId.mk 0 0 0) (zero3, zero3) zero3 0%float.

(** A surface whose URLs are its name and the kind of resource. *)
Definition surfaceNamed (name : string) : LibBrowser.SurfaceInfo.t :=
  LibBrowser.SurfaceInfo.mk
    (fun _ => (name ++ "/meta")%string) (fun _ => (name ++ "/mesh")%string)
    (fun _ => (name ++ "/tex")%string) (fun _ => (name ++ "/geo")%string)
    false.

(** A map given by the validity of its resources, the meta nodes of its
    meta tiles and the submeshes of its mesh aggregates. *)
Definition lbMap (validity : string -> Validity)
    (get : string -> TileId.t -> LibBrowser.VtsMetaNode.t)
    (submeshes : string -> list LibBrowser.MeshPart.t) : LibBrowser.MapImpl.t :=
  LibBrowser.MapImpl.mk 7 validity (fun i => i) get (fun _ _ => meta0)
    submeshes (fun _ => EmptyString) (fun _ => None)
    (fun _ => (Valid, EmptyString)) (fun _ _ _ => (Valid, EmptyString))
    (fun _ => []) (fun _ => meta0).

(** A camera that sees every node, finds every node coarse enough or none
    ([coarse]), and resolves every bound-layer stack as it stands. *)
Definition lbCamera (m : LibBrowser.MapImpl.t) (coarse : bool)
    : LibBrowser.CameraImpl.t :=
  LibBrowser.CameraImpl.mk m zero3 32 distInside (fun _ _ => true)
    (fun _ _ => coarse) (fun _ _ _ bls _ => (Valid, bls)).

(** A meta node with geometry whose source reference is 1. *)
Definition geometryNode : LibBrowser.VtsMetaNode.t :=
  LibBrowser.VtsMetaNode.mk 1 0 false true 1 [].

Definition allValid : LibBrowser.MapImpl.t :=
  lbMap (fun _ => Valid) (fun _ _ => geometryNode) (fun _ => []).

(** A layer of one surface, without and with a tileset stack; the tileset
    stack has the placeholder, then the surfaces A and B. *)
Definition layerS : LibBrowser.MapLayer.t :=
  LibBrowser.MapLayer.mk [surfaceNamed "S"] None None EmptyString false
                         (fun _ _ => []).


Definition root : LibBrowser.TraverseNode.t :=
  LibBrowser.TraverseNode.make (TileId.mk 0 0 0).

(** A layer of two surfaces, a parent that holds both meta tiles, and its
    upper-right child (child index 1).  The parent's meta node in P0 flags
    the upper-right child (16 << 1), the one in P1 only the upper-left. *)
Definition layerTwo : LibBrowser.MapLayer.t :=
  LibBrowser.MapLayer.mk [surfaceNamed "S0"; surfaceNamed "S1"] None None
                         EmptyString false (fun _ _ => []).

Definition parentFlags : LibBrowser.MapImpl.t :=
  lbMap (fun _ => Valid)
        (fun name _ =>
           if String.eqb name "P0"
           then LibBrowser.VtsMetaNode.mk 33 32 false true 0 []
           else LibBrowser.VtsMetaNode.mk 17 16 false true 0 [])
        (fun _ => []).

Definition parentNode : LibBrowser.TraverseNode.t :=
  LibBrowser.TraverseNode.set_metaTiles [Some "P0"; Some "P1"]%string
    (LibBrowser.TraverseNode.set_meta (Some meta0) root).

Definition childNode : LibBrowser.TraverseNode.t :=
  LibBrowser.TraverseNode.make (TileId.mk 1 1 0).

(** A leaf with its draws determined in an earlier pass. *)
Definition leafNode : LibBrowser.TraverseNode.t :=
  LibBrowser.TraverseNode.set_determined true
    (LibBrowser.TraverseNode.set_surface (Some (LibBrowser.InSurfaceStack 0))
       (LibBrowser.TraverseNode.set_meta (Some meta0)
          (LibBrowser.TraverseNode.make (TileId.mk 3 1 1)))).

(** A node with a surface whose draws are still to be determined, and a map
    whose mesh aggregate for it is invalid. *)
Definition pendingNode : LibBrowser.TraverseNode.t :=
  LibBrowser.TraverseNode.set_surface (Some (LibBrowser.InSurfaceStack 0))
    (LibBrowser.TraverseNode.set_meta (Some meta0)
       (LibBrowser.TraverseNode.make (TileId.mk 3 1 1))).

Definition meshInvalid : LibBrowser.MapImpl.t :=
  lbMap (fun name => if String.eqb name "S/mesh" then Invalid else Valid)
        (fun _ _ => geometryNode) (fun _ => []).



(** Two masked, non-transparent bound layers and a transparent one, on a
    submesh with external UVs. *)
Definition maskedBy (id mask : string) : LibBrowser.BoundParamInfo.t :=
  LibBrowser.BoundParamInfo.mk id None (Some (LibBrowser.BoundInfo.mk []))
    None (Some (id ++ "/color")%string) (Some mask) false Num.identity3f.

Definition transparentLayer (id : string) : LibBrowser.BoundParamInfo.t :=
  LibBrowser.BoundParamInfo.mk id None (Some (LibBrowser.BoundInfo.mk []))
    None (Some (id ++ "/color")%string) None true Num.identity3f.

Definition layerMasked : LibBrowser.MapLayer.t :=
  LibBrowser.MapLayer.mk [surfaceNamed "S"] None None EmptyString false
    (fun _ _ => [maskedBy "m1" "mask1"; transparentLayer "t";
                 maskedBy "m2" "mask2"]).

Definition externalPart : LibBrowser.MeshPart.t :=
  LibBrowser.MeshPart.mk "mesh" [] true true 0 1.

Definition noDraws : LibBrowser.Draws.t :=
  LibBrowser.Draws.mk true [] [] [] [] [].

(** A mesh that has never been loaded, an empty GL context, and a mesh spec
    of three triangles' worth of vertices whose indices reach past 65535. *)
Definition freshMesh : Renderer.Mesh.t :=
  Renderer.Mesh.mk 0 0 (Renderer.GpuMeshSpec.mk [] [] 0 0) EmptyString.

Definition freshGL : Renderer.GL.t := Renderer.GL.mk 1 0 0 ∅.

Definition noCost : Renderer.ResourceInfo.t := Renderer.ResourceInfo.mk 0 0.

Definition bigMesh : Renderer.GpuMeshSpec.t :=
  Renderer.GpuMeshSpec.mk [] [0; 65536; 70000] 0 3.

(** ** Inputs for the further properties *)

(** A tile of lod 10 inside the tile range of [bound5]. *)
Definition tile_10_600_700 : NodeInfo.t :=
  NodeInfo.mk (TileId.mk 10 600 700) (TileId.mk 10 600 700) EmptyString
              (0, 0)%float (0, 0)%float.

(** A map like [mapWith], given the flags of its bound meta tiles. *)
Definition mapWithFlags (b : BoundInfo.t) (flags : string -> Z -> Z)
    : MapImpl.t :=
  MapImpl.mk (fun _ => Some b) (fun _ => Valid) flags TM_Flat false
             "phys"%string (fun p _ _ => p) zero3.

(** Nodes of the lods 0, 3 and 12 that have just been created. *)
Definition nodeOfLod (lod : Z) : TraverseNode.t :=
  newTraverseNode (NodeInfo.mk (TileId.mk lod 0 0) (TileId.mk lod 0 0)
                               EmptyString (0, 0)%float (0, 0)%float).

(** A map all of whose resources are still loading. *)
Definition allLoading : LibBrowser.MapImpl.t :=
  lbMap (fun _ => Indeterminate) (fun _ _ => geometryNode) (fun _ => []).

(** A submesh with internal UVs only, and a map whose mesh aggregates
    consist of that submesh. *)
Definition internalPart : LibBrowser.MeshPart.t :=
  LibBrowser.MeshPart.mk "mesh" [] true false 0 1.

Definition oneSubmesh : LibBrowser.MapImpl.t :=
  lbMap (fun _ => Valid) (fun _ _ => geometryNode) (fun _ => [internalPart]).

(** A node with its meta node and one child that has none yet. *)
Definition parentOfFresh : LibBrowser.TraverseNode.t :=
  LibBrowser.TraverseNode.set_childs [childNode] parentNode.

(** A texture of 2 x 2 RGBA bytes with linear filtering, and the same with
    five components. *)
Definition rgbaSpec : Renderer.GpuTextureSpec.t :=
  Renderer.GpuTextureSpec.mk 2 2 4 Renderer.GpuTypeEnum.UnsignedByte 0
    Renderer.FilterMode.Linear 0 (replicate 16 0).

Definition fiveComponents : Renderer.GpuTextureSpec.t :=
  Renderer.GpuTextureSpec.mk 2 2 5 Renderer.GpuTypeEnum.UnsignedByte 0
    Renderer.FilterMode.Linear 0 (replicate 20 0).



(** A GL that compiles vertex shaders and rejects fragment shaders. *)
Definition vertexOnly (stage : Renderer.ShaderStage) (source : string) : bool :=
  match stage with
  | Renderer.GL_VERTEX_SHADER => true
  | Renderer.GL_FRAGMENT_SHADER => false
  end.

Definition noShader : Renderer.Shader.t := Renderer.Shader.mk 0 EmptyString [].

End Examples.

(* ================================================================== *)
(** * Properties of the bound-layer compositor (mapUtilities.cpp) *)
(* ================================================================== *)

Section BoundLayerFacts.

Import BrowserLib.

Variables (available watertightFlag : Z).

Lemma shiftl_shiftr_le (a n : Z) :
  0 <= a -> 0 <= n -> 0 <= Z.shiftl (Z.shiftr a n) n <= a.
Proof.
  intros Ha Hn.
  rewrite Z.shiftr_div_pow2, Z.shiftl_mul_pow2 by assumption.
  assert (Hp : 0 < 2 ^ n) by (apply Z.pow_pos_nonneg; lia).
  split.
  - apply Z.mul_nonneg_nonneg; [apply Z.div_pos|]; lia.
  - rewrite Z.mul_comm. apply Z.mul_div_le. exact Hp.
Qed.

(** On a [uint32] the wrap-around in [x - ((x >> n) << n)] never fires. *)
Lemma sub_shl_shr_u32 (a n : Z) :
  0 <= a < 2 ^ 32 -> 0 <= n ->
  Num.sub_u32 a (Num.shl_u32 (Z.shiftr a n) n)
  = a - Z.shiftl (Z.shiftr a n) n.
Proof.
  intros Ha Hn.
  pose proof (shiftl_shiftr_le a n ltac:(lia) Hn) as Hle.
  unfold Num.sub_u32, Num.shl_u32, Num.u32.
  rewrite (Z.mod_small (Z.shiftl _ _)) by lia.
  apply Z.mod_small. lia.
Qed.

(** What is left of the local coordinate is its position inside the
    ancestor: [x mod 2^n]. *)
Lemma sub_shl_shr_mod (a n : Z) :
  0 <= n -> a - Z.shiftl (Z.shiftr a n) n = a mod 2 ^ n.
Proof.
  intros Hn.
  rewrite Z.shiftr_div_pow2, Z.shiftl_mul_pow2 by assumption.
  assert (Hp : 0 < 2 ^ n) by (apply Z.pow_pos_nonneg; lia).
  rewrite (Z.mod_eq a (2 ^ n)) by lia. lia.
Qed.

(** The object [prepare] leaves behind once the range check has passed:
    [orig] holds the ids of the tile itself and [depth] the number of lods
    the tile lies above the range of the layer. *)
Lemma prepare_sets_orig_depth (self : BoundParamInfo.t) (nodeInfo : NodeInfo.t)
    (impl : MapImpl.t) (subMeshIndex : Z) (priority : float) (b : BoundInfo.t) :
  MapImpl.getBoundInfo impl (BoundParamInfo.id self) = Some b ->
  BoundParamInfo.checkRanges b (NodeInfo.nodeId nodeInfo) = true ->
  let self' := snd (fst (BoundParamInfo.prepare available watertightFlag
                           self nodeInfo impl subMeshIndex priority)) in
  BoundParamInfo.orig self'
  = Vars.mk (NodeInfo.nodeId nodeInfo) (NodeInfo.local nodeInfo) subMeshIndex
  /\ BoundParamInfo.depth self'
     = Z.max (TileId.lod (NodeInfo.nodeId nodeInfo) - BoundInfo.lodRange_max b) 0.
Proof.
  intros Hb Hr. unfold BoundParamInfo.prepare. cbn [BoundParamInfo.bound].
  rewrite Hb, Hr. cbn [negb BoundParamInfo.id BoundParamInfo.alpha].
  destruct (BoundInfo.metaUrl b); [|split; reflexivity].
  destruct (MapImpl.getResourceValidity impl _); try (split; reflexivity).
  match goal with |- context [if ?c then _ else _] => destruct c end;
    split; reflexivity.
Qed.

(** [1 << n] on [int]: the power of two up to [n = 30], [INT_MIN] at
    [n = 31]. *)
Lemma shl_i32_one (n : Z) :
  (0 <= n <= 30 -> Num.shl_i32 1 n = 2 ^ n)
  /\ (n = 31 -> Num.shl_i32 1 n = - 2 ^ 31).
Proof.
  split.
  - intros Hn. unfold Num.shl_i32, Num.s32.
    rewrite Z.shiftl_1_l.
    assert (H0 : 0 < 2 ^ n) by (apply Z.pow_pos_nonneg; lia).
    assert (H1 : 2 ^ n <= 2 ^ 30) by (apply Z.pow_le_mono_r; lia).
    rewrite Z.mod_small by lia. lia.
  - intros ->. reflexivity.
Qed.

(** C1.  For every tile that the range check of a bound layer lets through
    and that lies less than 32 lods above [lodRange.max] (the shifts of the
    code are defined), [prepare] computes
    [depth = max(0, lod - lodRange.max)]; with [(x, y)] the coordinates of
    the tile's local id (the tile's own coordinates when the tile is
    addressed from the root), the UV matrix is the identity when
    [depth = 0], and for [depth > 0] it is [[s,0,tx],[0,s,ty],[0,0,1]] with
    [s = 1/(1<<depth)], [tx = s*(x - ((x>>depth)<<depth))] and
    [ty = 1 - s - s*(y - ((y>>depth)<<depth))], each entry converted to
    [float].  [1<<depth] is the [int] of the code: [2^depth] up to depth 30
    and [INT_MIN] at depth 31.  For the tile (lod 10, x 400, y 300) and
    [lodRange.max = 8] this gives depth 2, scale 0.25, tx 0 and ty 0.75. *)
Theorem uvMatrix_of_prepared_layer (self : BoundParamInfo.t)
    (nodeInfo : NodeInfo.t) (impl : MapImpl.t) (subMeshIndex : Z)
    (priority : float) (b : BoundInfo.t) :
  MapImpl.getBoundInfo impl (BoundParamInfo.id self) = Some b ->
  BoundParamInfo.checkRanges b (NodeInfo.nodeId nodeInfo) = true ->
  TileId.wf (NodeInfo.local nodeInfo) ->
  TileId.lod (NodeInfo.nodeId nodeInfo) - BoundInfo.lodRange_max b < 32 ->
  let self' := snd (fst (BoundParamInfo.prepare available watertightFlag
                           self nodeInfo impl subMeshIndex priority)) in
  let depth := Z.max 0 (TileId.lod (NodeInfo.nodeId nodeInfo)
                        - BoundInfo.lodRange_max b) in
  let x := TileId.x (NodeInfo.local nodeInfo) in
  let y := TileId.y (NodeInfo.local nodeInfo) in
  BoundParamInfo.depth self' = depth
  /\ (depth = 0 -> BoundParamInfo.uvMatrix self' = Num.identity3f)
  /\ (depth > 0 ->
      let s := (1 / Num.of_int (Num.shl_i32 1 depth))%float in
      let tx := (s * Num.of_Z (x - Z.shiftl (Z.shiftr x depth) depth))%float in
      let ty := (1 - s
                 - s * Num.of_Z (y - Z.shiftl (Z.shiftr y depth) depth))%float in
      BoundParamInfo.uvMatrix self'
      = map (map Num.to_f32) [[s; 0; tx]; [0; s; ty]; [0; 0; 1]]%float)
  /\ (depth <= 30 -> Num.shl_i32 1 depth = 2 ^ depth)
  /\ (depth = 31 -> Num.shl_i32 1 depth = - 2 ^ 31)
  /\ (NodeInfo.nodeId nodeInfo = TileId.mk 10 400 300 ->
      NodeInfo.local nodeInfo = TileId.mk 10 400 300 ->
      BoundInfo.lodRange_max b = 8 ->
      BoundParamInfo.depth self' = 2
      /\ BoundParamInfo.uvMatrix self'
         = [[0.25; 0; 0]; [0; 0.25; 0.75]; [0; 0; 1]]%float).
Proof.
  intros Hb Hr Hwf _ self' depth x y.
  destruct (prepare_sets_orig_depth self nodeInfo impl subMeshIndex priority b
              Hb Hr) as [Horig Hdepth].
  fold self' in Horig, Hdepth.
  assert (Hd : BoundParamInfo.depth self' = depth)
    by (rewrite Hdepth; apply Z.max_comm).
  destruct Hwf as (_ & Hx & Hy).
  split; [exact Hd|]. split; [|split; [|split; [|split]]].
  - intros H0. unfold BoundParamInfo.uvMatrix. rewrite Hd, H0. reflexivity.
  - intros Hpos s tx ty. unfold BoundParamInfo.uvMatrix.
    rewrite Hd, Horig. cbn [Vars.localId].
    destruct (Z.eqb_spec depth 0) as [E|_]; [lia|].
    rewrite !sub_shl_shr_u32 by (assumption || lia).
    reflexivity.
  - intros Hle. apply shl_i32_one. subst depth. lia.
  - apply shl_i32_one.
  - intros Hid Hloc Hmax. unfold BoundParamInfo.uvMatrix.
    rewrite Horig, Hdepth, Hid, Hloc, Hmax. cbn [Vars.localId].
    split; reflexivity.
Qed.

(** C7.  With the bound layer [b] found, [prepare] returns [Invalid] for
    every tile whose lod is below [b.lodRange.min] and for every tile whose
    coordinates, shifted right by [lod - lodRange.min], fall outside
    [b.tileRange] in either axis; it does so before any call on the resource
    cache (no bound meta tile is fetched), and leaves [orig], [vars] and
    [depth] as they were. *)
Theorem prepare_rejects_out_of_range (self : BoundParamInfo.t)
    (nodeInfo : NodeInfo.t) (impl : MapImpl.t) (subMeshIndex : Z)
    (priority : float) (b : BoundInfo.t) :
  MapImpl.getBoundInfo impl (BoundParamInfo.id self) = Some b ->
  let t := NodeInfo.nodeId nodeInfo in
  let sx := Z.shiftr (TileId.x t) (TileId.lod t - BoundInfo.lodRange_min b) in
  let sy := Z.shiftr (TileId.y t) (TileId.lod t - BoundInfo.lodRange_min b) in
  TileId.lod t < BoundInfo.lodRange_min b
  \/ sx < fst (BoundInfo.tileRange_ll b) \/ fst (BoundInfo.tileRange_ur b) < sx
  \/ sy < snd (BoundInfo.tileRange_ll b) \/ snd (BoundInfo.tileRange_ur b) < sy ->
  BoundParamInfo.prepare available watertightFlag self nodeInfo impl
                         subMeshIndex priority
  = (Invalid,
     BoundParamInfo.mk (BoundParamInfo.id self) (BoundParamInfo.alpha self)
       (BoundParamInfo.orig self) (BoundParamInfo.vars self) (Some b)
       (BoundParamInfo.depth self) (BoundParamInfo.watertight self)
       (BoundParamInfo.transparent self),
     []).
Proof.
  intros Hb t sx sy Hout.
  assert (Hr : BoundParamInfo.checkRanges b t = false).
  { unfold BoundParamInfo.checkRanges. fold sx sy.
    destruct (Z.ltb_spec (TileId.lod t) (BoundInfo.lodRange_min b)); [reflexivity|].
    destruct (Z.ltb_spec sx (fst (BoundInfo.tileRange_ll b))); [reflexivity|].
    destruct (Z.gtb_spec sx (fst (BoundInfo.tileRange_ur b))); [reflexivity|].
    destruct (Z.ltb_spec sy (snd (BoundInfo.tileRange_ll b))); [reflexivity|].
    destruct (Z.gtb_spec sy (snd (BoundInfo.tileRange_ur b))); [reflexivity|].
    lia. }
  unfold BoundParamInfo.prepare. cbn [BoundParamInfo.bound].
  rewrite Hb. fold t. rewrite Hr. reflexivity.
Qed.

End BoundLayerFacts.

(** The scenario of the specification, run through [prepare]. *)
Lemma uvMatrix_of_prepared_layer_witness :
  BrowserLib.BoundParamInfo.depth
    (snd (fst (BrowserLib.BoundParamInfo.prepare 128 192 Examples.layerParams
                 Examples.tile_10_400_300
                 (Examples.mapWith Examples.bound8 BrowserLib.TM_Flat) 0 1%float))) = 2
  /\ BrowserLib.BoundParamInfo.uvMatrix
       (snd (fst (BrowserLib.BoundParamInfo.prepare 128 192 Examples.layerParams
                    Examples.tile_10_400_300
                    (Examples.mapWith Examples.bound8 BrowserLib.TM_Flat) 0 1%float)))
     = [[0.25; 0; 0]; [0; 0.25; 0.75]; [0; 0; 1]]%float.
Proof.
  refine (proj2 (proj2 (proj2 (proj2 (proj2
    (uvMatrix_of_prepared_layer 128 192 Examples.layerParams Examples.tile_10_400_300
       (Examples.mapWith Examples.bound8 BrowserLib.TM_Flat) 0 1%float Examples.bound8
       eq_refl eq_refl _ _))))) eq_refl eq_refl eq_refl).
  - unfold TileId.wf; cbn; lia.
  - cbn; lia.
Defined.

(** A tile of lod 3 against a layer that starts at lod 5. *)
Lemma prepare_rejects_out_of_range_witness :
  fst (fst (BrowserLib.BoundParamInfo.prepare 128 192 Examples.layerParams
              Examples.tile_3_1_1
              (Examples.mapWith Examples.bound5 BrowserLib.TM_Flat) 0 1%float)) = Invalid
  /\ snd (BrowserLib.BoundParamInfo.prepare 128 192 Examples.layerParams
            Examples.tile_3_1_1
            (Examples.mapWith Examples.bound5 BrowserLib.TM_Flat) 0 1%float) = [].
Proof.
  rewrite (prepare_rejects_out_of_range 128 192 Examples.layerParams
             Examples.tile_3_1_1 (Examples.mapWith Examples.bound5 BrowserLib.TM_Flat)
             0 1%float Examples.bound5 eq_refl).
  - split; reflexivity.
  - left. cbn. lia.
Defined.


(* ================================================================== *)
(** * Priorities (traversal.cpp and mapUtilities.cpp) *)
(* ================================================================== *)

Section PriorityFacts.

Variable aabbPointDist : Num.vec3 -> Num.vec3 -> Num.vec3 -> float.
Variable geomExtentsEmpty : BrowserLib.GeomExtents.t -> bool.

(** [MapImpl::travDistance] is the distance of the specification. *)
Lemma travDistance_spec (impl : BrowserLib.MapImpl.t)
    (trav : BrowserLib.TraverseNode.t) (meta : BrowserLib.MetaInfo.t) :
  BrowserLib.TraverseNode.meta trav = Some meta ->
  BrowserLib.travDistance aabbPointDist geomExtentsEmpty impl trav
    (BrowserLib.MapImpl.focusPosPhys impl)
  = Some (Spec.distanceToFocus aabbPointDist geomExtentsEmpty impl
            (BrowserLib.TraverseNode.nodeInfo trav) meta).
Proof.
  intros Hm. unfold BrowserLib.travDistance, Spec.distanceToFocus,
    Spec.nodeSrsUsable, BrowserLib.vec2to3.
  rewrite Hm.
  destruct (_ && _ && _); [|reflexivity].
  destruct (BrowserLib.NodeInfo.extents_ll _), (BrowserLib.NodeInfo.extents_ur _).
  reflexivity.
Qed.

(** C6, as the code has it.  For a node whose meta is set, each priority
    update ([CameraImpl::updateNodePriority]) sets the priority to
    [1e6 / (d + 1)], converted to [float], where [d] is always the box
    distance from the focus to [aabbPhys], in the physical SRS.  The resource
    priority ([MapImpl::computeResourcePriority]) is the same formula over
    the distance of the specification (node SRS with the geometric extents
    when usable, physical SRS otherwise) in every traverse mode but
    [Hierarchical], where it is [100 / lod]. *)
Theorem priority_formulas (cam : LibBrowser.CameraImpl.t)
    (parent : option LibBrowser.TraverseNode.t)
    (trav : LibBrowser.TraverseNode.t) (meta : LibBrowser.MetaNode.t)
    (impl : BrowserLib.MapImpl.t) (otrav : BrowserLib.TraverseNode.t)
    (ometa : BrowserLib.MetaInfo.t) :
  LibBrowser.TraverseNode.meta trav = Some meta ->
  BrowserLib.TraverseNode.meta otrav = Some ometa ->
  LibBrowser.TraverseNode.priority (LibBrowser.updateNodePriority cam parent trav)
  = Spec.priorityOfDistance
      (LibBrowser.CameraImpl.aabbPointDist cam
         (LibBrowser.CameraImpl.focusPosPhys cam)
         (fst (LibBrowser.MetaNode.aabbPhys meta))
         (snd (LibBrowser.MetaNode.aabbPhys meta)))
  /\ BrowserLib.computeResourcePriority aabbPointDist geomExtentsEmpty impl otrav
     = Some
         match BrowserLib.MapImpl.traverseMode impl with
         | BrowserLib.TM_Hierarchical =>
             Num.to_f32
               (100 / Num.of_Z
                        (TileId.lod (BrowserLib.NodeInfo.nodeId
                                       (BrowserLib.TraverseNode.nodeInfo otrav))))%float
         | _ =>
             Spec.priorityOfDistance
               (Spec.distanceToFocus aabbPointDist geomExtentsEmpty impl
                  (BrowserLib.TraverseNode.nodeInfo otrav) ometa)
         end.
Proof.
  intros Hm Hom. split.
  - unfold LibBrowser.updateNodePriority. rewrite Hm. reflexivity.
  - unfold BrowserLib.computeResourcePriority.
    rewrite (travDistance_spec impl otrav ometa Hom).
    destruct (BrowserLib.MapImpl.traverseMode impl); reflexivity.
Qed.

End PriorityFacts.

(** In [Hierarchical] mode the resource priority of a lod-5 node is 20. *)
Lemma priority_formulas_witness :
  BrowserLib.computeResourcePriority Examples.distInside Examples.noGeomExtents
    (Examples.mapWith Examples.bound8 BrowserLib.TM_Hierarchical)
    Examples.nodeAtFocus
  = Some 20%float.
Proof.
  exact (proj2 (priority_formulas Examples.distInside Examples.noGeomExtents
    (Examples.lbCamera Examples.allValid true) None Examples.leafNode
    Examples.meta0
    (Examples.mapWith Examples.bound8 BrowserLib.TM_Hierarchical)
    Examples.nodeAtFocus
    (BrowserLib.MetaInfo.mk (BrowserLib.GeomExtents.mk 0 0)
       (Examples.zero3, Examples.zero3))
    eq_refl eq_refl)).
Defined.

(** C6 as stated fails: in [Hierarchical] mode the resource priority of a
    lod-5 node whose box holds the focus is [100 / 5 = 20], while the formula
    [1e6 / (d + 1)] gives [1e6] at distance 0. *)
Lemma resource_priority_counterexample :
  BrowserLib.computeResourcePriority Examples.distInside Examples.noGeomExtents
    (Examples.mapWith Examples.bound8 BrowserLib.TM_Hierarchical)
    Examples.nodeAtFocus
  = Some 20%float
  /\ option_map Spec.priorityOfDistance
       (BrowserLib.travDistance Examples.distInside Examples.noGeomExtents
          (Examples.mapWith Examples.bound8 BrowserLib.TM_Hierarchical)
          Examples.nodeAtFocus Examples.zero3)
     = Some 1000000%float
  /\ BrowserLib.computeResourcePriority Examples.distInside
       Examples.noGeomExtents
       (Examples.mapWith Examples.bound8 BrowserLib.TM_Hierarchical)
       Examples.nodeAtFocus
     <> option_map Spec.priorityOfDistance
          (BrowserLib.travDistance Examples.distInside Examples.noGeomExtents
             (Examples.mapWith Examples.bound8 BrowserLib.TM_Hierarchical)
             Examples.nodeAtFocus Examples.zero3).
Proof.
  split; [reflexivity|]. split; [reflexivity|].
  intros H.
  apply (f_equal (fun o => match o with
                           | Some p => Prim2SF p
                           | None => S754_nan
                           end)) in H.
  vm_compute in H. discriminate H.
Qed.

(* ================================================================== *)
(** * Mesh upload (classes.cpp) *)
(* ================================================================== *)

Section MeshFacts.

Import Renderer.

Variable sizeofMesh : Z.

(** Entry [k] of the 16-bit buffer after [n] iterations from index [i]. *)
Lemma convertIndices_lookup (n : nat) :
  forall (i : nat) (src dst : list Z) (k : nat),
    (i + n <= length dst)%nat ->
    Mesh.convertIndices n i src dst !! k
    = if decide (i <= k < i + n)%nat
      then Some (Mesh.to_u16 (nth k src 0))
      else dst !! k.
Proof.
  induction n as [|n IH]; intros i src dst k Hlen; cbn [Mesh.convertIndices].
  - destruct (decide _) as [H|_]; [lia|reflexivity].
  - rewrite IH by (rewrite length_insert; lia).
    destruct (decide (S i <= k < S i + n)%nat) as [H1|H1].
    + destruct (decide _) as [_|H2]; [reflexivity|lia].
    + destruct (decide (i = k)) as [->|Hne].
      * rewrite list_lookup_insert_eq by lia.
        destruct (decide _) as [_|H2]; [reflexivity|lia].
      * rewrite list_lookup_insert_ne by assumption.
        destruct (decide _) as [H2|_]; [lia|reflexivity].
Qed.

(** The whole loop of [Mesh::load]: every index is reduced modulo 2^16. *)
Lemma convertIndices_all (n : nat) (src : list Z) :
  (n <= length src)%nat ->
  Mesh.convertIndices n 0 src (replicate n 0)
  = List.map Mesh.to_u16 (take n src).
Proof.
  intros Hn. apply list_eq. intros k.
  rewrite convertIndices_lookup by (rewrite length_replicate; lia).
  change (List.map Mesh.to_u16 (take n src)) with (Mesh.to_u16 <$> take n src).
  rewrite list_lookup_fmap.
  destruct (decide (0 <= k < 0 + n)%nat) as [H|H].
  - rewrite lookup_take_lt by lia.
    destruct (lookup_lt_is_Some_2 src k ltac:(lia)) as [v Hv].
    rewrite Hv. cbn. f_equal. f_equal.
    apply nth_lookup_Some with (d := 0) in Hv. exact Hv.
  - rewrite (proj1 (lookup_replicate_None n 0 k)) by lia.
    rewrite lookup_take_ge by lia. reflexivity.
Qed.

(** C9.  For a mesh spec with [indicesCount > 0] (and an index buffer that
    holds that many indices), [Mesh::load] uploads as element buffer the
    16-bit values [i mod 65536] of the 32-bit indices [i]; the call has no
    failing outcome, so an index above 65535 is silently replaced by a
    different one. *)
Theorem load_truncates_indices (self : Mesh.t) (gl : GL.t)
    (info : ResourceInfo.t) (spec : GpuMeshSpec.t) (debugId : string) :
  0 < GpuMeshSpec.indicesCount spec ->
  (Z.to_nat (GpuMeshSpec.indicesCount spec)
   <= length (GpuMeshSpec.indices spec))%nat ->
  let r := Mesh.load sizeofMesh self gl info spec debugId in
  let uploaded :=
    List.map (fun i => i mod 65536)
             (take (Z.to_nat (GpuMeshSpec.indicesCount spec))
                   (GpuMeshSpec.indices spec)) in
  GL.store (snd (fst r)) !! Mesh.vio (fst (fst r))
  = Some (BufferData.mk 2 uploaded)
  /\ length uploaded = Z.to_nat (GpuMeshSpec.indicesCount spec)
  /\ forall (k : nat) (i : Z),
       (k < Z.to_nat (GpuMeshSpec.indicesCount spec))%nat ->
       GpuMeshSpec.indices spec !! k = Some i ->
       65535 < i ->
       uploaded !! k = Some (i mod 65536) /\ i mod 65536 <> i.
Proof.
  intros Hpos Hlen r uploaded.
  assert (Hup : Mesh.convertIndices (Z.to_nat (GpuMeshSpec.indicesCount spec)) 0
                  (GpuMeshSpec.indices spec)
                  (replicate (Z.to_nat (GpuMeshSpec.indicesCount spec)) 0)
                = uploaded)
    by (apply convertIndices_all; exact Hlen).
  split; [|split].
  - subst r. unfold Mesh.load.
    destruct (Mesh.clear self gl) as [self0 gl0].
    destruct (Z.eqb_spec (GpuMeshSpec.indicesCount spec) 0) as [E|_]; [lia|].
    destruct (GpuMeshSpec.verticesCount spec =? 0);
      cbn -[Mesh.convertIndices replicate]; rewrite Hup;
      apply lookup_insert_eq.
  - subst uploaded. rewrite length_map, length_take. lia.
  - intros k i Hk Hi Hbig. split.
    + subst uploaded.
      change (List.map ?f ?l) with (f <$> l).
      rewrite list_lookup_fmap, lookup_take_lt, Hi by lia. reflexivity.
    + pose proof (Z.mod_pos_bound i 65536 ltac:(lia)). lia.
Qed.

End MeshFacts.

(** A mesh with the three indices 0, 65536 and 70000: the element buffer
    holds 0, 0 and 4464. *)
Lemma load_truncates_indices_witness :
  Renderer.GL.store
    (snd (fst (Renderer.Mesh.load 64 Examples.freshMesh Examples.freshGL
                 Examples.noCost Examples.bigMesh EmptyString)))
  !! Renderer.Mesh.vio
       (fst (fst (Renderer.Mesh.load 64 Examples.freshMesh Examples.freshGL
                    Examples.noCost Examples.bigMesh EmptyString)))
  = Some (Renderer.BufferData.mk 2 [0; 0; 4464]).
Proof.
  exact (proj1 (load_truncates_indices 64 Examples.freshMesh Examples.freshGL
                  Examples.noCost Examples.bigMesh EmptyString
                  eq_refl (le_n 3))).
Defined.

(* ================================================================== *)
(** * Draw determination (traversal.cpp) *)
(* ================================================================== *)

Section DrawFacts.

Import LibBrowser.

Variable cam : CameraImpl.t.
Variable layer : MapLayer.t.

(** [updateNodePriority] writes the priority and nothing else. *)
Lemma updateNodePriority_fields (parent : option TraverseNode.t)
    (trav : TraverseNode.t) :
  let trav' := updateNodePriority cam parent trav in
  TraverseNode.id trav' = TraverseNode.id trav
  /\ TraverseNode.meta trav' = TraverseNode.meta trav
  /\ TraverseNode.surface trav' = TraverseNode.surface trav
  /\ TraverseNode.determined trav' = TraverseNode.determined trav
  /\ TraverseNode.metaTiles trav' = TraverseNode.metaTiles trav
  /\ TraverseNode.resources trav' = TraverseNode.resources trav
  /\ TraverseNode.opaque trav' = TraverseNode.opaque trav
  /\ TraverseNode.transparent trav' = TraverseNode.transparent trav
  /\ TraverseNode.colliders trav' = TraverseNode.colliders trav
  /\ TraverseNode.geodata trav' = TraverseNode.geodata trav
  /\ TraverseNode.childs trav' = TraverseNode.childs trav.
Proof.
  unfold updateNodePriority.
  destruct (TraverseNode.meta trav) eqn:Hm; [|destruct parent]; cbn;
    rewrite ?Hm; repeat split.
Qed.

(** C10.  [travDetermineDraws] on a node that is already determined, or
    whose surface is null, returns the current value of [determined], leaves
    the node exactly as it is (draw lists included) and only touches the
    resources the node pins; running it again gives the same result, and a
    node without surface is as determined after the call as before. *)
Theorem travDetermineDraws_settled (parent : option TraverseNode.t)
    (trav : TraverseNode.t) :
  TraverseNode.surface trav = None \/ TraverseNode.determined trav = true ->
  let r := travDetermineDraws cam layer parent trav in
  r = (TraverseNode.determined trav, trav, List.map Touch (TraverseNode.resources trav))
  /\ travDetermineDraws cam layer parent (snd (fst r)) = r
  /\ TraverseNode.determined (snd (fst r)) = TraverseNode.determined trav.
Proof.
  intros H r.
  assert (Hr : r = (TraverseNode.determined trav, trav,
                    List.map Touch (TraverseNode.resources trav))).
  { subst r. unfold travDetermineDraws, touchDraws.
    destruct H as [-> | ->]; cbn; [reflexivity|].
    rewrite orb_true_r. reflexivity. }
  split; [exact Hr|]. rewrite Hr. cbn [fst snd].
  split; [rewrite <- Hr; reflexivity | reflexivity].
Qed.




End DrawFacts.

(* ================================================================== *)
(** * Draw classification of bound layers (traversal.cpp) *)
(* ================================================================== *)

Section ClassificationFacts.

Import LibBrowser.

Variable cam : CameraImpl.t.
Variable layer : MapLayer.t.

Lemma firstIndex_None {A : Type} (p : A -> bool) (l : list A) :
  Spec.firstIndex p l = None <-> existsb p l = false.
Proof.
  induction l as [|a l IH]; cbn; [tauto|].
  destruct (p a); cbn; [split; discriminate|].
  rewrite <- IH. destruct (Spec.firstIndex p l); cbn; split; congruence.
Qed.

Lemma firstIndex_lt {A : Type} (p : A -> bool) (l : list A) (j : nat) :
  Spec.firstIndex p l = Some j -> (j < length l)%nat.
Proof.
  revert j. induction l as [|a l IH]; cbn; intros j H; [discriminate|].
  destruct (p a); [injection H as <-; lia|].
  destruct (Spec.firstIndex p l) as [i|]; [|discriminate].
  injection H as <-. specialize (IH i eq_refl). lia.
Qed.

(** The first hit of [pre ++ b :: post], for a [b] that is a hit: inside
    [pre] when [pre] has one, [b] itself otherwise. *)
Lemma firstIndex_middle {A : Type} (p : A -> bool) (pre post : list A) (b : A) :
  p b = true ->
  Spec.isIndex (Spec.firstIndex p (pre ++ b :: post)) (length pre)
  = negb (existsb p pre).
Proof.
  intros Hb. induction pre as [|a pre IH]; cbn.
  - rewrite Hb. reflexivity.
  - destruct (p a); cbn; [reflexivity|].
    destruct (Spec.firstIndex p (pre ++ b :: post)); cbn in *; exact IH.
Qed.

(** Whether the code renders a layer as transparent, given the flag
    [anyOpaqueLayer] at the time the layer is reached. *)
Lemma placement_at (bls pre post : list BoundParamInfo.t) (b : BoundParamInfo.t) :
  bls = pre ++ b :: post ->
  Spec.onTransparentList bls (length pre) b
  = BoundParamInfo.transparent b
    || (Spec.maskedLayer b
        && (existsb opaqueLayer bls || existsb Spec.maskedLayer pre)).
Proof.
  intros ->. unfold Spec.onTransparentList, Spec.promoted.
  change Spec.plainOpaqueLayer with opaqueLayer.
  destruct (BoundParamInfo.transparent b) eqn:Ht; [reflexivity|]. cbn [orb].
  destruct (Spec.maskedLayer b) eqn:Hm; [|reflexivity]. cbn [andb].
  destruct (existsb opaqueLayer (pre ++ b :: post)); [reflexivity|].
  rewrite firstIndex_middle by exact Hm.
  rewrite negb_involutive. reflexivity.
Qed.

(** The loop over the bound layers, started anywhere in the stack. *)
Lemma classifyBoundLayers_from (part : MeshPart.t) (bls : list BoundParamInfo.t) :
  forall (rest pre : list BoundParamInfo.t) (st : Classify.t),
    bls = pre ++ rest ->
    Classify.anyOpaqueLayer st
    = existsb opaqueLayer bls || existsb Spec.maskedLayer pre ->
    let c := classifyBoundLayers cam part rest st in
    Classify.newTransparent c
    = Classify.newTransparent st
      ++ List.map (boundLayerTask part) (Spec.layersFrom bls (length pre) rest true)
    /\ Classify.newOpaque c
       = Classify.newOpaque st
         ++ List.map (boundLayerTask part) (Spec.layersFrom bls (length pre) rest false)
    /\ Classify.allTransparent c
       = Classify.allTransparent st && forallb BoundParamInfo.transparent rest.
Proof.
  induction rest as [|b rest IH]; intros pre st Hbls Hany; cbn zeta.
  - cbn. rewrite !app_nil_r, andb_true_r. repeat split.
  - pose proof (placement_at bls pre rest b Hbls) as Hplace.
    rewrite <- Hany in Hplace.
    cbn [classifyBoundLayers Spec.layersFrom forallb].
    set (rt := BoundParamInfo.transparent b) in *.
    set (any := Classify.anyOpaqueLayer st) in *.
    assert (Hbls' : bls = (pre ++ [b]) ++ rest)
      by (rewrite <- app_assoc; exact Hbls).
    assert (Hlen : length (pre ++ [b]) = S (length pre))
      by (rewrite length_app; cbn; lia).
    assert (Hmask : Spec.maskedLayer b
                    = negb rt && isSome (BoundParamInfo.textureMask b))
      by reflexivity.
    assert (Hany' : forall a : bool,
               a = any || Spec.maskedLayer b ->
               a = existsb opaqueLayer bls
                   || existsb Spec.maskedLayer (pre ++ [b])).
    { intros a ->. rewrite existsb_app. cbn [existsb].
      rewrite orb_false_r, orb_assoc. fold any. rewrite Hany. reflexivity. }
    rewrite Hplace, Hmask.
    destruct rt eqn:Hrt; cbn [negb andb orb Bool.eqb].
    + (* a transparent layer *)
      destruct (IH (pre ++ [b])
                  (Classify.mk any (Classify.allTransparent st && true)
                     (Classify.newOpaque st)
                     (Classify.newTransparent st ++ [boundLayerTask part b])
                     (Classify.newCredits st ++ boundLayerCredits cam b))
                  Hbls'
                  (Hany' any ltac:(rewrite Hmask; cbn; rewrite ?orb_false_r; reflexivity)))
        as (H1 & H2 & H3).
      rewrite Hlen in H1, H2. cbn [Classify.newTransparent Classify.newOpaque
                                   Classify.allTransparent] in H1, H2, H3.
      rewrite H1, H2, H3, <- app_assoc.
      repeat split; destruct (Classify.allTransparent st); reflexivity.
    + destruct (isSome (BoundParamInfo.textureMask b)) eqn:Hm;
        cbn [negb andb orb Bool.eqb].
      * (* a masked layer *)
        destruct any eqn:Ha; cbn [negb andb orb Bool.eqb].
        -- destruct (IH (pre ++ [b])
                       (Classify.mk true (Classify.allTransparent st && false)
                          (Classify.newOpaque st)
                          (Classify.newTransparent st ++ [boundLayerTask part b])
                          (Classify.newCredits st ++ boundLayerCredits cam b))
                       Hbls'
                       (Hany' true ltac:(rewrite Hmask; cbn; rewrite ?orb_false_r; reflexivity)))
             as (H1 & H2 & H3).
           rewrite Hlen in H1, H2. cbn [Classify.newTransparent Classify.newOpaque
                                        Classify.allTransparent] in H1, H2, H3.
           rewrite H1, H2, H3, <- app_assoc.
           repeat split; destruct (Classify.allTransparent st); reflexivity.
        -- destruct (IH (pre ++ [b])
                       (Classify.mk true (Classify.allTransparent st && false)
                          (Classify.newOpaque st ++ [boundLayerTask part b])
                          (Classify.newTransparent st)
                          (Classify.newCredits st ++ boundLayerCredits cam b))
                       Hbls'
                       (Hany' true ltac:(rewrite Hmask; cbn; rewrite ?orb_false_r; reflexivity)))
             as (H1 & H2 & H3).
           rewrite Hlen in H1, H2. cbn [Classify.newTransparent Classify.newOpaque
                                        Classify.allTransparent] in H1, H2, H3.
           rewrite H1, H2, H3, <- app_assoc.
           repeat split; destruct (Classify.allTransparent st); reflexivity.
      * (* a layer opaque by itself *)
        destruct (IH (pre ++ [b])
                    (Classify.mk any (Classify.allTransparent st && false)
                       (Classify.newOpaque st ++ [boundLayerTask part b])
                       (Classify.newTransparent st)
                       (Classify.newCredits st ++ boundLayerCredits cam b))
                    Hbls'
                    (Hany' any ltac:(rewrite Hmask; cbn; rewrite ?orb_false_r; reflexivity)))
          as (H1 & H2 & H3).
        rewrite Hlen in H1, H2. cbn [Classify.newTransparent Classify.newOpaque
                                     Classify.allTransparent] in H1, H2, H3.
        rewrite H1, H2, H3, <- app_assoc.
           repeat split; destruct (Classify.allTransparent st); reflexivity.
Qed.

(** C3.  For a submesh with external UVs whose bound-layer stack [bls] has
    been resolved ([reorderBoundLayers] returned [Valid]): a transparent
    layer goes to the transparent draw list; a non-transparent layer with a
    texture mask goes to the transparent list too, except that the first such
    layer of a stack without any layer opaque by itself goes to the opaque
    list; every other layer goes to the opaque list; the order of the stack
    is kept.  The task of the submesh's internal texture is put in front of
    the opaque list only when every layer of the stack is transparent (and
    the submesh has internal UVs and the texture is valid); otherwise the
    texture is not even requested. *)
Theorem submesh_draw_classification (trav : TraverseNode.t)
    (subMeshIndex : Z) (part : MeshPart.t) (st : Draws.t)
    (bls : list BoundParamInfo.t) :
  MeshPart.externalUv part = true ->
  CameraImpl.reorderBoundLayers cam (TraverseNode.id trav) (metaLocalId trav)
    subMeshIndex (boundLayersOf cam layer trav part) (TraverseNode.priority trav)
  = (Valid, bls) ->
  let st' := submeshStep cam layer trav subMeshIndex part st in
  let texture := fst (travInternalTexture layer trav subMeshIndex) in
  let emitted :=
    forallb BoundParamInfo.transparent bls
    && MeshPart.internalUv part
    && Validity_eqb
         (MapImpl.getResourceValidity (CameraImpl.map cam) texture) Valid in
  Draws.newTransparent st'
  = Draws.newTransparent st
    ++ List.map (boundLayerTask part) (Spec.layersOn bls true)
  /\ Draws.newOpaque st'
     = (if emitted then [internalTextureTask part texture] else [])
       ++ Draws.newOpaque st
       ++ List.map (boundLayerTask part) (Spec.layersOn bls false)
  /\ (forallb BoundParamInfo.transparent bls = false ->
      Draws.events st' = Draws.events st).
Proof.
  intros Hext Hre st' texture emitted.
  destruct (classifyBoundLayers_from part bls bls []
              (Classify.mk (existsb opaqueLayer bls) true (Draws.newOpaque st)
                 (Draws.newTransparent st) (Draws.newCredits st))
              eq_refl ltac:(cbn; rewrite orb_false_r; reflexivity))
    as (H1 & H2 & H3).
  cbn [Classify.newTransparent Classify.newOpaque Classify.allTransparent
       andb length] in H1, H2, H3.
  fold (Spec.layersOn bls true) in H1. fold (Spec.layersOn bls false) in H2.
  subst st' emitted. unfold submeshStep. rewrite Hext, Hre, H3.
  destruct (forallb BoundParamInfo.transparent bls) eqn:Hall; cbn [negb andb].
  - unfold internalTexture. subst texture.
    destruct (MeshPart.internalUv part); cbn [andb].
    + destruct (travInternalTexture layer trav subMeshIndex) as [tex ev] eqn:Htex.
      cbn [fst].
      destruct (MapImpl.getResourceValidity (CameraImpl.map cam) tex);
        cbn; rewrite H1, H2; repeat split; discriminate.
    + cbn. rewrite H1, H2. repeat split; discriminate.
  - cbn. rewrite H1, H2. repeat split.
Qed.

End ClassificationFacts.

(* ================================================================== *)
(** * Metadata determination (traversal.cpp, mapUtilities.cpp) *)
(* ================================================================== *)

Section MetaFacts.

Import LibBrowser.

Variable ulChild : Z.
Variable cam : CameraImpl.t.
Variable layer : MapLayer.t.

(** The code's [(x % 2) + (y % 2) * 2] is the child index of the
    specification, [(x&1) | ((y&1)<<1)]. *)
Lemma childIndex_spec (nodeId : TileId.t) :
  childIndex nodeId = Spec.childIndex nodeId.
Proof.
  unfold childIndex, Spec.childIndex.
  change 1 with (Z.ones 1) at 1 2.
  rewrite !Z.land_ones by lia. change (2 ^ 1) with 2.
  pose proof (Z.mod_pos_bound (TileId.x nodeId) 2 ltac:(lia)) as Hx.
  pose proof (Z.mod_pos_bound (TileId.y nodeId) 2 ltac:(lia)) as Hy.
  assert (Ex : TileId.x nodeId mod 2 = 0 \/ TileId.x nodeId mod 2 = 1) by lia.
  assert (Ey : TileId.y nodeId mod 2 = 0 \/ TileId.y nodeId mod 2 = 1) by lia.
  destruct Ex as [-> | ->], Ey as [-> | ->]; reflexivity.
Qed.

(** The loop that retrieves the meta tile handles, slot by slot. *)
Lemma retrieveMetaTiles_spec (parent : option TraverseNode.t)
    (nodeId : TileId.t) (n : nat) :
  forall (i : nat) (metaTiles : list (option string)),
    (i + n <= length metaTiles)%nat ->
    let r := retrieveMetaTiles ulChild cam layer parent nodeId n i metaTiles in
    (forall k : nat,
        fst r !! k
        = if decide (i <= k < i + n)%nat
          then match slotRequest ulChild cam layer parent nodeId k with
               | Some name => Some (Some name)
               | None => metaTiles !! k
               end
          else metaTiles !! k)
    /\ metaTileRequests (snd r)
       = flat_map (fun j => option_list (slotRequest ulChild cam layer parent nodeId j)) (seq i n).
Proof.
  induction n as [|n IH]; intros i metaTiles Hlen; cbn zeta.
  - cbn. split; [|reflexivity].
    intros k. destruct (decide _) as [H|_]; [lia|reflexivity].
  - cbn [retrieveMetaTiles seq flat_map].
    fold (metaTileName cam layer nodeId i).
    assert (Hs : slotRequest ulChild cam layer parent nodeId i
                 = if match parent with
                      | Some p => skipsMetaTile ulChild cam p nodeId i
                      | None => false
                      end
                   then None else Some (metaTileName cam layer nodeId i))
      by reflexivity.
    destruct (match parent with
              | Some p => skipsMetaTile ulChild cam p nodeId i
              | None => false
              end).
    + destruct (IH (S i) metaTiles ltac:(lia)) as [Hk Hev].
      rewrite Hs. split; [|exact Hev].
      intros k. rewrite Hk.
      destruct (decide (S i <= k < S i + n)%nat) as [H1|H1];
        destruct (decide (i <= k < i + S n)%nat) as [H2|H2];
        try lia; try reflexivity.
      assert (k = i) as -> by lia. rewrite Hs. reflexivity.
    + destruct (IH (S i) (<[i := Some (metaTileName cam layer nodeId i)]> metaTiles)
                  ltac:(rewrite length_insert; lia)) as [Hk Hev].
      destruct (retrieveMetaTiles ulChild cam layer parent nodeId n (S i) _)
        as [mts ev] eqn:Hr.
      cbn [fst snd] in *. rewrite Hs. split.
      * intros k. rewrite Hk.
        destruct (decide (S i <= k < S i + n)%nat) as [H1|H1];
          destruct (decide (i <= k < i + S n)%nat) as [H2|H2];
          try lia.
        -- rewrite list_lookup_insert_ne by lia. reflexivity.
        -- assert (k = i) as -> by lia. rewrite Hs.
           apply list_lookup_insert_eq. lia.
        -- rewrite list_lookup_insert_ne by lia. reflexivity.
      * change (metaTileRequests (Get RT_MetaTile (metaTileName cam layer nodeId i) :: ev))
          with (metaTileName cam layer nodeId i :: metaTileRequests ev).
        rewrite Hev. reflexivity.
Qed.

(** The priority updates of the check loop request nothing. *)
Lemma checkMetaTiles_requests (priority : float)
    (metaTiles : list (option string)) :
  metaTileRequests (snd (checkMetaTiles cam priority metaTiles)) = [].
Proof.
  induction metaTiles as [|[m|] rest IH]; cbn; [reflexivity| |exact IH].
  destruct (checkMetaTiles cam priority rest). cbn in *. exact IH.
Qed.

Lemma metaTileRequests_app (a b : list Event) :
  metaTileRequests (a ++ b) = metaTileRequests a ++ metaTileRequests b.
Proof. unfold metaTileRequests. apply flat_map_app. Qed.

(** [travDetermineMeta] on a tiled layer, piece by piece: the handles it
    leaves in the node, the meta tiles it requests, and the surface it
    assigns when it succeeds. *)
Lemma travDetermineMeta_tiled (parent : option TraverseNode.t)
    (trav : TraverseNode.t) (initAllChild : bool) :
  MapLayer.freeLayer layer <> Some FL_geodata ->
  let r := travDetermineMeta ulChild cam layer parent trav initAllChild in
  let h := handlesAfter ulChild cam layer parent trav in
  TraverseNode.metaTiles (snd (fst r)) = fst h
  /\ metaTileRequests (snd r) = metaTileRequests (snd h)
  /\ (fst (fst r) = true ->
      TraverseNode.surface (snd (fst r))
      = match Topmost.topmost
                (findTopmost ulChild cam layer (TraverseNode.id trav) 0 (fst h)
                             Topmost.init) with
        | Some topmost => Some topmost
        | None => TraverseNode.surface trav
        end).
Proof.
  intros Hfree r h. subst r. unfold travDetermineMeta.
  assert (Hbody : forall body geo : bool * TraverseNode.t * list Event,
            match MapLayer.freeLayer layer with
            | Some FL_geodata => geo
            | _ => body
            end = body).
  { intros body geo. destruct (MapLayer.freeLayer layer) as [[]|];
      try reflexivity. contradiction. }
  rewrite Hbody. clear Hbody.
  fold (handlesAfter ulChild cam layer parent trav). fold h.
  destruct h as [mts ev1] eqn:Hh. cbn [fst snd].
  pose proof (checkMetaTiles_requests
                (TraverseNode.priority (TraverseNode.set_metaTiles mts trav)) mts)
    as Hchk.
  destruct (checkMetaTiles cam _ mts) as [determined ev2].
  cbn [snd] in Hchk.
  assert (Hev : metaTileRequests ([Count currentNodeMetaUpdates] ++ ev1 ++ ev2)
                = metaTileRequests ev1).
  { rewrite !metaTileRequests_app, Hchk, app_nil_r. reflexivity. }
  destruct determined; cbn [negb].
  - cbn [TraverseNode.id TraverseNode.set_metaTiles].
    destruct (Topmost.chosen _) as [chosen|] eqn:Hc.
    + cbn [fst snd].
      destruct (updateNodePriority_fields cam parent
                  (TraverseNode.set_childs
                     (newChilds (TraverseNode.id trav) initAllChild
                        (Topmost.childsAvailable
                           (findTopmost ulChild cam layer (TraverseNode.id trav) 0 mts
                              Topmost.init)))
                     (TraverseNode.set_meta
                        (Some (MapImpl.metaTileGetNode (CameraImpl.map cam) chosen
                                 (TraverseNode.id trav)))
                        match Topmost.topmost
                                (findTopmost ulChild cam layer (TraverseNode.id trav) 0
                                   mts Topmost.init) with
                        | Some topmost =>
                            TraverseNode.set_credits
                              (TraverseNode.credits (TraverseNode.set_metaTiles mts trav)
                               ++ VtsMetaNode.credits
                                    (MapImpl.metaTileGet (CameraImpl.map cam) chosen
                                       (TraverseNode.id trav)))
                              (TraverseNode.set_surface (Some topmost)
                                 (TraverseNode.set_metaTiles mts trav))
                        | None => TraverseNode.set_metaTiles mts trav
                        end)))
        as (_ & _ & Hsurf & _ & Hmts & _).
      rewrite Hsurf, Hmts.
      split; [|split; [exact Hev|]];
        destruct (Topmost.topmost _); reflexivity.
    + cbn. split; [reflexivity|]. split; [exact Hev|discriminate].
  - cbn. split; [reflexivity|]. split; [exact Hev|discriminate].
Qed.




(** C4.  For a node with a parent and every surface [i] for which the
    parent holds a meta tile.  On the call that retrieves the meta tile
    handles of the node (it holds none yet), slot [i] receives the meta tile
    of the surface, and that meta tile is requested, if and only if the
    parent's meta node (in the parent's meta tile of surface [i]) has the
    bit [ulChild << c] set in its flags, with [c = (x&1) | ((y&1)<<1)]; when
    the bit is unset the slot stays empty and contributes no request; the
    requests of the call are exactly the contributions of the slots, in
    order.  On any later call the slots stay as they are and nothing is
    requested. *)
Theorem child_metatile_requests (p : TraverseNode.t) (trav : TraverseNode.t)
    (initAllChild : bool) (i : nat) (pm : string) :
  MapLayer.freeLayer layer <> Some FL_geodata ->
  (i < length (MapLayer.surfaceStack layer))%nat ->
  TraverseNode.metaTiles p !! i = Some (Some pm) ->
  let nodeId := TraverseNode.id trav in
  let r := travDetermineMeta ulChild cam layer (Some p) trav initAllChild in
  let bit := Z.land (VtsMetaNode.flags
                       (MapImpl.metaTileGet (CameraImpl.map cam) pm
                                            (TileId.parent nodeId)))
                    (Z.shiftl ulChild (Spec.childIndex nodeId)) in
  let contribution :=
    fun j => option_list (slotRequest ulChild cam layer (Some p) nodeId j) in
  (TraverseNode.metaTiles trav = [] ->
   metaTileRequests (snd r)
   = flat_map contribution (seq 0 (length (MapLayer.surfaceStack layer)))
   /\ (bit <> 0 ->
       TraverseNode.metaTiles (snd (fst r)) !! i
       = Some (Some (metaTileName cam layer nodeId i))
       /\ contribution i = [metaTileName cam layer nodeId i])
   /\ (bit = 0 ->
       TraverseNode.metaTiles (snd (fst r)) !! i = Some None
       /\ contribution i = []))
  /\ (TraverseNode.metaTiles trav <> [] ->
      metaTileRequests (snd r) = []
      /\ TraverseNode.metaTiles (snd (fst r)) = TraverseNode.metaTiles trav).
Proof.
  intros Hfree Hi Hpm nodeId r bit contribution.
  destruct (travDetermineMeta_tiled (Some p) trav initAllChild Hfree)
    as (Hmts & Hreq & _).
  fold r in Hmts, Hreq. unfold handlesAfter in Hmts, Hreq.
  split.
  - intros Hnil. rewrite Hnil in Hmts, Hreq. cbn [isNil] in Hmts, Hreq.
    destruct (retrieveMetaTiles_spec (Some p) nodeId
                (length (MapLayer.surfaceStack layer)) 0
                (replicate (length (MapLayer.surfaceStack layer)) None)
                ltac:(rewrite length_replicate; lia)) as [Hk Hev].
    fold nodeId in Hmts, Hreq.
    assert (Hslot : slotRequest ulChild cam layer (Some p) nodeId i
                    = if bit =? 0 then None
                      else Some (metaTileName cam layer nodeId i)).
    { unfold slotRequest, skipsMetaTile.
      rewrite (nth_lookup_Some _ _ None _ Hpm).
      rewrite childIndex_spec. reflexivity. }
    assert (Hlook : TraverseNode.metaTiles (snd (fst r)) !! i
                    = match slotRequest ulChild cam layer (Some p) nodeId i with
                      | Some name => Some (Some name)
                      | None => Some None
                      end).
    { rewrite Hmts, Hk.
      destruct (decide (0 <= i < 0 + length (MapLayer.surfaceStack layer))%nat)
        as [_|H]; [|lia].
      destruct (slotRequest ulChild cam layer (Some p) nodeId i); [reflexivity|].
      apply lookup_replicate_2. exact Hi. }
    split; [rewrite Hreq; exact Hev|].
    subst contribution. cbn beta. rewrite Hlook, Hslot.
    split; intros Hbit.
    + destruct (Z.eqb_spec bit 0) as [E|_]; [contradiction|]. split; reflexivity.
    + rewrite Hbit. split; reflexivity.
  - intros Hne.
    destruct (TraverseNode.metaTiles trav) as [|o rest] eqn:E;
      [contradiction|].
    cbn [isNil fst snd] in Hmts, Hreq. split; assumption.
Qed.

End MetaFacts.

(** The stack [TilesetMapping::update] builds is one-based: element 0 is the
    placeholder and element [k + 1] is built from record [k] of the
    mapping. *)
Lemma pushAll_app (mapConfigName : string) (vsId : list string)
    (dataRaw : list (list nat)) :
  forall surfaceStack : list BrowserLib.SurfaceStackItem.t,
    BrowserLib.TilesetMapping.pushAll mapConfigName vsId dataRaw surfaceStack
    = surfaceStack
      ++ List.map (BrowserLib.TilesetMapping.item mapConfigName vsId) dataRaw.
Proof.
  induction dataRaw as [|it rest IH]; intros surfaceStack; cbn.
  - rewrite app_nil_r. reflexivity.
  - rewrite IH, <- app_assoc. reflexivity.
Qed.

Lemma tilesetStack_one_based (mapConfigName : string) (vsId : list string)
    (dataRaw : list (list nat)) :
  BrowserLib.TilesetMapping.stackBeforeColorize mapConfigName vsId dataRaw !! 0%nat
  = Some BrowserLib.SurfaceStackItem.empty
  /\ forall (k : nat) (it : list nat),
       dataRaw !! k = Some it ->
       BrowserLib.TilesetMapping.stackBeforeColorize mapConfigName vsId dataRaw
       !! S k
       = Some (BrowserLib.TilesetMapping.item mapConfigName vsId it).
Proof.
  unfold BrowserLib.TilesetMapping.stackBeforeColorize. rewrite pushAll_app.
  split; [reflexivity|].
  intros k it Hk.
  change (List.map ?f ?l) with (f <$> l).
  rewrite lookup_app_r by (cbn; lia). cbn [length].
  replace (S k - 1)%nat with k by lia.
  rewrite list_lookup_fmap, Hk. reflexivity.
Qed.



(** The upper-right child under a parent whose meta node in P0 flags that
    child: slot 0 receives the meta tile of surface S0. *)
Lemma child_metatile_requests_witness :
  LibBrowser.TraverseNode.metaTiles
    (snd (fst (LibBrowser.travDetermineMeta 16
                 (Examples.lbCamera Examples.parentFlags true)
                 Examples.layerTwo (Some Examples.parentNode)
                 Examples.childNode false)))
  !! 0%nat
  = Some (Some "S0/meta"%string).
Proof.
  refine (proj1 (proj1 (proj2 (proj1
    (child_metatile_requests 16 (Examples.lbCamera Examples.parentFlags true)
       Examples.layerTwo Examples.parentNode Examples.childNode false 0 "P0"
       _ _ eq_refl) eq_refl)) _)).
  - discriminate.
  - cbn. lia.
  - vm_compute. discriminate.
Defined.

(** A determined leaf: the call returns [true] and touches nothing, the
    leaf pinning no resource. *)
Lemma travDetermineDraws_settled_witness :
  LibBrowser.travDetermineDraws (Examples.lbCamera Examples.allValid true)
    Examples.layerS None Examples.leafNode
  = (true, Examples.leafNode, []).
Proof.
  exact (proj1 (travDetermineDraws_settled
                  (Examples.lbCamera Examples.allValid true) Examples.layerS
                  None Examples.leafNode (or_intror eq_refl))).
Defined.



(** Two masked layers around a transparent one, no layer opaque by itself:
    the first masked layer is the only opaque task. *)
Lemma submesh_draw_classification_witness :
  LibBrowser.Draws.newOpaque
    (LibBrowser.submeshStep (Examples.lbCamera Examples.allValid true)
       Examples.layerMasked Examples.pendingNode 0 Examples.externalPart
       Examples.noDraws)
  = [LibBrowser.boundLayerTask Examples.externalPart
       (Examples.maskedBy "m1" "mask1")].
Proof.
  exact (proj1 (proj2
    (submesh_draw_classification (Examples.lbCamera Examples.allValid true)
       Examples.layerMasked Examples.pendingNode 0 Examples.externalPart
       Examples.noDraws
       [Examples.maskedBy "m1" "mask1"; Examples.transparentLayer "t";
        Examples.maskedBy "m2" "mask2"]
       eq_refl eq_refl))).
Defined.

(* ================================================================== *)
(** * Traversal strategies (traversal.cpp) *)
(* ================================================================== *)

Section TraversalFacts.

Import LibBrowser.

Variable ulChild : Z.
Variable cam : CameraImpl.t.
Variable layer : MapLayer.t.

Lemma rendered_app (a b : list Event) :
  rendered (a ++ b) = rendered a ++ rendered b.
Proof. unfold rendered. apply flat_map_app. Qed.

Lemma rendered_touch (names : list string) :
  rendered (List.map Touch names) = [].
Proof. induction names as [|n l IH]; [reflexivity|exact IH]. Qed.

(** ** Only [renderNode] renders *)

Lemma retrieveMetaTiles_quiet (parent : option TraverseNode.t)
    (nodeId : TileId.t) (n : nat) :
  forall (i : nat) (metaTiles : list (option string)),
    rendered (snd (retrieveMetaTiles ulChild cam layer parent nodeId n i
                     metaTiles)) = [].
Proof.
  induction n as [|n IH]; intros i metaTiles; cbn [retrieveMetaTiles];
    [reflexivity|].
  destruct (match parent with Some _ => _ | None => _ end); [apply IH|].
  specialize (IH (S i) (<[i := Some (metaTileName cam layer nodeId i)]> metaTiles)).
  fold (metaTileName cam layer nodeId i).
  destruct (retrieveMetaTiles _ _ _ _ _ _ _ _). exact IH.
Qed.

Lemma checkMetaTiles_quiet (priority : float)
    (metaTiles : list (option string)) :
  rendered (snd (checkMetaTiles cam priority metaTiles)) = [].
Proof.
  induction metaTiles as [|[m|] rest IH]; cbn [checkMetaTiles];
    [reflexivity| |exact IH].
  destruct (checkMetaTiles cam priority rest). exact IH.
Qed.

Lemma travDetermineMeta_quiet (parent : option TraverseNode.t)
    (trav : TraverseNode.t) (initAllChild : bool) :
  rendered (snd (travDetermineMeta ulChild cam layer parent trav initAllChild))
  = [].
Proof.
  unfold travDetermineMeta, generateMonolithicGeodataTrav.
  destruct (MapLayer.freeLayer layer) as [[]|]; try reflexivity.
  all: destruct (if isNil (TraverseNode.metaTiles trav) then _ else _)
         as [mts ev1] eqn:E.
  all: assert (H1 : rendered ev1 = []);
    [ destruct (isNil (TraverseNode.metaTiles trav));
      [ pose proof (retrieveMetaTiles_quiet parent (TraverseNode.id trav)
                      (length (MapLayer.surfaceStack layer)) 0
                      (replicate (length (MapLayer.surfaceStack layer)) None))
          as Hq;
        rewrite E in Hq; exact Hq
      | injection E as <- <-; reflexivity ]
    | ].
  all: pose proof (checkMetaTiles_quiet
                     (TraverseNode.priority (TraverseNode.set_metaTiles mts trav))
                     mts) as H2.
  all: destruct (checkMetaTiles cam _ mts) as [d ev2]; cbn [snd] in H2.
  all: destruct d; cbn [negb];
    [ destruct (Topmost.chosen _) | ];
    cbn [snd]; rewrite !rendered_app, H1, H2; reflexivity.
Qed.

Lemma internalTexture_quiet (trav : TraverseNode.t) (subMeshIndex : Z)
    (part : MeshPart.t) (st : Draws.t) :
  rendered (Draws.events (internalTexture cam layer trav subMeshIndex part st))
  = rendered (Draws.events st).
Proof.
  unfold internalTexture, travInternalTexture.
  destruct (MeshPart.internalUv part); [|reflexivity].
  destruct (MapImpl.getResourceValidity _ _); cbn [Draws.events];
    rewrite rendered_app, app_nil_r; reflexivity.
Qed.

Lemma submeshStep_quiet (trav : TraverseNode.t) (subMeshIndex : Z)
    (part : MeshPart.t) (st : Draws.t) :
  rendered (Draws.events (submeshStep cam layer trav subMeshIndex part st))
  = rendered (Draws.events st).
Proof.
  unfold submeshStep.
  destruct (MeshPart.externalUv part); [|apply internalTexture_quiet].
  destruct (CameraImpl.reorderBoundLayers _ _ _ _ _ _) as [[] bls];
    try reflexivity.
  destruct (negb _); [reflexivity|].
  rewrite internalTexture_quiet. reflexivity.
Qed.

Lemma submeshLoop_quiet (trav : TraverseNode.t) (parts : list MeshPart.t) :
  forall (subMeshIndex : Z) (st : Draws.t),
    rendered (Draws.events (submeshLoop cam layer trav subMeshIndex parts st))
    = rendered (Draws.events st).
Proof.
  induction parts as [|part rest IH]; intros subMeshIndex st; cbn [submeshLoop];
    [reflexivity|].
  rewrite IH. apply submeshStep_quiet.
Qed.

(** What [travDetermineDraws] leaves alone, and what it answers: the id,
    the meta node and the children of the node stay, the answer is the new
    value of [determined], and nothing is rendered. *)
Lemma travDetermineDraws_frame (parent : option TraverseNode.t)
    (trav : TraverseNode.t) :
  let r := travDetermineDraws cam layer parent trav in
  TraverseNode.id (snd (fst r)) = TraverseNode.id trav
  /\ TraverseNode.meta (snd (fst r)) = TraverseNode.meta trav
  /\ TraverseNode.childs (snd (fst r)) = TraverseNode.childs trav
  /\ TraverseNode.determined (snd (fst r)) = fst (fst r)
  /\ rendered (snd r) = [].
Proof.
  cbn zeta. unfold travDetermineDraws, touchDraws.
  destruct (negb (isSome (TraverseNode.surface trav))
            || TraverseNode.determined trav).
  { cbn [fst snd]. rewrite rendered_touch. repeat split. }
  destruct (updateNodePriority_fields cam parent trav)
    as (Hid & Hmeta & _ & _ & _ & _ & _ & _ & _ & _ & Hch).
  set (trav1 := updateNodePriority cam parent trav) in *.
  destruct (MapLayer.isGeodata layer).
  - unfold travDetermineDrawsGeodata.
    destruct (Validity_eqb _ _ || Validity_eqb _ _).
    { cbn [fst snd]. rewrite ?rendered_app, ?rendered_touch. cbn.
      repeat split; assumption. }
    destruct (Validity_eqb _ _ || Validity_eqb _ _).
    { cbn [fst snd]. rewrite ?rendered_app, ?rendered_touch. cbn.
      repeat split; assumption. }
    destruct (MapImpl.getResourceValidity _ _); cbn [fst snd];
      rewrite ?rendered_app, ?rendered_touch; cbn; repeat split; assumption.
  - unfold travDetermineDrawsSurface.
    destruct (existsb _ _).
    { cbn [fst snd]. rewrite ?rendered_app, ?rendered_touch. cbn.
      repeat split; assumption. }
    cbn [TraverseNode.resources TraverseNode.set_resources TraverseNode.priority].
    destruct (MapImpl.getResourceValidity _ _).
    + cbn [fst snd]. rewrite ?rendered_app, ?rendered_touch. cbn.
      repeat split; assumption.
    + cbn [fst snd]. rewrite ?rendered_app, ?rendered_touch. cbn.
      repeat split; assumption.
    + match goal with
      | |- context [submeshLoop cam layer ?t 0 ?parts ?st] =>
          pose proof (submeshLoop_quiet t parts 0 st) as Hq;
          destruct (submeshLoop cam layer t 0 parts st) as [d no nt nc res ev]
      end.
      cbn [Draws.events Draws.determined Draws.resources Draws.newOpaque
           Draws.newTransparent Draws.newCredits] in *.
      rewrite ?rendered_app, ?rendered_touch in Hq. cbn in Hq.
      destruct d; cbn [fst snd]; rewrite ?rendered_app, ?rendered_touch, Hq;
        cbn; repeat split; assumption.
Qed.

Lemma travInit_quiet (parent : option TraverseNode.t) (trav : TraverseNode.t)
    (initAllChildren : bool) :
  rendered (snd (travInit ulChild cam layer parent trav initAllChildren)) = [].
Proof.
  unfold travInit.
  destruct (TraverseNode.meta _); [reflexivity|].
  match goal with
  | |- context [travDetermineMeta ulChild cam layer parent ?t initAllChildren] =>
      pose proof (travDetermineMeta_quiet parent t initAllChildren) as Hq;
      destruct (travDetermineMeta ulChild cam layer parent t initAllChildren)
        as [[r t'] ev]
  end.
  cbn [snd] in *. rewrite !rendered_app, Hq, app_nil_r.
  cbn [rendered flat_map app].
  match goal with |- rendered (flat_map _ ?l) = [] => generalize l end.
  intros l. induction l as [|[m|] l IH]; [reflexivity|exact IH|exact IH].
Qed.

Lemma enter_quiet (renderOnly : bool) (parent : option TraverseNode.t)
    (trav : TraverseNode.t) :
  rendered (snd (enter ulChild cam layer renderOnly parent trav)) = [].
Proof.
  unfold enter. destruct renderOnly; [|apply travInit_quiet].
  destruct (isSome _); reflexivity.
Qed.

(** The loop over the children renders what the calls on the children
    render. *)
Lemma forChilds_rendered {A : Type} (P : TraverseNode.t -> Prop)
    (f : TraverseNode.t -> A * TraverseNode.t * list Event)
    (childs : list TraverseNode.t) :
  (forall c : TraverseNode.t, Forall P (rendered (snd (f c)))) ->
  Forall P (rendered (snd (forChilds f childs))).
Proof.
  intros Hf. induction childs as [|c rest IH]; cbn [forChilds].
  - constructor.
  - specialize (Hf c). destruct (f c) as [[a c'] ev].
    destruct (forChilds f rest) as [[results rest'] evs].
    cbn [snd] in *. rewrite rendered_app. apply Forall_app. split; assumption.
Qed.

(** ** What is rendered *)

Lemma travModeFlat_rendered (fuel : nat) :
  forall (ancestors : list TraverseNode.t) (trav : TraverseNode.t),
    Forall (renderedWellFlat cam)
      (rendered (snd (travModeFlat ulChild cam layer fuel ancestors trav))).
Proof.
  induction fuel as [|fuel IH]; intros ancestors trav; cbn [travModeFlat];
    [constructor|].
  pose proof (travInit_quiet (head ancestors) trav false) as Hq.
  destruct (travInit ulChild cam layer (head ancestors) trav false)
    as [[ok t1] ev0].
  cbn [snd] in Hq.
  destruct ok; cbn [negb]; [|cbn [snd]; rewrite Hq; constructor].
  destruct (CameraImpl.visibilityTest cam (TraverseNode.id t1)
                                      (TraverseNode.meta t1)) eqn:Hvis;
    cbn [negb]; [|cbn [snd]; rewrite Hq; constructor].
  destruct (CameraImpl.coarsenessTest cam (TraverseNode.id t1)
                                      (TraverseNode.meta t1)
            || isNil (TraverseNode.childs t1)) eqn:Hc.
  - destruct (travDetermineDraws_frame (head ancestors) t1)
      as (Hid & Hmeta & Hch & Hdet & Hq1).
    destruct (travDetermineDraws cam layer (head ancestors) t1)
      as [[d t2] ev1].
    cbn [fst snd] in *. rewrite !rendered_app, Hq, Hq1.
    destruct d; [|constructor].
    constructor; [|constructor].
    unfold renderedWellFlat, visible, coarseEnough.
    rewrite Hid, Hmeta, Hch. split; [exact Hvis|]. split; [exact Hdet|].
    apply orb_prop in Hc as [Hc|Hc]; [left; exact Hc|right].
    destruct (TraverseNode.childs t1); [reflexivity|discriminate].
  - match goal with
    | |- context [forChilds ?f ?cs] =>
        pose proof (forChilds_rendered (renderedWellFlat cam) f cs) as Hf
    end.
    destruct (forChilds _ _) as [[results childs] ev1].
    cbn [snd] in *. rewrite rendered_app, Hq. apply Hf.
    intros c. specialize (IH (t1 :: ancestors) c).
    destruct (travModeFlat ulChild cam layer fuel (t1 :: ancestors) c).
    exact IH.
Qed.

Lemma travModeStable_rendered (fuel : nat) :
  forall (ancestors : list TraverseNode.t) (trav : TraverseNode.t) (mode : Z),
    Forall (renderedWell cam)
      (rendered (snd (travModeStable ulChild cam layer fuel ancestors trav mode))).
Proof.
  induction fuel as [|fuel IH]; intros ancestors trav mode;
    cbn [travModeStable]; [constructor|].
  pose proof (enter_quiet (mode =? 2) (head ancestors) trav) as Hq.
  destruct (enter ulChild cam layer (mode =? 2) (head ancestors) trav)
    as [[ok t1] ev0].
  cbn [snd] in Hq.
  destruct ok; cbn [negb]; [|cbn [snd]; rewrite Hq; constructor].
  destruct (CameraImpl.visibilityTest cam (TraverseNode.id t1)
                                      (TraverseNode.meta t1)) eqn:Hvis;
    cbn [negb]; [|cbn [snd]; rewrite Hq; constructor].
  assert (Hkids : forall (t : TraverseNode.t) (m : Z),
             Forall (renderedWell cam)
               (rendered (snd (forChilds
                  (fun c => travModeStable ulChild cam layer fuel
                              (t :: ancestors) c m)
                  (TraverseNode.childs t))))).
  { intros t m. apply forChilds_rendered. intros c. apply IH. }
  destruct (mode =? 2).
  { destruct (TraverseNode.determined t1) eqn:Hdet.
    - cbn [snd]. unfold touchDraws.
      rewrite !rendered_app, Hq, rendered_touch.
      constructor; [|constructor]. split; [exact Hvis|exact Hdet].
    - specialize (Hkids t1 2).
      destruct (forChilds _ _) as [[results childs] ev1].
      cbn [snd] in *. rewrite rendered_app, Hq. exact Hkids. }
  destruct (CameraImpl.coarsenessTest cam (TraverseNode.id t1)
                                      (TraverseNode.meta t1)
            || isNil (TraverseNode.childs t1)).
  { destruct (travDetermineDraws_frame (head ancestors) t1)
      as (Hid & Hmeta & Hch & Hdet & Hq1).
    destruct (travDetermineDraws cam layer (head ancestors) t1)
      as [[d t2] ev1].
    cbn [fst snd] in *.
    destruct (mode =? 1).
    { cbn [snd]. rewrite rendered_app, Hq, Hq1. constructor. }
    destruct (TraverseNode.determined t2) eqn:Hdet2.
    - cbn [snd]. rewrite !rendered_app, Hq, Hq1.
      constructor; [|constructor]. unfold renderedWell, visible.
      rewrite Hid, Hmeta. split; [exact Hvis|exact Hdet2].
    - specialize (Hkids t2 2).
      destruct (forChilds _ _) as [[results childs] ev2].
      cbn [snd] in *. rewrite !rendered_app, Hq, Hq1. exact Hkids. }
  destruct ((mode =? 0) && TraverseNode.determined t1) eqn:Hm0.
  - apply andb_prop in Hm0 as [_ Hdet].
    pose proof (Hkids t1 1) as Hk1.
    destruct (forChilds _ _) as [[oks childs] ev1] in Hk1 |- *.
    cbn [snd] in Hk1.
    destruct (negb (forallb (fun ok : bool => ok) oks)).
    + cbn [snd]. unfold touchDraws.
      rewrite !rendered_app, Hq, rendered_touch. cbn [app].
      apply Forall_app. split; [exact Hk1|].
      constructor; [|constructor]. split; [exact Hvis|exact Hdet].
    + pose proof (Hkids (TraverseNode.set_childs childs t1) mode) as Hk2.
      cbn [TraverseNode.childs TraverseNode.set_childs] in Hk2.
      cbn [TraverseNode.childs TraverseNode.set_childs].
      destruct (forChilds _ _) as [[oks2 childs2] ev2] in Hk2 |- *.
      cbn [snd] in *. rewrite !rendered_app, Hq. cbn [app].
      apply Forall_app. split; assumption.
  - pose proof (Hkids t1 mode) as Hk2.
    destruct (forChilds _ _) as [[oks2 childs2] ev2] in Hk2 |- *.
    cbn [snd] in *. rewrite !rendered_app, Hq. exact Hk2.
Qed.

Lemma renderNodeCoarser_rendered (ancestors : list TraverseNode.t) :
  Forall (visible cam) ancestors ->
  Forall (renderedWell cam) (rendered (renderNodeCoarser ancestors)).
Proof.
  induction 1 as [|a rest Ha _ IH]; cbn [renderNodeCoarser]; [constructor|].
  destruct (TraverseNode.determined a) eqn:Hdet; [|exact IH].
  constructor; [|constructor]. split; [exact Ha|exact Hdet].
Qed.

Lemma renderFailedCoarser_rendered (ancestors : list TraverseNode.t)
    (oks : list bool) :
  Forall (visible cam) ancestors ->
  Forall (renderedWell cam) (rendered (renderFailedCoarser ancestors oks)).
Proof.
  intros Hanc. unfold renderFailedCoarser.
  induction oks as [|ok oks IH]; cbn [flat_map]; [constructor|].
  rewrite rendered_app. apply Forall_app. split; [|exact IH].
  destruct ok; [constructor|apply renderNodeCoarser_rendered; exact Hanc].
Qed.

Lemma travModeBalanced_rendered (fuel : nat) :
  forall (ancestors : list TraverseNode.t) (trav : TraverseNode.t)
         (renderOnly : bool),
    Forall (visible cam) ancestors ->
    Forall (renderedWell cam)
      (rendered (snd (travModeBalanced ulChild cam layer fuel ancestors trav
                        renderOnly))).
Proof.
  induction fuel as [|fuel IH]; intros ancestors trav renderOnly Hanc;
    cbn [travModeBalanced]; [constructor|].
  pose proof (enter_quiet renderOnly (head ancestors) trav) as Hq.
  destruct (enter ulChild cam layer renderOnly (head ancestors) trav)
    as [[ok t1] ev0].
  cbn [snd] in Hq.
  destruct ok; cbn [negb]; [|cbn [snd]; rewrite Hq; constructor].
  destruct (CameraImpl.visibilityTest cam (TraverseNode.id t1)
                                      (TraverseNode.meta t1)) eqn:Hvis;
    cbn [negb]; [|cbn [snd]; rewrite Hq; constructor].
  (* the loop over the children and the coarser stand-ins, for a node [t]
     that has the id and the meta node of [t1] *)
  assert (Hrest : forall (t : TraverseNode.t) (ro : bool) (ev1 : list Event),
             TraverseNode.id t = TraverseNode.id t1 ->
             TraverseNode.meta t = TraverseNode.meta t1 ->
             rendered ev1 = [] ->
             Forall (renderedWell cam)
               (rendered (snd (
                  let '(oks, childs, ev2) :=
                    forChilds
                      (fun c => travModeBalanced ulChild cam layer fuel
                                  (t :: ancestors) c ro)
                      (TraverseNode.childs t) in
                  let trav := TraverseNode.set_childs childs t in
                  if isNil (List.filter (fun ok : bool => ok) oks) && ro
                  then (false, trav, ev0 ++ ev1 ++ ev2)
                  else (true, trav,
                        ev0 ++ ev1 ++ ev2
                        ++ renderFailedCoarser (trav :: ancestors) oks))))).
  { intros t ro ev1 Hid Hmeta Hq1.
    assert (Hvt : visible cam t)
      by (unfold visible; rewrite Hid, Hmeta; exact Hvis).
    pose proof (forChilds_rendered (renderedWell cam)
                  (fun c => travModeBalanced ulChild cam layer fuel
                              (t :: ancestors) c ro)
                  (TraverseNode.childs t)
                  (fun c => IH (t :: ancestors) c ro
                               ltac:(constructor; assumption))) as Hk.
    destruct (forChilds _ _) as [[oks childs] ev2].
    cbn [snd] in Hk.
    destruct (isNil _ && ro); cbn [snd]; rewrite !rendered_app, Hq, Hq1;
      cbn [app].
    - exact Hk.
    - apply Forall_app. split; [exact Hk|].
      apply renderFailedCoarser_rendered. constructor; [|exact Hanc].
      unfold visible. cbn. fold (visible cam t). exact Hvt. }
  destruct renderOnly.
  - destruct (TraverseNode.determined t1) eqn:Hdet.
    + cbn [snd]. unfold touchDraws.
      rewrite !rendered_app, Hq, rendered_touch.
      constructor; [|constructor]. split; [exact Hvis|exact Hdet].
    + apply (Hrest t1 true [] eq_refl eq_refl eq_refl).
  - destruct (CameraImpl.coarsenessTest cam (TraverseNode.id t1)
                                        (TraverseNode.meta t1)
              || isNil (TraverseNode.childs t1)).
    + destruct (travDetermineDraws_frame (head ancestors) t1)
        as (Hid & Hmeta & Hch & Hdet & Hq1).
      destruct (travDetermineDraws cam layer (head ancestors) t1)
        as [[d t2] ev1].
      cbn [fst snd] in *.
      destruct d.
      * cbn [snd].
        change (GridPreloadRequest (TraverseNode.id t2) :: ev1 ++ [RenderNode t2])
          with ([GridPreloadRequest (TraverseNode.id t2)] ++ ev1 ++ [RenderNode t2]).
        rewrite !rendered_app, Hq, Hq1.
        constructor; [|constructor]. unfold renderedWell, visible.
        rewrite Hid, Hmeta. split; [exact Hvis|exact Hdet].
      * apply (Hrest t2 true (GridPreloadRequest (TraverseNode.id t2) :: ev1)
                     Hid Hmeta).
        change (GridPreloadRequest (TraverseNode.id t2) :: ev1)
          with ([GridPreloadRequest (TraverseNode.id t2)] ++ ev1).
        rewrite rendered_app, Hq1. reflexivity.
    + apply (Hrest t1 false [] eq_refl eq_refl eq_refl).
Qed.

(** C5, as the code has it.  In a pass of [travModeFlat], of
    [travModeStable] in default mode or of [travModeBalanced] from the root
    of a layer, every node on which [renderNode] is invoked passes the
    visibility test (and is determined) at the time it is rendered.  Under
    [Flat] the node also passes the coarseness test unless it has no
    children; [Stable] and [Balanced] promise nothing about coarseness. *)
Theorem rendered_nodes_are_visible (fuel : nat) (root : TraverseNode.t) :
  Forall (fun t => visible cam t /\ TraverseNode.determined t = true
                   /\ (coarseEnough cam t \/ TraverseNode.childs t = []))
    (rendered (snd (travModeFlat ulChild cam layer fuel [] root)))
  /\ Forall (fun t => visible cam t /\ TraverseNode.determined t = true)
       (rendered (snd (travModeStable ulChild cam layer fuel [] root 0)))
  /\ Forall (fun t => visible cam t /\ TraverseNode.determined t = true)
       (rendered (snd (travModeBalanced ulChild cam layer fuel [] root false))).
Proof.
  split; [|split].
  - apply travModeFlat_rendered.
  - apply travModeStable_rendered.
  - apply travModeBalanced_rendered. constructor.
Qed.

End TraversalFacts.

(** C5 as stated fails: a determined leaf that is visible but not coarse
    enough is rendered by each of the three strategies. *)
Lemma rendered_leaf_counterexample :
  let cam := Examples.lbCamera Examples.allValid false in
  let flat := LibBrowser.travModeFlat 16 cam Examples.layerS 1 []
                                      Examples.leafNode in
  let stable := LibBrowser.travModeStable 16 cam Examples.layerS 1 []
                                          Examples.leafNode 0 in
  let balanced := LibBrowser.travModeBalanced 16 cam Examples.layerS 1 []
                                              Examples.leafNode false in
  List.map LibBrowser.TraverseNode.id (LibBrowser.rendered (snd flat))
  = [TileId.mk 3 1 1]
  /\ List.map LibBrowser.TraverseNode.id (LibBrowser.rendered (snd stable))
     = [TileId.mk 3 1 1]
  /\ List.map LibBrowser.TraverseNode.id (LibBrowser.rendered (snd balanced))
     = [TileId.mk 3 1 1]
  /\ Exists (fun t => LibBrowser.visible cam t
                      /\ ~ LibBrowser.coarseEnough cam t)
            (LibBrowser.rendered (snd flat))
  /\ Exists (fun t => ~ LibBrowser.coarseEnough cam t)
            (LibBrowser.rendered (snd stable))
  /\ Exists (fun t => ~ LibBrowser.coarseEnough cam t)
            (LibBrowser.rendered (snd balanced)).
Proof.
  cbv zeta. repeat split; try reflexivity.
  all: apply Exists_cons_hd; try split; try reflexivity;
    unfold LibBrowser.coarseEnough; cbn; discriminate.
Qed.

(* ================================================================== *)
(** * Further properties of the bound-layer compositor (mapUtilities.cpp) *)
(* ================================================================== *)

(** X1.  The surface stack [TilesetMapping::update] hands to
    [colorizeSurfaceStack] has one item more than the tileset mapping has
    records: element 0 is an empty placeholder and element [k + 1] is the
    item built from record [k], a surface for a record of one reference and
    a glue otherwise. *)
Theorem tileset_stack_layout (mapConfigName : string) (vsId : list string)
    (dataRaw : list (list nat)) :
  let stack := BrowserLib.TilesetMapping.stackBeforeColorize
                 mapConfigName vsId dataRaw in
  length stack = S (length dataRaw)
  /\ stack !! 0%nat = Some BrowserLib.SurfaceStackItem.empty
  /\ forall (k : nat) (it : list nat),
       dataRaw !! k = Some it ->
       stack !! S k
       = Some (BrowserLib.TilesetMapping.item mapConfigName vsId it).
Proof.
  cbv zeta. unfold BrowserLib.TilesetMapping.stackBeforeColorize.
  rewrite pushAll_app. split; [|split].
  - rewrite length_app, length_map. reflexivity.
  - reflexivity.
  - intros k it Hk.
    change (List.map ?f ?l) with (f <$> l).
    rewrite lookup_app_r by (cbn; lia). cbn [length].
    replace (S k - 1)%nat with k by lia.
    rewrite list_lookup_fmap, Hk. reflexivity.
Qed.

Section PrepareFacts.

Import BrowserLib.

Variables (available watertightFlag : Z).

Lemma land_255_bounds (a : Z) : 0 <= Z.land a 255 < 256.
Proof.
  change 255 with (Z.ones 8). rewrite Z.land_ones by lia.
  apply Z.mod_pos_bound. lia.
Qed.

Lemma land_lnot_255 (a : Z) : Z.land a (Z.lnot 255) = a - a mod 256.
Proof.
  change 255 with (Z.ones 8).
  rewrite <- Z.ldiff_land, Z.ldiff_ones_r by lia.
  rewrite Z.shiftl_mul_pow2, Z.shiftr_div_pow2 by lia.
  change (2 ^ 8) with 256. pose proof (Z.div_mod a 256 ltac:(lia)). lia.
Qed.

(** X2.  [prepare] answers [Valid] exactly when the bound layer is known,
    the tile passes the range check and, for a layer with a meta URL, the
    bound meta tile is valid and flags the tile as available.  It answers
    [Indeterminate] exactly when the layer is unknown, or the tile passes
    the range check of a layer with a meta URL whose bound meta tile is
    still loading. *)
Theorem prepare_outcome (self : BoundParamInfo.t) (nodeInfo : NodeInfo.t)
    (impl : MapImpl.t) (subMeshIndex : Z) (priority : float) :
  let r := BoundParamInfo.prepare available watertightFlag self nodeInfo impl
                                  subMeshIndex priority in
  let vars := BoundParamInfo.vars (snd (fst r)) in
  let name (b : BoundInfo.t) := BoundInfo.urlMeta b (boundMetaVars vars) in
  (fst (fst r) = Valid <->
   exists b : BoundInfo.t,
     MapImpl.getBoundInfo impl (BoundParamInfo.id self) = Some b
     /\ BoundParamInfo.checkRanges b (NodeInfo.nodeId nodeInfo) = true
     /\ (BoundInfo.metaUrl b = true ->
         MapImpl.getResourceValidity impl (name b) = Valid
         /\ Z.land (MapImpl.boundMetaTileFlags impl (name b) (flagIndex vars))
                   available = available))
  /\ (fst (fst r) = Indeterminate <->
      MapImpl.getBoundInfo impl (BoundParamInfo.id self) = None
      \/ exists b : BoundInfo.t,
           MapImpl.getBoundInfo impl (BoundParamInfo.id self) = Some b
           /\ BoundParamInfo.checkRanges b (NodeInfo.nodeId nodeInfo) = true
           /\ BoundInfo.metaUrl b = true
           /\ MapImpl.getResourceValidity impl (name b) = Indeterminate).
Proof.
  cbv zeta. unfold BoundParamInfo.prepare. cbn [BoundParamInfo.bound].
  destruct (MapImpl.getBoundInfo impl (BoundParamInfo.id self)) as [b|] eqn:Hb.
  2:{ cbn. split; split.
      - discriminate.
      - intros (b & H & _). discriminate H.
      - intros _. left. reflexivity.
      - reflexivity. }
  destruct (BoundParamInfo.checkRanges b (NodeInfo.nodeId nodeInfo)) eqn:Hr;
    cbn [negb].
  2:{ cbn. split; split.
      - discriminate.
      - intros (b' & H & H' & _). injection H as <-. congruence.
      - discriminate.
      - intros [H | (b' & H & H' & _)]; [discriminate H|].
        injection H as <-. congruence. }
  destruct (BoundInfo.metaUrl b) eqn:Hm.
  2:{ cbn. split; split.
      - intros _. exists b. repeat split; try assumption.
        all: rewrite Hm in *; discriminate.
      - reflexivity.
      - discriminate.
      - intros [H | (b' & H & _ & H' & _)]; [discriminate H|].
        injection H as <-. congruence. }
  cbn [BoundParamInfo.id BoundParamInfo.alpha BoundParamInfo.vars
       BoundParamInfo.orig BoundParamInfo.bound BoundParamInfo.depth
       BoundParamInfo.watertight BoundParamInfo.transparent].
  match goal with
  | |- context [MapImpl.getResourceValidity impl ?n] =>
      set (nm := n) in *; destruct (MapImpl.getResourceValidity impl nm) eqn:Hv
  end.
  - cbn [fst snd BoundParamInfo.vars]. fold nm. unfold boundMetaVars. fold nm.
    split; split.
    + discriminate.
    + intros (b' & H & _ & H'). injection H as <-.
      destruct (H' Hm) as [H1 _]. fold nm in H1. congruence.
    + discriminate.
    + intros [H | (b' & H & _ & _ & H')]; [discriminate H|].
      injection H as <-. fold nm in H'. congruence.
  - cbn [fst snd BoundParamInfo.vars]. unfold boundMetaVars. fold nm.
    split; split.
    + discriminate.
    + intros (b' & H & _ & H'). injection H as <-.
      destruct (H' Hm) as [H1 _]. fold nm in H1. congruence.
    + intros _. right. exists b. repeat split; assumption.
    + reflexivity.
  - match goal with
    | |- context [Z.land ?f available =? available] =>
        destruct (Z.eqb_spec (Z.land f available) available) as [Hf|Hf]
    end; cbn [negb fst snd BoundParamInfo.vars]; unfold boundMetaVars, flagIndex;
      fold nm; split; split.
    + intros _. exists b. repeat split; try assumption.
    + reflexivity.
    + discriminate.
    + intros [H | (b' & H & _ & _ & H')]; [discriminate H|].
      injection H as <-. fold nm in H'. congruence.
    + discriminate.
    + intros (b' & H & _ & H'). injection H as <-.
      destruct (H' Hm) as [_ H2]. fold nm in H2. contradiction.
    + discriminate.
    + intros [H | (b' & H & _ & _ & H')]; [discriminate H|].
      injection H as <-. fold nm in H'. congruence.
Qed.

(** X3.  Once a tile has passed the range check of a bound layer whose
    [lodRange.max] is not negative, [prepare] keeps the tile in [orig] and
    puts into [vars] its ancestor at lod [min(lod, lodRange.max)]: the
    coordinates are those of the tile divided by two for every lod in
    between. *)
Theorem prepare_substitutes_ancestor (self : BoundParamInfo.t)
    (nodeInfo : NodeInfo.t) (impl : MapImpl.t) (subMeshIndex : Z)
    (priority : float) (b : BoundInfo.t) :
  MapImpl.getBoundInfo impl (BoundParamInfo.id self) = Some b ->
  BoundParamInfo.checkRanges b (NodeInfo.nodeId nodeInfo) = true ->
  TileId.wf (NodeInfo.nodeId nodeInfo) ->
  0 <= BoundInfo.lodRange_max b ->
  let self' := snd (fst (BoundParamInfo.prepare available watertightFlag
                           self nodeInfo impl subMeshIndex priority)) in
  let t := NodeInfo.nodeId nodeInfo in
  let v := Vars.tileId (BoundParamInfo.vars self') in
  Vars.tileId (BoundParamInfo.orig self') = t
  /\ TileId.lod v = Z.min (TileId.lod t) (BoundInfo.lodRange_max b)
  /\ TileId.x v = TileId.x t / 2 ^ (TileId.lod t - TileId.lod v)
  /\ TileId.y v = TileId.y t / 2 ^ (TileId.lod t - TileId.lod v).
Proof.
  intros Hb Hr (Hlod & Hx & Hy) Hmax. cbv zeta.
  unfold BoundParamInfo.prepare. cbn [BoundParamInfo.bound].
  rewrite Hb, Hr. cbn [negb BoundParamInfo.id BoundParamInfo.alpha].
  set (t := NodeInfo.nodeId nodeInfo) in *.
  set (dep := Z.max (TileId.lod t - BoundInfo.lodRange_max b) 0).
  assert (Hv : let v1 := if dep >? 0
                         then BoundParamInfo.ancestor t dep
                         else t in
               TileId.lod v1 = Z.min (TileId.lod t) (BoundInfo.lodRange_max b)
               /\ TileId.x v1 = TileId.x t / 2 ^ (TileId.lod t - TileId.lod v1)
               /\ TileId.y v1 = TileId.y t / 2 ^ (TileId.lod t - TileId.lod v1)).
  { cbv zeta. destruct (Z.gtb_spec dep 0) as [Hd|Hd].
    - unfold BoundParamInfo.ancestor. cbn [TileId.lod TileId.x TileId.y].
      assert (Hl : (TileId.lod t - dep) mod 256 = BoundInfo.lodRange_max b)
        by (rewrite Z.mod_small; lia).
      rewrite Hl.
      replace (TileId.lod t - BoundInfo.lodRange_max b) with dep by lia.
      rewrite !Z.shiftr_div_pow2 by lia. repeat split. lia.
    - replace (Z.min (TileId.lod t) (BoundInfo.lodRange_max b))
        with (TileId.lod t) by lia.
      rewrite Z.sub_diag. cbn [Z.pow]. rewrite !Z.div_1_r. repeat split. }
  cbv zeta in Hv.
  destruct (BoundInfo.metaUrl b).
  - destruct (MapImpl.getResourceValidity impl _);
      [ | | match goal with
            | |- context [negb ?c] => destruct c
            end ];
      cbn [negb fst snd BoundParamInfo.vars BoundParamInfo.orig Vars.tileId];
      (split; [reflexivity|]);
      destruct (dep >? 0); cbn [Vars.tileId]; exact Hv.
  - cbn [fst snd BoundParamInfo.vars BoundParamInfo.orig Vars.tileId].
    split; [reflexivity|].
    destruct (dep >? 0); cbn [Vars.tileId]; exact Hv.
Qed.

(** X4.  For a tile that passes the range check of a bound layer with a
    meta URL, [prepare] makes exactly two calls on the cache: it gets the
    bound meta tile and updates its priority.  The tile it names is the one
    of the same lod whose coordinates are those of [vars] rounded down to
    multiples of 256, and the index at which the flags are read is the
    offset of [vars] in that tile, row by row. *)
Theorem prepare_addresses_meta_tile (self : BoundParamInfo.t)
    (nodeInfo : NodeInfo.t) (impl : MapImpl.t) (subMeshIndex : Z)
    (priority : float) (b : BoundInfo.t) :
  MapImpl.getBoundInfo impl (BoundParamInfo.id self) = Some b ->
  BoundParamInfo.checkRanges b (NodeInfo.nodeId nodeInfo) = true ->
  BoundInfo.metaUrl b = true ->
  let r := BoundParamInfo.prepare available watertightFlag self nodeInfo impl
                                  subMeshIndex priority in
  let v := Vars.tileId (BoundParamInfo.vars (snd (fst r))) in
  let a := Vars.tileId (boundMetaVars (BoundParamInfo.vars (snd (fst r)))) in
  let name := BoundInfo.urlMeta b (boundMetaVars (BoundParamInfo.vars (snd (fst r)))) in
  snd r = [GetBoundMetaTile name; UpdatePriority name priority]
  /\ TileId.lod a = TileId.lod v
  /\ TileId.x a mod 256 = 0 /\ TileId.y a mod 256 = 0
  /\ TileId.x a <= TileId.x v < TileId.x a + 256
  /\ TileId.y a <= TileId.y v < TileId.y a + 256
  /\ flagIndex (BoundParamInfo.vars (snd (fst r)))
     = (TileId.y v - TileId.y a) * 256 + (TileId.x v - TileId.x a).
Proof.
  intros Hb Hr Hm. cbv zeta. split.
  - unfold BoundParamInfo.prepare. cbn [BoundParamInfo.bound].
    rewrite Hb, Hr, Hm. cbn [negb BoundParamInfo.id BoundParamInfo.alpha].
    destruct (MapImpl.getResourceValidity impl _);
      [ | | match goal with
            | |- context [negb ?c] => destruct c
            end ];
      reflexivity.
  - match goal with
    | |- context [BoundParamInfo.vars ?s] => generalize (BoundParamInfo.vars s)
    end.
    intros v. unfold boundMetaVars, flagIndex, BoundParamInfo.metaAligned.
    cbn [Vars.tileId TileId.lod TileId.x TileId.y].
    rewrite !land_lnot_255.
    change 255 with (Z.ones 8). rewrite !Z.land_ones by lia.
    change (2 ^ 8) with 256.
    pose proof (Z.mod_pos_bound (TileId.x (Vars.tileId v)) 256 ltac:(lia)).
    pose proof (Z.mod_pos_bound (TileId.y (Vars.tileId v)) 256 ltac:(lia)).
    pose proof (Z.div_mod (TileId.x (Vars.tileId v)) 256 ltac:(lia)).
    pose proof (Z.div_mod (TileId.y (Vars.tileId v)) 256 ltac:(lia)).
    repeat split; try lia.
    + replace (TileId.x (Vars.tileId v) - TileId.x (Vars.tileId v) mod 256)
        with (TileId.x (Vars.tileId v) / 256 * 256) by lia.
      apply Z.mod_mul. lia.
    + replace (TileId.y (Vars.tileId v) - TileId.y (Vars.tileId v) mod 256)
        with (TileId.y (Vars.tileId v) / 256 * 256) by lia.
      apply Z.mod_mul. lia.
Qed.

(** X5.  [prepare] reads the flags of a bound meta tile at indices inside
    the table of 256 x 256 entries only: two maps that agree on the bound
    layers, on the validity of resources and on the flags at the indices
    0..65535 give the same result, whatever they hold elsewhere. *)
Theorem prepare_reads_flags_in_table (self : BoundParamInfo.t)
    (nodeInfo : NodeInfo.t) (impl impl' : MapImpl.t) (subMeshIndex : Z)
    (priority : float) :
  MapImpl.getBoundInfo impl' = MapImpl.getBoundInfo impl ->
  MapImpl.getResourceValidity impl' = MapImpl.getResourceValidity impl ->
  (forall (name : string) (i : Z),
      0 <= i < 256 * 256 ->
      MapImpl.boundMetaTileFlags impl' name i
      = MapImpl.boundMetaTileFlags impl name i) ->
  BoundParamInfo.prepare available watertightFlag self nodeInfo impl'
                         subMeshIndex priority
  = BoundParamInfo.prepare available watertightFlag self nodeInfo impl
                           subMeshIndex priority.
Proof.
  intros Hb Hv Hf. unfold BoundParamInfo.prepare.
  rewrite Hb, Hv. cbn [BoundParamInfo.bound].
  destruct (MapImpl.getBoundInfo impl (BoundParamInfo.id self)) as [b|];
    [|reflexivity].
  destruct (negb _); [reflexivity|].
  destruct (BoundInfo.metaUrl b); [|reflexivity].
  destruct (MapImpl.getResourceValidity impl _); try reflexivity.
  rewrite Hf; [reflexivity|].
  match goal with
  | |- context [Z.land (TileId.y ?a) 255 * 256 + Z.land (TileId.x ?a) 255] =>
      pose proof (land_255_bounds (TileId.y a));
      pose proof (land_255_bounds (TileId.x a))
  end.
  lia.
Qed.

End PrepareFacts.

(** The tile (10, 400, 300) against a layer defined up to lod 8: the tile
    substituted is (8, 100, 75). *)
Lemma prepare_substitutes_ancestor_witness :
  let self' :=
    snd (fst (BrowserLib.BoundParamInfo.prepare 128 192 Examples.layerParams
                Examples.tile_10_400_300
                (Examples.mapWith Examples.bound8 BrowserLib.TM_Flat) 0 1%float)) in
  Vars.tileId (BrowserLib.BoundParamInfo.orig self') = TileId.mk 10 400 300
  /\ TileId.lod (Vars.tileId (BrowserLib.BoundParamInfo.vars self')) = 8
  /\ TileId.x (Vars.tileId (BrowserLib.BoundParamInfo.vars self')) = 100
  /\ TileId.y (Vars.tileId (BrowserLib.BoundParamInfo.vars self')) = 75.
Proof.
  refine (prepare_substitutes_ancestor 128 192 Examples.layerParams
            Examples.tile_10_400_300
            (Examples.mapWith Examples.bound8 BrowserLib.TM_Flat) 0 1%float
            Examples.bound8 eq_refl eq_refl _ _).
  - unfold TileId.wf; cbn; lia.
  - cbn; lia.
Defined.

(** The tile (10, 600, 700) against a layer with a meta URL: the bound
    meta tile is the one at (512, 512), and the flag is read at index
    188 * 256 + 88. *)
Lemma prepare_addresses_meta_tile_witness :
  let r := BrowserLib.BoundParamInfo.prepare 128 192 Examples.layerParams
             Examples.tile_10_600_700
             (Examples.mapWith Examples.bound5 BrowserLib.TM_Flat) 0 1%float in
  snd r = [BrowserLib.GetBoundMetaTile "bound-meta";
           BrowserLib.UpdatePriority "bound-meta" 1%float]
  /\ BrowserLib.flagIndex (BrowserLib.BoundParamInfo.vars (snd (fst r))) = 48216.
Proof.
  pose proof (prepare_addresses_meta_tile 128 192 Examples.layerParams
                Examples.tile_10_600_700
                (Examples.mapWith Examples.bound5 BrowserLib.TM_Flat) 0 1%float
                Examples.bound5 eq_refl eq_refl eq_refl) as H.
  split; [exact (proj1 H)|].
  exact (proj2 (proj2 (proj2 (proj2 (proj2 (proj2 H)))))).
Defined.

(** Two maps whose flags differ past the end of the table only. *)
Lemma prepare_reads_flags_in_table_witness :
  BrowserLib.BoundParamInfo.prepare 128 192 Examples.layerParams
    Examples.tile_10_600_700
    (Examples.mapWithFlags Examples.bound5
       (fun _ i => if i <? 65536 then 128 else 0)) 0 1%float
  = BrowserLib.BoundParamInfo.prepare 128 192 Examples.layerParams
      Examples.tile_10_600_700
      (Examples.mapWithFlags Examples.bound5 (fun _ _ => 128)) 0 1%float.
Proof.
  apply prepare_reads_flags_in_table; [reflexivity|reflexivity|].
  intros name i Hi. cbn.
  destruct (Z.ltb_spec i 65536); [reflexivity|lia].
Defined.

Section PriorityOrder.

Import BrowserLib.

Variable aabbPointDist : Num.vec3 -> Num.vec3 -> Num.vec3 -> float.
Variable geomExtentsEmpty : GeomExtents.t -> bool.

(** The values of [100.f / lod] for the lods 1..255, each compared with
    those of the lods above it. *)
Lemma hierarchical_priority_table :
  let table := List.map (fun l : nat =>
                           (l, Num.to_f32 (100 / Num.of_Z (Z.of_nat l))))
                        (seq 1 255) in
  forallb (fun p : nat * float =>
    forallb (fun q : nat * float =>
      if (fst q <=? fst p)%nat then true else (snd q <? snd p)%float)
      table)
    table = true.
Proof. vm_compute. reflexivity. Qed.

(** [100.f / lod] is strictly decreasing over the lods 1..255. *)
Lemma hierarchical_priority_decreasing (l l' : Z) :
  1 <= l -> l < l' -> l' <= 255 ->
  (Num.to_f32 (100 / Num.of_Z l') <? Num.to_f32 (100 / Num.of_Z l))%float
  = true.
Proof.
  intros H1 H2 H3.
  assert (Hin : forall k : Z,
             1 <= k <= 255 ->
             In (Z.to_nat k, Num.to_f32 (100 / Num.of_Z k))
                (List.map (fun l : nat =>
                             (l, Num.to_f32 (100 / Num.of_Z (Z.of_nat l))))
                          (seq 1 255))).
  { intros k Hk. apply in_map_iff. exists (Z.to_nat k).
    rewrite Z2Nat.id by lia. split; [reflexivity|]. apply in_seq. lia. }
  pose proof hierarchical_priority_table as Ht. cbv zeta in Ht.
  rewrite forallb_forall in Ht.
  specialize (Ht _ (Hin l ltac:(lia))).
  rewrite forallb_forall in Ht.
  specialize (Ht _ (Hin l' ltac:(lia))).
  cbn [fst snd] in Ht.
  destruct (Nat.leb_spec (Z.to_nat l') (Z.to_nat l)) as [Hle|_]; [lia|].
  exact Ht.
Qed.

(** X6.  In [Hierarchical] mode [computeResourcePriority] depends on the
    lod of the node only: it is infinite for a node of lod 0 (a division by
    zero), and over the lods 1..255 a node of a higher lod has a strictly
    lower priority. *)
Theorem hierarchical_priority_by_lod (impl : MapImpl.t)
    (trav trav' : TraverseNode.t) :
  MapImpl.traverseMode impl = TM_Hierarchical ->
  let lod (t : TraverseNode.t) :=
    TileId.lod (NodeInfo.nodeId (TraverseNode.nodeInfo t)) in
  let p := computeResourcePriority aabbPointDist geomExtentsEmpty impl in
  (lod trav = 0 -> p trav = Some infinity)
  /\ (1 <= lod trav -> lod trav < lod trav' -> lod trav' <= 255 ->
      exists a b : float,
        p trav = Some a /\ p trav' = Some b /\ (b <? a)%float = true).
Proof.
  intros Hmode lod p. subst p. unfold computeResourcePriority. rewrite Hmode.
  fold (lod trav) (lod trav'). split.
  - intros ->. reflexivity.
  - intros H1 H2 H3. eexists. eexists. split; [reflexivity|].
    split; [reflexivity|].
    apply hierarchical_priority_decreasing; assumption.
Qed.

End PriorityOrder.

(** A node of lod 0 has infinite priority in [Hierarchical] mode. *)
Lemma hierarchical_priority_by_lod_witness :
  BrowserLib.computeResourcePriority Examples.distInside Examples.noGeomExtents
    (Examples.mapWith Examples.bound8 BrowserLib.TM_Hierarchical)
    (Examples.nodeOfLod 0)
  = Some infinity.
Proof.
  exact (proj1 (hierarchical_priority_by_lod Examples.distInside
                  Examples.noGeomExtents
                  (Examples.mapWith Examples.bound8 BrowserLib.TM_Hierarchical)
                  (Examples.nodeOfLod 0) (Examples.nodeOfLod 3) eq_refl)
               eq_refl).
Defined.

Section QueueFacts.

Import BrowserLib.

Lemma SFcompare_nan_r (f : spec_float) : SFcompare f S754_nan = None.
Proof. destruct f; reflexivity. Qed.

(** X7.  A traverse node that has just been constructed has a priority
    that is not a number, so [TraverseQueueItem::operator <] puts it
    neither before nor after any other item of the traverse queue. *)
Theorem fresh_node_is_unordered (nodeInfo : NodeInfo.t) (loadOnly : bool)
    (other : TraverseQueueItem.t) :
  let fresh := TraverseQueueItem.mk (newTraverseNode nodeInfo) loadOnly in
  TraverseQueueItem.lt fresh other = false
  /\ TraverseQueueItem.lt other fresh = false.
Proof.
  cbv zeta. unfold TraverseQueueItem.lt, newTraverseNode.
  cbn [TraverseQueueItem.trav TraverseNode.priority].
  rewrite !FloatAxioms.ltb_spec. unfold SFltb.
  replace (Prim2SF nan) with S754_nan by (vm_compute; reflexivity).
  rewrite SFcompare_nan_r. split; reflexivity.
Qed.

End QueueFacts.

Section RenderFacts.

Import BrowserLib.

Variable resourceReady : string -> bool.

Lemma allReady_false (tasks : list RenderTask.t) :
  Renders.allReady resourceReady false tasks = false.
Proof. unfold Renders.allReady. induction tasks; [reflexivity|assumption]. Qed.

Lemma RenderTask_ready_iff (task : RenderTask.t) :
  RenderTask.ready resourceReady task = true
  <-> Forall (fun name => resourceReady name = true) (RenderTask.resources task).
Proof.
  unfold RenderTask.ready, RenderTask.resources, RenderTask.setButNotReady.
  destruct task as [[a|] m [c|] [k|]]; cbn;
    repeat match goal with
           | |- context [resourceReady ?x] =>
               destruct (resourceReady x) eqn:?
           end; cbn;
    split; intros H; try reflexivity; try discriminate;
    repeat (constructor; try assumption);
    repeat match goal with
           | H : Forall _ (_ :: _) |- _ => inversion H; clear H; subst
           end; congruence.
Qed.

Lemma allReady_iff (tasks : list RenderTask.t) :
  Renders.allReady resourceReady true tasks = true
  <-> Forall (fun name => resourceReady name = true)
             (flat_map RenderTask.resources tasks).
Proof.
  unfold Renders.allReady.
  induction tasks as [|t rest IH]; cbn [fold_left flat_map].
  - split; [constructor|reflexivity].
  - cbn [andb]. rewrite Forall_app, <- RenderTask_ready_iff.
    destruct (RenderTask.ready resourceReady t).
    + rewrite IH. tauto.
    + fold (Renders.allReady resourceReady false rest).
      rewrite allReady_false. split; [discriminate|intros [H _]; discriminate H].
Qed.

(** [Renders::ready] holds exactly when every resource that a task of the
    three lists refers to is ready; cleared renders are empty and ready. *)
Lemma renders_ready_iff (r : Renders.t) :
  (Renders.ready resourceReady r = true
   <-> Forall (fun name => resourceReady name = true) (Renders.resources r))
  /\ Renders.ready resourceReady (Renders.clear r) = true
  /\ Renders.empty (Renders.clear r) = true.
Proof.
  split; [|split; reflexivity].
  unfold Renders.ready, Renders.resources.
  rewrite !flat_map_app, !Forall_app, <- !allReady_iff.
  destruct (Renders.allReady resourceReady true (Renders.opaque r)).
  - destruct (Renders.allReady resourceReady true (Renders.transparent r)).
    + tauto.
    + rewrite allReady_false. split; [discriminate|intros (_ & H & _); discriminate H].
  - rewrite !allReady_false. split; [discriminate|intros (H & _); discriminate H].
Qed.

End RenderFacts.

(* ================================================================== *)
(** * Further properties of the traversal (traversal.cpp) *)
(* ================================================================== *)

Section GridFacts.

Import LibBrowser.

(** A coordinate lies between the shifted ends of an interval exactly when
    it is the shifted image of a point of the interval. *)
Lemma shifted_interval (lo hi s X : Z) :
  0 <= s -> lo <= hi ->
  (lo / 2 ^ s <= X <= hi / 2 ^ s
   <-> exists x : Z, lo <= x <= hi /\ x / 2 ^ s = X).
Proof.
  intros Hs Hle.
  assert (Hp : 0 < 2 ^ s) by (apply Z.pow_pos_nonneg; lia).
  split.
  - intros [H1 H2].
    destruct (Z.eq_dec X (lo / 2 ^ s)) as [E1|N1];
      [exists lo; split; [lia|congruence]|].
    destruct (Z.eq_dec X (hi / 2 ^ s)) as [E2|N2];
      [exists hi; split; [lia|congruence]|].
    exists (X * 2 ^ s). split; [|apply Z.div_mul; lia].
    pose proof (Z.mul_div_le lo (2 ^ s) Hp).
    pose proof (Z.mul_div_le hi (2 ^ s) Hp).
    pose proof (Z.mod_pos_bound lo (2 ^ s) Hp).
    pose proof (Z.div_mod lo (2 ^ s) ltac:(lia)).
    split; nia.
  - intros (x & [H1 H2] & <-).
    split; apply Z.div_le_mono; lia.
Qed.

(** X8.  For a rectangle of tiles [a1..a2] x [b1..b2] of level [lod], with
    non-negative [int] coordinates, and a node at most 31 levels above
    [lod], [myVisibilityTest] answers [true] exactly when the node is not
    below level [lod] and is the ancestor at its own level of some tile of
    the rectangle. *)
Theorem myVisibilityTest_iff_over_grid (trav : TraverseNode.t)
    (lod a1 b1 a2 b2 : Z) :
  0 <= a1 <= a2 -> a2 < 2 ^ 31 -> 0 <= b1 <= b2 -> b2 < 2 ^ 31 ->
  lod - TileId.lod (TraverseNode.id trav) < 32 ->
  let id := TraverseNode.id trav in
  let shift := lod - TileId.lod id in
  (myVisibilityTest trav lod a1 b1 a2 b2 = true
   <-> 0 <= shift
       /\ exists x y : Z,
            a1 <= x <= a2 /\ b1 <= y <= b2
            /\ x / 2 ^ shift = TileId.x id /\ y / 2 ^ shift = TileId.y id).
Proof.
  intros Ha Ha2 Hb Hb2 _ id shift. unfold myVisibilityTest. fold id shift.
  destruct (Z.ltb_spec shift 0) as [Hneg|Hs].
  { split; [discriminate|]. intros [H _]. lia. }
  assert (Hp : 0 < 2 ^ shift) by (apply Z.pow_pos_nonneg; lia).
  assert (Hu : forall a : Z, 0 <= a < 2 ^ 31 ->
                 Num.u32 (Z.shiftr a shift) = a / 2 ^ shift).
  { intros a Hr. rewrite Z.shiftr_div_pow2 by lia. unfold Num.u32.
    apply Z.mod_small. split; [apply Z.div_pos; lia|].
    apply Z.le_lt_trans with a; [|lia].
    apply Z.div_le_upper_bound; nia. }
  rewrite !Hu by lia.
  rewrite !andb_true_iff, !Z.geb_le, !Z.leb_le.
  pose proof (shifted_interval a1 a2 shift (TileId.x id) Hs ltac:(lia)) as Hx.
  pose proof (shifted_interval b1 b2 shift (TileId.y id) Hs ltac:(lia)) as Hy.
  split.
  - intros [[[H1 H2] H3] H4].
    destruct (proj1 Hx ltac:(lia)) as (x & Hx1 & Hx2).
    destruct (proj1 Hy ltac:(lia)) as (y & Hy1 & Hy2).
    split; [exact Hs|]. exists x, y. repeat split; lia.
  - intros (_ & x & y & Hx1 & Hy1 & Hx2 & Hy2).
    assert (H1 : a1 / 2 ^ shift <= TileId.x id <= a2 / 2 ^ shift)
      by (apply Hx; exists x; split; assumption).
    assert (H2 : b1 / 2 ^ shift <= TileId.y id <= b2 / 2 ^ shift)
      by (apply Hy; exists y; split; assumption).
    repeat split; lia.
Qed.

End GridFacts.

(** The node (3, 1, 1) lies over the tiles (4..7, 4..7) of lod 5. *)
Lemma myVisibilityTest_iff_over_grid_witness :
  LibBrowser.myVisibilityTest Examples.leafNode 5 4 4 7 7 = true
  <-> 0 <= 2
      /\ exists x y : Z,
           4 <= x <= 7 /\ 4 <= y <= 7 /\ x / 2 ^ 2 = 1 /\ y / 2 ^ 2 = 1.
Proof.
  apply (myVisibilityTest_iff_over_grid Examples.leafNode 5 4 4 7 7);
    cbn; lia.
Defined.

Section MetaMore.

Import LibBrowser.

Variable ulChild : Z.
Variable cam : CameraImpl.t.
Variable layer : MapLayer.t.

Lemma updateNodePriority_set (parent : option TraverseNode.t)
    (trav : TraverseNode.t) :
  exists p : float,
    updateNodePriority cam parent trav = TraverseNode.set_priority p trav.
Proof.
  unfold updateNodePriority.
  destruct (TraverseNode.meta trav); [|destruct parent]; eexists; reflexivity.
Qed.

Lemma findTopmost_childsAvailable (nodeId : TileId.t) :
  forall (metaTiles : list (option string)) (i : nat) (st : Topmost.t),
    length (Topmost.childsAvailable st) = 4%nat ->
    length (Topmost.childsAvailable
              (findTopmost ulChild cam layer nodeId i metaTiles st)) = 4%nat.
Proof.
  induction metaTiles as [|[m|] rest IH]; intros i st Hst; cbn [findTopmost].
  - exact Hst.
  - assert (Hz : length (zip_with orb (Topmost.childsAvailable st)
                           (childFlagsOf ulChild
                              (MapImpl.metaTileGet (CameraImpl.map cam) m nodeId)))
                 = 4%nat)
      by (rewrite length_zip_with, Hst; reflexivity).
    destruct (isSome (Topmost.topmost st) || _); [apply IH; exact Hz|].
    destruct (VtsMetaNode.geometry _); cbn; apply IH; exact Hz.
  - apply IH. exact Hst.
Qed.

(** The shape of the two outcomes of [travDetermineMeta]: a failed call
    stores the handles and nothing else; a call that succeeds sets the meta
    node and leaves the draws, the time stamps and the id alone. *)
Lemma travDetermineMeta_shape (parent : option TraverseNode.t)
    (trav : TraverseNode.t) (initAllChild : bool) :
  let r := travDetermineMeta ulChild cam layer parent trav initAllChild in
  let trav' := snd (fst r) in
  (fst (fst r) = false
   /\ trav' = TraverseNode.set_metaTiles (TraverseNode.metaTiles trav') trav)
  \/ (fst (fst r) = true
      /\ exists (meta : MetaNode.t) (surface : option SurfaceRef)
                (credits : list Z) (childs : list TraverseNode.t)
                (p : float),
           trav' = TraverseNode.set_priority p
                     (TraverseNode.set_childs childs
                        (TraverseNode.set_meta (Some meta)
                           (TraverseNode.set_credits credits
                              (TraverseNode.set_surface surface
                                 (TraverseNode.set_metaTiles
                                    (TraverseNode.metaTiles trav') trav)))))
           /\ (childs = TraverseNode.childs trav
               \/ exists ca : list bool,
                    length ca = 4%nat
                    /\ childs = newChilds (TraverseNode.id trav) initAllChild ca)).
Proof.
  cbv zeta. unfold travDetermineMeta, generateMonolithicGeodataTrav.
  assert (Hgeo :
    let r := (true,
              updateNodePriority cam parent
                (TraverseNode.set_surface (Some (InSurfaceStack 0))
                   (TraverseNode.set_meta
                      (Some (MapImpl.generateMetaNode (CameraImpl.map cam)
                               (TraverseNode.id trav))) trav)),
              [Count currentNodeMetaUpdates] ++ @nil Event) in
    fst (fst r) = true
    /\ exists (meta : MetaNode.t) (surface : option SurfaceRef)
              (credits : list Z) (childs : list TraverseNode.t) (p : float),
         snd (fst r)
         = TraverseNode.set_priority p
             (TraverseNode.set_childs childs
                (TraverseNode.set_meta (Some meta)
                   (TraverseNode.set_credits credits
                      (TraverseNode.set_surface surface
                         (TraverseNode.set_metaTiles
                            (TraverseNode.metaTiles (snd (fst r))) trav)))))
         /\ (childs = TraverseNode.childs trav
             \/ exists ca : list bool,
                  length ca = 4%nat
                  /\ childs = newChilds (TraverseNode.id trav) initAllChild ca)).
  { cbv zeta. cbn [fst snd]. split; [reflexivity|].
    destruct (updateNodePriority_set parent
                (TraverseNode.set_surface (Some (InSurfaceStack 0))
                   (TraverseNode.set_meta
                      (Some (MapImpl.generateMetaNode (CameraImpl.map cam)
                               (TraverseNode.id trav))) trav))) as [p ->].
    exists (MapImpl.generateMetaNode (CameraImpl.map cam) (TraverseNode.id trav)),
           (Some (InSurfaceStack 0)), (TraverseNode.credits trav),
           (TraverseNode.childs trav), p.
    split; [destruct trav; reflexivity|left; reflexivity]. }
  assert (Htiled :
    let r :=
      (let nodeId := TraverseNode.id trav in
       let '(metaTiles, ev1) :=
         if isNil (TraverseNode.metaTiles trav) then
           let e := length (MapLayer.surfaceStack layer) in
           retrieveMetaTiles ulChild cam layer parent nodeId e 0 (replicate e None)
         else (TraverseNode.metaTiles trav, []) in
       let trav0 := TraverseNode.set_metaTiles metaTiles trav in
       let '(determined, ev2) :=
         checkMetaTiles cam (TraverseNode.priority trav0) metaTiles in
       if negb determined
       then (false, trav0, [Count currentNodeMetaUpdates] ++ ev1 ++ ev2)
       else
         let st := findTopmost ulChild cam layer nodeId 0 metaTiles Topmost.init in
         match Topmost.chosen st with
         | None => (false, trav0, [Count currentNodeMetaUpdates] ++ ev1 ++ ev2)
         | Some chosen =>
           let trav1 :=
             match Topmost.topmost st with
             | Some topmost =>
                 TraverseNode.set_credits
                   (TraverseNode.credits trav0
                    ++ VtsMetaNode.credits
                         (MapImpl.metaTileGet (CameraImpl.map cam) chosen nodeId))
                   (TraverseNode.set_surface (Some topmost) trav0)
             | None => trav0
             end in
           let trav2 := TraverseNode.set_meta
                          (Some (MapImpl.metaTileGetNode (CameraImpl.map cam)
                                   chosen nodeId)) trav1 in
           let trav3 := TraverseNode.set_childs
                          (newChilds nodeId initAllChild
                                     (Topmost.childsAvailable st)) trav2 in
           (true, updateNodePriority cam parent trav3,
            [Count currentNodeMetaUpdates] ++ ev1 ++ ev2)
         end) in
    (fst (fst r) = false
     /\ snd (fst r)
        = TraverseNode.set_metaTiles (TraverseNode.metaTiles (snd (fst r))) trav)
    \/ (fst (fst r) = true
        /\ exists (meta : MetaNode.t) (surface : option SurfaceRef)
                  (credits : list Z) (childs : list TraverseNode.t) (p : float),
             snd (fst r)
             = TraverseNode.set_priority p
                 (TraverseNode.set_childs childs
                    (TraverseNode.set_meta (Some meta)
                       (TraverseNode.set_credits credits
                          (TraverseNode.set_surface surface
                             (TraverseNode.set_metaTiles
                                (TraverseNode.metaTiles (snd (fst r))) trav)))))
             /\ (childs = TraverseNode.childs trav
                 \/ exists ca : list bool,
                      length ca = 4%nat
                      /\ childs = newChilds (TraverseNode.id trav) initAllChild ca))).
  { cbv zeta.
    destruct (if isNil (TraverseNode.metaTiles trav) then _ else _)
      as [mts ev1].
    destruct (checkMetaTiles cam _ mts) as [det ev2].
    destruct det; cbn [negb]; [|left; split; reflexivity].
    pose proof (findTopmost_childsAvailable (TraverseNode.id trav) mts 0
                  Topmost.init eq_refl) as Hlen.
    destruct (findTopmost ulChild cam layer (TraverseNode.id trav) 0 mts
                          Topmost.init) as [topmost chosen ca].
    cbn [Topmost.chosen Topmost.topmost Topmost.childsAvailable] in *.
    destruct chosen as [chosen|]; [|left; split; reflexivity].
    right. cbn [fst snd]. split; [reflexivity|].
    match goal with
    | |- context [updateNodePriority cam parent ?t] =>
        destruct (updateNodePriority_set parent t) as [p ->]
    end.
    destruct topmost as [topmost|].
    - eexists _, (Some topmost), _, _, p.
      split; [destruct trav; reflexivity|].
      right. exists ca. split; [exact Hlen|reflexivity].
    - eexists _, (TraverseNode.surface trav), (TraverseNode.credits trav), _, p.
      split; [destruct trav; reflexivity|].
      right. exists ca. split; [exact Hlen|reflexivity]. }
  destruct (MapLayer.freeLayer layer) as [[]|];
    [exact Htiled|exact Htiled|right; exact Hgeo|exact Htiled].
Qed.


Lemma newChilds_fresh (nodeId : TileId.t) (initAllChild : bool)
    (ca : list bool) :
  (length (newChilds nodeId initAllChild ca) <= 4)%nat
  /\ Forall (fun c => c = TraverseNode.make (TraverseNode.id c))
            (newChilds nodeId initAllChild ca)
  /\ (initAllChild = true -> length ca = 4%nat ->
      length (newChilds nodeId initAllChild ca) = 4%nat).
Proof.
  unfold newChilds. split; [|split].
  - destruct (initAllChild || existsb _ ca); [|cbn; lia].
    rewrite length_map.
    etransitivity; [apply List.filter_length_le|].
    rewrite length_combine.
    change (length (TileId.children nodeId)) with 4%nat. lia.
  - destruct (initAllChild || existsb _ ca); [|constructor].
    apply List.Forall_forall. intros c Hc.
    apply in_map_iff in Hc as ([i a] & <- & _). reflexivity.
  - intros -> Hlen. cbn [orb].
    rewrite length_map.
    rewrite List.forallb_filter_id.
    + rewrite length_combine, Hlen. reflexivity.
    + apply forallb_forall. intros [i a] _. reflexivity.
Qed.

(** X10.  A call of [travDetermineMeta] that answers [false] changes
    nothing of the node but the meta-tile handles it stores: the meta node,
    the children and the draws stay as they were. *)
Theorem travDetermineMeta_failure_keeps_node (parent : option TraverseNode.t)
    (trav : TraverseNode.t) (initAllChild : bool) :
  let r := travDetermineMeta ulChild cam layer parent trav initAllChild in
  let trav' := snd (fst r) in
  fst (fst r) = false ->
  trav' = TraverseNode.set_metaTiles (TraverseNode.metaTiles trav') trav
  /\ TraverseNode.meta trav' = TraverseNode.meta trav
  /\ TraverseNode.childs trav' = TraverseNode.childs trav
  /\ TraverseNode.determined trav' = TraverseNode.determined trav
  /\ TraverseNode.rendersEmpty trav' = TraverseNode.rendersEmpty trav.
Proof.
  intros r trav' Hf.
  destruct (travDetermineMeta_shape parent trav initAllChild)
    as [[_ H] | [H _]]; fold r in H; [|congruence].
  fold trav' in H. split; [exact H|]. rewrite H. repeat split.
Qed.

(** The flags [childsAvailable] the loop over the meta tiles ends with. *)
Lemma findTopmost_childsAvailable_flags (nodeId : TileId.t) :
  forall (metaTiles : list (option string)) (i : nat) (st : Topmost.t)
         (a b c d : bool),
    Topmost.childsAvailable st = [a; b; c; d] ->
    Topmost.childsAvailable
      (findTopmost ulChild cam layer nodeId i metaTiles st)
    = [a || childWanted ulChild cam nodeId false metaTiles 0;
       b || childWanted ulChild cam nodeId false metaTiles 1;
       c || childWanted ulChild cam nodeId false metaTiles 2;
       d || childWanted ulChild cam nodeId false metaTiles 3].
Proof.
  unfold childWanted. cbn [orb].
  induction metaTiles as [|[m|] rest IH]; intros i st a b c d Hst;
    cbn [findTopmost existsb].
  - rewrite Hst, !orb_false_r. reflexivity.
  - assert (Hca : zip_with orb (Topmost.childsAvailable st)
                    (childFlagsOf ulChild
                       (MapImpl.metaTileGet (CameraImpl.map cam) m nodeId))
                  = [a || negb (Z.land (VtsMetaNode.childFlags
                                          (MapImpl.metaTileGet (CameraImpl.map cam)
                                             m nodeId)) (Z.shiftl ulChild 0) =? 0);
                     b || negb (Z.land (VtsMetaNode.childFlags
                                          (MapImpl.metaTileGet (CameraImpl.map cam)
                                             m nodeId)) (Z.shiftl ulChild 1) =? 0);
                     c || negb (Z.land (VtsMetaNode.childFlags
                                          (MapImpl.metaTileGet (CameraImpl.map cam)
                                             m nodeId)) (Z.shiftl ulChild 2) =? 0);
                     d || negb (Z.land (VtsMetaNode.childFlags
                                          (MapImpl.metaTileGet (CameraImpl.map cam)
                                             m nodeId)) (Z.shiftl ulChild 3) =? 0)])
      by (rewrite Hst; reflexivity).
    rewrite Hca.
    destruct (isSome (Topmost.topmost st) || _);
      [|destruct (VtsMetaNode.geometry _)];
      (erewrite IH by reflexivity); rewrite !orb_assoc; reflexivity.
  - rewrite (IH (S i) st a b c d Hst). reflexivity.
Qed.

Lemma newChilds_wanted (nodeId : TileId.t) (initAllChild a b c d : bool) :
  newChilds nodeId initAllChild [a; b; c; d]
  = List.map (fun j => TraverseNode.make (TileId.child nodeId j))
      (List.filter (fun j => initAllChild
                             || nth (Z.to_nat j) [a; b; c; d] false)
                   [0; 1; 2; 3]).
Proof. destruct initAllChild, a, b, c, d; reflexivity. Qed.

(** X11.  On a layer that is not a monolithic geodata free layer, a call
    of [travDetermineMeta] that succeeds on a node without children creates
    child [j] of the node's tile, for [j] in 0..3 and in that order, exactly
    when [initAllChild] is set or one of the meta tiles the node holds has
    the bit [ulChild << j] among the child flags of its meta node for the
    tile; each child created is a new node that has nothing but its tile
    id. *)
Theorem travDetermineMeta_children (parent : option TraverseNode.t)
    (trav : TraverseNode.t) (initAllChild : bool) :
  MapLayer.freeLayer layer <> Some FL_geodata ->
  TraverseNode.childs trav = [] ->
  let r := travDetermineMeta ulChild cam layer parent trav initAllChild in
  let trav' := snd (fst r) in
  let nodeId := TraverseNode.id trav in
  fst (fst r) = true ->
  TraverseNode.childs trav'
  = List.map (fun j => TraverseNode.make (TileId.child nodeId j))
      (List.filter (childWanted ulChild cam nodeId initAllChild
                                (TraverseNode.metaTiles trav'))
                   [0; 1; 2; 3]).
Proof.
  intros Hfree _. cbv zeta. unfold travDetermineMeta.
  assert (Hbody : forall body geo : bool * TraverseNode.t * list Event,
            match MapLayer.freeLayer layer with
            | Some FL_geodata => geo
            | _ => body
            end = body).
  { intros body geo. destruct (MapLayer.freeLayer layer) as [[]|];
      try reflexivity. contradiction. }
  rewrite Hbody. clear Hbody.
  destruct (if isNil (TraverseNode.metaTiles trav) then _ else _) as [mts ev1].
  destruct (checkMetaTiles cam _ mts) as [det ev2].
  destruct det; cbn [negb]; [|cbn; discriminate].
  cbn [TraverseNode.id TraverseNode.set_metaTiles].
  pose proof (findTopmost_childsAvailable_flags (TraverseNode.id trav) mts 0
                Topmost.init false false false false eq_refl) as Hca.
  cbn [orb] in Hca.
  destruct (findTopmost ulChild cam layer (TraverseNode.id trav) 0 mts
                        Topmost.init) as [topmost chosen ca].
  cbn [Topmost.chosen Topmost.topmost Topmost.childsAvailable] in *.
  destruct chosen as [chosen|]; [|cbn; discriminate].
  cbn [fst snd]. intros _.
  match goal with
  | |- context [updateNodePriority cam parent ?t] =>
      destruct (updateNodePriority_fields cam parent t)
        as (_ & _ & _ & _ & Hmts & _ & _ & _ & _ & _ & Hch)
  end.
  rewrite Hch, Hmts. subst ca.
  cbn [TraverseNode.childs TraverseNode.set_childs].
  assert (Hm : forall t0 : TraverseNode.t,
             TraverseNode.metaTiles
               (TraverseNode.set_childs
                  (newChilds (TraverseNode.id trav) initAllChild
                     [childWanted ulChild cam (TraverseNode.id trav) false mts 0;
                      childWanted ulChild cam (TraverseNode.id trav) false mts 1;
                      childWanted ulChild cam (TraverseNode.id trav) false mts 2;
                      childWanted ulChild cam (TraverseNode.id trav) false mts 3])
                  t0)
             = TraverseNode.metaTiles t0) by reflexivity.
  rewrite Hm. clear Hm.
  assert (Hm : TraverseNode.metaTiles
                 (TraverseNode.set_meta
                    (Some (MapImpl.metaTileGetNode (CameraImpl.map cam) chosen
                             (TraverseNode.id trav)))
                    match topmost with
                    | Some topmost0 =>
                        TraverseNode.set_credits
                          (TraverseNode.credits (TraverseNode.set_metaTiles mts trav)
                           ++ VtsMetaNode.credits
                                (MapImpl.metaTileGet (CameraImpl.map cam) chosen
                                   (TraverseNode.id trav)))
                          (TraverseNode.set_surface (Some topmost0)
                             (TraverseNode.set_metaTiles mts trav))
                    | None => TraverseNode.set_metaTiles mts trav
                    end) = mts)
    by (destruct topmost; reflexivity).
  rewrite Hm. clear Hm.
  rewrite newChilds_wanted. unfold childWanted. cbn [orb].
  destruct initAllChild; reflexivity.
Qed.

(** [travInit] stamps the node and answers whether it has its meta node. *)
Lemma travInit_frame (parent : option TraverseNode.t) (trav : TraverseNode.t)
    (initAllChildren : bool) :
  let r := travInit ulChild cam layer parent trav initAllChildren in
  let trav' := snd (fst r) in
  TraverseNode.id trav' = TraverseNode.id trav
  /\ TraverseNode.lastAccessTime trav'
     = MapImpl.renderTickIndex (CameraImpl.map cam)
  /\ fst (fst r) = isSome (TraverseNode.meta trav')
  /\ TraverseNode.determined trav' = TraverseNode.determined trav
  /\ (TraverseNode.meta trav <> None ->
      TraverseNode.meta trav' = TraverseNode.meta trav
      /\ TraverseNode.childs trav' = TraverseNode.childs trav
      /\ TraverseNode.surface trav' = TraverseNode.surface trav).
Proof.
  cbv zeta. unfold travInit.
  destruct (updateNodePriority_set parent
              (TraverseNode.set_lastAccessTime
                 (MapImpl.renderTickIndex (CameraImpl.map cam)) trav))
    as [p Hp].
  rewrite Hp.
  cbn [TraverseNode.meta TraverseNode.set_priority
       TraverseNode.set_lastAccessTime].
  destruct (TraverseNode.meta trav) as [m|] eqn:Hm.
  - cbn. rewrite Hm. repeat split.
  - set (t0 := TraverseNode.set_priority p
                 (TraverseNode.set_lastAccessTime
                    (MapImpl.renderTickIndex (CameraImpl.map cam)) trav)).
    destruct (travDetermineMeta_shape parent t0 initAllChildren)
      as [[Hf H] | [Hf (meta & surface & credits & childs & p' & H & _)]].
    + destruct (travDetermineMeta ulChild cam layer parent t0 initAllChildren)
        as [[ok t1] ev].
      cbn [fst snd] in *. subst ok. rewrite H. cbn. rewrite Hm.
      repeat split; congruence.
    + destruct (travDetermineMeta ulChild cam layer parent t0 initAllChildren)
        as [[ok t1] ev].
      cbn [fst snd] in *. subst ok. rewrite H. cbn.
      repeat split; congruence.
Qed.

(** X9.  [travInit] answers whether the node has its meta node when the
    call returns; it stamps the node with the current render tick and keeps
    its tile id. *)
Theorem travInit_answers_meta (parent : option TraverseNode.t)
    (trav : TraverseNode.t) (initAllChildren : bool) :
  let r := travInit ulChild cam layer parent trav initAllChildren in
  fst (fst r) = isSome (TraverseNode.meta (snd (fst r)))
  /\ TraverseNode.lastAccessTime (snd (fst r))
     = MapImpl.renderTickIndex (CameraImpl.map cam)
  /\ TraverseNode.id (snd (fst r)) = TraverseNode.id trav.
Proof.
  intros r.
  destruct (travInit_frame parent trav initAllChildren) as (H1 & H2 & H3 & _).
  fold r in H1, H2, H3. repeat split; assumption.
Qed.

End MetaMore.

(** The root over a map all of whose resources are loading: the meta tile
    is requested and the node waits. *)
Lemma travDetermineMeta_failure_keeps_node_witness :
  let r := LibBrowser.travDetermineMeta 0
             (Examples.lbCamera Examples.allLoading true) Examples.layerS
             None Examples.root false in
  LibBrowser.TraverseNode.meta (snd (fst r)) = None
  /\ LibBrowser.TraverseNode.childs (snd (fst r)) = [].
Proof.
  pose proof (travDetermineMeta_failure_keeps_node 0
                (Examples.lbCamera Examples.allLoading true) Examples.layerS
                None Examples.root false eq_refl) as (_ & H1 & H2 & _).
  split; [exact H1|exact H2].
Defined.

(** The root of a layer of two surfaces whose meta nodes flag the
    upper-left child: that child is created, and no other. *)
Lemma travDetermineMeta_children_witness :
  LibBrowser.TraverseNode.childs
    (snd (fst (LibBrowser.travDetermineMeta 16
                 (Examples.lbCamera Examples.parentFlags true)
                 Examples.layerTwo None Examples.root false)))
  = [LibBrowser.TraverseNode.make (TileId.mk 1 0 0)].
Proof.
  exact (travDetermineMeta_children 16
           (Examples.lbCamera Examples.parentFlags true) Examples.layerTwo
           None Examples.root false ltac:(discriminate) eq_refl eq_refl).
Defined.

Section StrategyFacts.

Import LibBrowser.

Variable ulChild : Z.
Variable cam : CameraImpl.t.
Variable layer : MapLayer.t.
Variable options : CameraOptions.t.

(** When no call on a child renders, the loop over the children renders
    nothing. *)
Lemma forChilds_quiet {A : Type}
    (f : TraverseNode.t -> A * TraverseNode.t * list Event)
    (childs : list TraverseNode.t) :
  (forall c : TraverseNode.t, rendered (snd (f c)) = []) ->
  rendered (snd (forChilds f childs)) = [].
Proof.
  intros Hf. induction childs as [|c rest IH]; cbn [forChilds]; [reflexivity|].
  specialize (Hf c). destruct (f c) as [[a c'] ev].
  destruct (forChilds f rest) as [[results rest'] evs].
  cbn [snd] in *. rewrite rendered_app, Hf, IH. reflexivity.
Qed.

(** What [travModeHierarchical] renders: visible, determined nodes, and
    nothing at all in a load-only call. *)
Lemma travModeHierarchical_rendered (fuel : nat) :
  forall (ancestors : list TraverseNode.t) (trav : TraverseNode.t)
         (loadOnly : bool),
    let r := travModeHierarchical ulChild cam layer fuel ancestors trav loadOnly in
    Forall (renderedWell cam) (rendered (snd r))
    /\ (loadOnly = true -> rendered (snd r) = []).
Proof.
  induction fuel as [|fuel IH]; intros ancestors trav loadOnly;
    cbn [travModeHierarchical]; [split; [constructor|reflexivity]|].
  pose proof (travInit_quiet ulChild cam layer (head ancestors) trav false) as Hq.
  destruct (travInit ulChild cam layer (head ancestors) trav false)
    as [[ok t1] ev0].
  cbn [snd] in Hq.
  destruct ok; cbn [negb];
    [|cbn [snd]; rewrite Hq; split; [constructor|reflexivity]].
  set (t1' := TraverseNode.set_lastRenderTime (TraverseNode.lastAccessTime t1) t1).
  destruct (travDetermineDraws_frame cam layer (head ancestors) t1')
    as (Hid & Hmeta & Hch & Hdet & Hq1).
  destruct (travDetermineDraws cam layer (head ancestors) t1') as [[d t2] ev1].
  cbn [fst snd] in *.
  destruct loadOnly.
  { cbn [snd]. rewrite rendered_app, Hq, Hq1. split; [constructor|reflexivity]. }
  split; [|discriminate].
  destruct (CameraImpl.visibilityTest cam (TraverseNode.id t2)
                                      (TraverseNode.meta t2)) eqn:Hvis;
    cbn [negb]; [|cbn [snd]; rewrite rendered_app, Hq, Hq1; constructor].
  destruct (CameraImpl.coarsenessTest cam (TraverseNode.id t2)
                                      (TraverseNode.meta t2)
            || isNil (TraverseNode.childs t2)).
  - cbn [snd]. rewrite !rendered_app, Hq, Hq1.
    destruct (TraverseNode.determined t2) eqn:Hd; [|constructor].
    constructor; [|constructor]. split; [exact Hvis|exact Hd].
  - match goal with
    | |- context [forChilds ?f ?cs] =>
        pose proof (forChilds_rendered (renderedWell cam) f cs) as Hf
    end.
    destruct (forChilds _ _) as [[results childs] ev2].
    cbn [snd] in *. rewrite !rendered_app, Hq, Hq1. cbn [app].
    apply Forall_app. split.
    + apply Hf. intros c.
      specialize (IH (t2 :: ancestors) c
                     (negb (childsReady true (TraverseNode.childs t2)))).
      destruct (travModeHierarchical _ _ _ _ _ _ _). apply IH.
    + destruct (negb _ && _) eqn:Hc; [|constructor].
      apply andb_prop in Hc as [_ Hc]. cbn in Hc.
      constructor; [|constructor]. split; [exact Hvis|exact Hc].
Qed.


Lemma childsReady_false (childs : list TraverseNode.t) :
  childsReady false childs = false.
Proof.
  induction childs as [|c rest IH]; cbn [childsReady]; [reflexivity|].
  destruct (negb _); [exact IH|]. destruct (_ && _); exact IH.
Qed.

Lemma childsReady_unready (childs : list TraverseNode.t) :
  Exists childNotReady childs ->
  childsReady true childs = false.
Proof.
  induction 1 as [c rest Hc | c rest _ IH]; cbn [childsReady].
  - unfold childNotReady in Hc. destruct Hc as [-> | [Hs ->]]; [apply childsReady_false|].
    destruct (TraverseNode.meta c); cbn [isSome negb];
      [|apply childsReady_false].
    destruct (TraverseNode.surface c); [|contradiction].
    apply childsReady_false.
  - destruct (negb _); [apply childsReady_false|].
    destruct (_ && _); [apply childsReady_false|exact IH].
Qed.

(** X15.  Every node [travModeHierarchical] renders passed the visibility
    test and has its draws determined, and a load-only call renders
    nothing. *)
Theorem hierarchical_renders_visible_determined (fuel : nat)
    (ancestors : list TraverseNode.t) (trav : TraverseNode.t) :
  Forall (fun t => visible cam t /\ TraverseNode.determined t = true)
    (rendered (snd (travModeHierarchical ulChild cam layer fuel ancestors
                                         trav false)))
  /\ rendered (snd (travModeHierarchical ulChild cam layer fuel ancestors
                                         trav true)) = [].
Proof.
  split.
  - apply (proj1 (travModeHierarchical_rendered fuel ancestors trav false)).
  - apply (proj2 (travModeHierarchical_rendered fuel ancestors trav true)).
    reflexivity.
Qed.

(** X16.  For a node that has its meta node and a child that is not ready
    (one without meta node, or with a surface and undetermined draws),
    [travModeHierarchical] renders no descendant: it renders nothing, or
    the node itself, whose draws are then determined. *)
Theorem travModeHierarchical_waits_for_children (fuel : nat)
    (ancestors : list TraverseNode.t) (trav : TraverseNode.t)
    (loadOnly : bool) :
  TraverseNode.meta trav <> None ->
  Exists childNotReady (TraverseNode.childs trav) ->
  let r := travModeHierarchical ulChild cam layer fuel ancestors trav loadOnly in
  rendered (snd r) = []
  \/ (rendered (snd r) = [fst r] /\ TraverseNode.determined (fst r) = true).
Proof.
  intros Hm Hex. cbv zeta.
  destruct fuel as [|fuel]; cbn [travModeHierarchical]; [left; reflexivity|].
  pose proof (travInit_quiet ulChild cam layer (head ancestors) trav false) as Hq.
  destruct (travInit_frame ulChild cam layer (head ancestors) trav false)
    as (_ & _ & _ & _ & Hkeep).
  destruct (Hkeep Hm) as (_ & Hch1 & _). clear Hkeep.
  destruct (travInit ulChild cam layer (head ancestors) trav false)
    as [[ok t1] ev0].
  cbn [fst snd] in *.
  destruct ok; cbn [negb]; [|cbn [snd]; left; exact Hq].
  set (t1' := TraverseNode.set_lastRenderTime (TraverseNode.lastAccessTime t1) t1).
  destruct (travDetermineDraws_frame cam layer (head ancestors) t1')
    as (_ & _ & Hch & _ & Hq1).
  destruct (travDetermineDraws cam layer (head ancestors) t1') as [[d t2] ev1].
  cbn [fst snd] in *.
  assert (Hready : childsReady true (TraverseNode.childs t2) = false).
  { rewrite Hch. subst t1'. cbn [TraverseNode.childs TraverseNode.set_lastRenderTime].
    rewrite Hch1. apply childsReady_unready. exact Hex. }
  destruct loadOnly; [cbn [snd]; left; rewrite rendered_app, Hq, Hq1; reflexivity|].
  destruct (negb (CameraImpl.visibilityTest _ _ _));
    [cbn [snd]; left; rewrite rendered_app, Hq, Hq1; reflexivity|].
  destruct (CameraImpl.coarsenessTest _ _ _ || isNil _).
  - cbn [fst snd]. rewrite !rendered_app, Hq, Hq1.
    destruct (TraverseNode.determined t2) eqn:Hd; [right|left]; cbn; auto.
  - rewrite Hready. cbn [negb andb].
    match goal with
    | |- context [forChilds ?f ?cs] =>
        pose proof (forChilds_quiet f cs) as Hf
    end.
    destruct (forChilds _ _) as [[results childs] ev2].
    cbn [fst snd] in *. rewrite !rendered_app, Hq, Hq1, Hf.
    + cbn [TraverseNode.determined TraverseNode.set_childs].
      destruct (TraverseNode.determined t2) eqn:Hd; [right|left]; cbn; auto.
    + intros c.
      pose proof (travModeHierarchical_rendered fuel (t2 :: ancestors) c true)
        as [_ Hlo].
      destruct (travModeHierarchical _ _ _ _ _ _ _). apply Hlo. reflexivity.
Qed.

(** What [travModeFixed] renders. *)
Lemma travModeFixed_rendered (fuel : nat) :
  forall (ancestors : list TraverseNode.t) (trav : TraverseNode.t),
    Forall (fun t =>
              TraverseNode.determined t = true
              /\ (exists meta : MetaNode.t,
                     TraverseNode.meta t = Some meta
                     /\ (CameraOptions.fixedTraversalDistance options
                         <? travDistance cam meta (CameraImpl.focusPosPhys cam))%float
                        = false)
              /\ (CameraOptions.fixedTraversalLod options
                  <= TileId.lod (TraverseNode.id t)
                  \/ TraverseNode.childs t = []))
      (rendered (snd (travModeFixed ulChild cam layer options fuel ancestors trav))).
Proof.
  induction fuel as [|fuel IH]; intros ancestors trav; cbn [travModeFixed];
    [constructor|].
  pose proof (travInit_quiet ulChild cam layer (head ancestors) trav false) as Hq.
  destruct (travInit ulChild cam layer (head ancestors) trav false)
    as [[ok t1] ev0].
  cbn [snd] in Hq.
  destruct ok; cbn [negb]; [|cbn [snd]; rewrite Hq; constructor].
  destruct (TraverseNode.meta t1) as [meta|] eqn:Hm1;
    [|cbn [snd]; rewrite Hq; constructor].
  destruct (_ <? _)%float eqn:Hfar; [cbn [snd]; rewrite Hq; constructor|].
  destruct ((TileId.lod (TraverseNode.id t1)
             >=? CameraOptions.fixedTraversalLod options)
            || isNil (TraverseNode.childs t1)) eqn:Hc.
  - destruct (travDetermineDraws_frame cam layer (head ancestors) t1)
      as (Hid & Hmeta & Hch & Hdet & Hq1).
    destruct (travDetermineDraws cam layer (head ancestors) t1)
      as [[d t2] ev1].
    cbn [fst snd] in *. rewrite !rendered_app, Hq, Hq1.
    destruct d; [|constructor].
    constructor; [|constructor].
    split; [exact Hdet|]. split.
    + exists meta. rewrite Hmeta. split; [exact Hm1|exact Hfar].
    + rewrite Hid, Hch. apply orb_prop in Hc as [Hc|Hc].
      * left. apply Z.geb_le in Hc. exact Hc.
      * right. destruct (TraverseNode.childs t1); [reflexivity|discriminate].
  - match goal with
    | |- context [forChilds ?f ?cs] =>
        pose proof (forChilds_rendered
                      (fun t =>
                         TraverseNode.determined t = true
                         /\ (exists meta : MetaNode.t,
                                TraverseNode.meta t = Some meta
                                /\ (CameraOptions.fixedTraversalDistance options
                                    <? travDistance cam meta
                                         (CameraImpl.focusPosPhys cam))%float
                                   = false)
                         /\ (CameraOptions.fixedTraversalLod options
                             <= TileId.lod (TraverseNode.id t)
                             \/ TraverseNode.childs t = []))
                      f cs) as Hf
    end.
    destruct (forChilds _ _) as [[results childs] ev1].
    cbn [snd] in *. rewrite rendered_app, Hq. apply Hf.
    intros c. specialize (IH (t1 :: ancestors) c).
    destruct (travModeFixed _ _ _ _ _ _ _). exact IH.
Qed.

(** X17.  Every node [travModeFixed] renders has its draws determined, is
    not farther from the focus than [fixedTraversalDistance], and is at
    the lod [fixedTraversalLod] or below it, or has no children. *)
Theorem fixed_renders_within_distance (fuel : nat)
    (ancestors : list TraverseNode.t) (trav : TraverseNode.t) :
  Forall (fun t =>
            TraverseNode.determined t = true
            /\ (exists meta : MetaNode.t,
                   TraverseNode.meta t = Some meta
                   /\ (CameraOptions.fixedTraversalDistance options
                       <? travDistance cam meta (CameraImpl.focusPosPhys cam))%float
                      = false)
            /\ (CameraOptions.fixedTraversalLod options
                <= TileId.lod (TraverseNode.id t)
                \/ TraverseNode.childs t = []))
    (rendered (snd (travModeFixed ulChild cam layer options fuel ancestors trav))).
Proof. apply travModeFixed_rendered. Qed.

(** The nodes rendered in place of failed children are determined. *)
Lemma renderFailedCoarser_determined (ancestors : list TraverseNode.t)
    (oks : list bool) :
  Forall (fun t => TraverseNode.determined t = true)
         (rendered (renderFailedCoarser ancestors oks)).
Proof.
  assert (Hc : Forall (fun t => TraverseNode.determined t = true)
                      (rendered (renderNodeCoarser ancestors))).
  { induction ancestors as [|a rest IH]; cbn [renderNodeCoarser]; [constructor|].
    destruct (TraverseNode.determined a) eqn:Hd; [|exact IH].
    constructor; [exact Hd|constructor]. }
  unfold renderFailedCoarser.
  induction oks as [|ok oks IH]; cbn [flat_map]; [constructor|].
  rewrite rendered_app. apply Forall_app. split; [|exact IH].
  destruct ok; [constructor|exact Hc].
Qed.

Lemma travModeBalanced_determined (fuel : nat) :
  forall (ancestors : list TraverseNode.t) (trav : TraverseNode.t)
         (renderOnly : bool),
    Forall (fun t => TraverseNode.determined t = true)
      (rendered (snd (travModeBalanced ulChild cam layer fuel ancestors trav
                        renderOnly))).
Proof.
  induction fuel as [|fuel IH]; intros ancestors trav renderOnly;
    cbn [travModeBalanced]; [constructor|].
  pose proof (enter_quiet ulChild cam layer renderOnly (head ancestors) trav) as Hq.
  destruct (enter ulChild cam layer renderOnly (head ancestors) trav)
    as [[ok t1] ev0].
  cbn [snd] in Hq.
  destruct ok; cbn [negb]; [|cbn [snd]; rewrite Hq; constructor].
  destruct (negb (CameraImpl.visibilityTest _ _ _));
    [cbn [snd]; rewrite Hq; constructor|].
  assert (Hrest : forall (t : TraverseNode.t) (ro : bool) (ev1 : list Event),
             rendered ev1 = [] ->
             Forall (fun t => TraverseNode.determined t = true)
               (rendered (snd (
                  let '(oks, childs, ev2) :=
                    forChilds
                      (fun c => travModeBalanced ulChild cam layer fuel
                                  (t :: ancestors) c ro)
                      (TraverseNode.childs t) in
                  let trav := TraverseNode.set_childs childs t in
                  if isNil (List.filter (fun ok : bool => ok) oks) && ro
                  then (false, trav, ev0 ++ ev1 ++ ev2)
                  else (true, trav,
                        ev0 ++ ev1 ++ ev2
                        ++ renderFailedCoarser (trav :: ancestors) oks))))).
  { intros t ro ev1 Hq1.
    pose proof (forChilds_rendered (fun t => TraverseNode.determined t = true)
                  (fun c => travModeBalanced ulChild cam layer fuel
                              (t :: ancestors) c ro)
                  (TraverseNode.childs t)
                  (fun c => IH (t :: ancestors) c ro)) as Hk.
    destruct (forChilds _ _) as [[oks childs] ev2].
    cbn [snd] in Hk.
    destruct (isNil _ && ro); cbn [snd]; rewrite !rendered_app, Hq, Hq1;
      cbn [app].
    - exact Hk.
    - apply Forall_app. split; [exact Hk|].
      apply renderFailedCoarser_determined. }
  destruct renderOnly.
  - destruct (TraverseNode.determined t1) eqn:Hdet.
    + cbn [snd]. unfold touchDraws.
      rewrite !rendered_app, Hq, rendered_touch.
      constructor; [exact Hdet|constructor].
    + apply (Hrest t1 true [] eq_refl).
  - destruct (CameraImpl.coarsenessTest cam (TraverseNode.id t1)
                                        (TraverseNode.meta t1)
              || isNil (TraverseNode.childs t1)).
    + destruct (travDetermineDraws_frame cam layer (head ancestors) t1)
        as (Hid & Hmeta & Hch & Hdet & Hq1).
      destruct (travDetermineDraws cam layer (head ancestors) t1)
        as [[d t2] ev1].
      cbn [fst snd] in *.
      destruct d.
      * cbn [snd].
        change (GridPreloadRequest (TraverseNode.id t2) :: ev1 ++ [RenderNode t2])
          with ([GridPreloadRequest (TraverseNode.id t2)] ++ ev1 ++ [RenderNode t2]).
        rewrite !rendered_app, Hq, Hq1.
        constructor; [exact Hdet|constructor].
      * apply (Hrest t2 true (GridPreloadRequest (TraverseNode.id t2) :: ev1)).
        change (GridPreloadRequest (TraverseNode.id t2) :: ev1)
          with ([GridPreloadRequest (TraverseNode.id t2)] ++ ev1).
        rewrite rendered_app, Hq1. reflexivity.
    + apply (Hrest t1 false [] eq_refl).
Qed.

(** The loop over the children renders nothing when no call renders
    without answering [true], and no call answered [true]. *)
Lemma forChilds_none_rendered
    (f : TraverseNode.t -> bool * TraverseNode.t * list Event)
    (childs : list TraverseNode.t) :
  (forall c : TraverseNode.t,
      fst (fst (f c)) = false -> rendered (snd (f c)) = []) ->
  existsb (fun r : bool => r) (fst (fst (forChilds f childs))) = false ->
  rendered (snd (forChilds f childs)) = [].
Proof.
  intros Hf. induction childs as [|c rest IH]; cbn [forChilds]; [reflexivity|].
  specialize (Hf c). destruct (f c) as [[a c'] ev].
  destruct (forChilds f rest) as [[results rest'] evs].
  cbn [fst snd existsb] in *. intros He.
  apply orb_false_elim in He as [-> He].
  rewrite rendered_app, Hf, IH by auto. reflexivity.
Qed.

Lemma renderUnrendered_determined (trav : TraverseNode.t) :
  forall (results : list bool) (childs : list TraverseNode.t),
    Forall (fun t => TraverseNode.determined t = true)
      (rendered (snd (renderUnrendered cam layer trav results childs))).
Proof.
  induction results as [|r results IH]; intros childs;
    [destruct childs; constructor|].
  destruct childs as [|t childs]; cbn [renderUnrendered]; [constructor|].
  specialize (IH childs).
  destruct (renderUnrendered cam layer trav results childs) as [cs evs].
  destruct r.
  - cbn [snd app] in *. exact IH.
  - destruct (travDetermineDraws_frame cam layer (Some trav) t)
      as (_ & _ & _ & Hdet & Hq1).
    destruct (travDetermineDraws cam layer (Some trav) t) as [[d t'] ev].
    cbn [fst snd] in *. rewrite !rendered_app, Hq1. cbn [app].
    apply Forall_app. split; [|exact IH].
    destruct d; [|constructor]. constructor; [exact Hdet|constructor].
Qed.

(** What [travModeDistanceBaseFixed] renders, and what its answer says. *)
Lemma travModeDistanceBaseFixed_rendered (fuel : nat) :
  forall (ancestors : list TraverseNode.t) (trav : TraverseNode.t),
    let r := travModeDistanceBaseFixed ulChild cam layer options fuel
                                       ancestors trav in
    Forall (fun t => TraverseNode.determined t = true) (rendered (snd r))
    /\ (fst (fst r) = false -> rendered (snd r) = []).
Proof.
  induction fuel as [|fuel IH]; intros ancestors trav;
    cbn [travModeDistanceBaseFixed]; [split; [constructor|reflexivity]|].
  pose proof (travInit_quiet ulChild cam layer (head ancestors) trav false) as Hq.
  destruct (travInit ulChild cam layer (head ancestors) trav false)
    as [[ok t1] ev0].
  cbn [snd] in Hq.
  destruct ok; cbn [negb];
    [|cbn [fst snd]; rewrite Hq; split; [constructor|reflexivity]].
  destruct (TraverseNode.meta t1) as [meta|];
    [|cbn [fst snd]; rewrite Hq; split; [constructor|reflexivity]].
  destruct (_ <? _)%float;
    [cbn [fst snd]; rewrite Hq; split; [constructor|reflexivity]|].
  destruct (_ || isNil (TraverseNode.childs t1)).
  - destruct (travDetermineDraws_frame cam layer (head ancestors) t1)
      as (_ & _ & _ & Hdet & Hq1).
    destruct (travDetermineDraws cam layer (head ancestors) t1)
      as [[d t2] ev1].
    cbn [fst snd] in *. rewrite !rendered_app, Hq, Hq1. cbn [app].
    split; [|discriminate].
    destruct d; [|constructor]. constructor; [exact Hdet|constructor].
  - pose proof (forChilds_rendered (fun t => TraverseNode.determined t = true)
                  (fun t => travModeDistanceBaseFixed ulChild cam layer options
                              fuel (t1 :: ancestors) t)
                  (TraverseNode.childs t1)
                  (fun c => proj1 (IH (t1 :: ancestors) c))) as Hk.
    pose proof (forChilds_none_rendered
                  (fun t => travModeDistanceBaseFixed ulChild cam layer options
                              fuel (t1 :: ancestors) t)
                  (TraverseNode.childs t1)
                  (fun c => proj2 (IH (t1 :: ancestors) c))) as Hn.
    destruct (forChilds _ _) as [[results childs] ev1].
    cbn [fst snd] in *.
    destruct (_ >? max_lod_diff).
    { cbn [fst snd]. rewrite rendered_app, Hq. cbn [app].
      split; [exact Hk|exact Hn]. }
    destruct (existsb (fun r : bool => r) results) eqn:He; cbn [negb].
    + pose proof (renderUnrendered_determined
                    (TraverseNode.set_childs childs t1) results childs) as Hu.
      destruct (renderUnrendered _ _ _ _ _) as [cs ev2].
      cbn [fst snd] in *. rewrite !rendered_app, Hq. cbn [app].
      split; [|discriminate]. apply Forall_app. split; assumption.
    + cbn [fst snd]. rewrite rendered_app, Hq. cbn [app].
      split; [exact Hk|intros _; apply Hn; reflexivity].
Qed.

(** X18.  Every node [travModeDistanceBaseFixed] renders has its draws
    determined, and a call that answers [false] has rendered nothing, in
    the whole subtree. *)
Theorem distance_base_fixed_answer (fuel : nat)
    (ancestors : list TraverseNode.t) (trav : TraverseNode.t) :
  let r := travModeDistanceBaseFixed ulChild cam layer options fuel
                                     ancestors trav in
  Forall (fun t => TraverseNode.determined t = true) (rendered (snd r))
  /\ (fst (fst r) = false -> rendered (snd r) = []).
Proof. apply travModeDistanceBaseFixed_rendered. Qed.

(** What [travLod] renders: determined nodes over the grid, given that the
    ancestors of the node lie over the grid. *)
Lemma travLod_rendered (lod a1 b1 a2 b2 : Z) (fuel : nat) :
  forall (ancestors : list TraverseNode.t) (trav : TraverseNode.t),
    Forall (fun t => myVisibilityTest t lod a1 b1 a2 b2 = true) ancestors ->
    Forall (fun t => TraverseNode.determined t = true
                     /\ myVisibilityTest t lod a1 b1 a2 b2 = true)
      (rendered (snd (travLod ulChild cam layer fuel ancestors trav
                              lod a1 b1 a2 b2))).
Proof.
  induction fuel as [|fuel IH]; intros ancestors trav Hanc; cbn [travLod];
    [constructor|].
  pose proof (travInit_quiet ulChild cam layer (head ancestors) trav false) as Hq.
  destruct (travInit ulChild cam layer (head ancestors) trav false)
    as [[ok t1] ev0].
  cbn [snd] in Hq.
  destruct ok; cbn [negb]; [|cbn [snd]; rewrite Hq; constructor].
  destruct (myVisibilityTest t1 lod a1 b1 a2 b2) eqn:Hvis; cbn [negb];
    [|cbn [snd]; rewrite Hq; constructor].
  assert (Hrest : forall (t : TraverseNode.t) (ev1 : list Event),
             TraverseNode.id t = TraverseNode.id t1 ->
             rendered ev1 = [] ->
             Forall (fun t => TraverseNode.determined t = true
                              /\ myVisibilityTest t lod a1 b1 a2 b2 = true)
               (rendered (snd (
                  let '(oks, childs, ev2) :=
                    forChilds
                      (fun c => travLod ulChild cam layer fuel (t :: ancestors) c
                                        lod a1 b1 a2 b2)
                      (TraverseNode.childs t) in
                  let trav := TraverseNode.set_childs childs t in
                  (true, trav,
                   ev0 ++ ev1 ++ ev2
                   ++ renderFailedCoarser (trav :: ancestors) oks))))).
  { intros t ev1 Hid Hq1.
    assert (Hvt : myVisibilityTest t lod a1 b1 a2 b2 = true)
      by (unfold myVisibilityTest in *; rewrite Hid; exact Hvis).
    pose proof (forChilds_rendered
                  (fun t => TraverseNode.determined t = true
                            /\ myVisibilityTest t lod a1 b1 a2 b2 = true)
                  (fun c => travLod ulChild cam layer fuel (t :: ancestors) c
                                    lod a1 b1 a2 b2)
                  (TraverseNode.childs t)
                  (fun c => IH (t :: ancestors) c
                               ltac:(constructor; assumption))) as Hk.
    destruct (forChilds _ _) as [[oks childs] ev2].
    cbn [snd] in *. rewrite !rendered_app, Hq, Hq1. cbn [app].
    apply Forall_app. split; [exact Hk|].
    assert (Hcoarser :
      Forall (fun t => TraverseNode.determined t = true
                       /\ myVisibilityTest t lod a1 b1 a2 b2 = true)
             (rendered (renderNodeCoarser
                          (TraverseNode.set_childs childs t :: ancestors)))).
    { assert (Hall : Forall (fun t => myVisibilityTest t lod a1 b1 a2 b2 = true)
                            (TraverseNode.set_childs childs t :: ancestors))
        by (constructor; [exact Hvt|exact Hanc]).
      induction Hall as [|a rest Ha _ IHa]; cbn [renderNodeCoarser];
        [constructor|].
      destruct (TraverseNode.determined a) eqn:Hd; [|exact IHa].
      constructor; [split; assumption|constructor]. }
    unfold renderFailedCoarser.
    induction oks as [|o oks IHo]; cbn [flat_map]; [constructor|].
    rewrite rendered_app. apply Forall_app. split; [|exact IHo].
    destruct o; [constructor|exact Hcoarser]. }
  destruct ((TileId.lod (TraverseNode.id t1) >=? lod)
            || isNil (TraverseNode.childs t1)).
  - destruct (travDetermineDraws_frame cam layer (head ancestors) t1)
      as (Hid & _ & _ & Hdet & Hq1).
    destruct (travDetermineDraws cam layer (head ancestors) t1)
      as [[d t2] ev1].
    cbn [fst snd] in *.
    destruct d.
    + cbn [snd].
      change (GridPreloadRequest (TraverseNode.id t2) :: ev1 ++ [RenderNode t2])
        with ([GridPreloadRequest (TraverseNode.id t2)] ++ ev1 ++ [RenderNode t2]).
      rewrite !rendered_app, Hq, Hq1.
      constructor; [|constructor]. split; [exact Hdet|].
      unfold myVisibilityTest in *. rewrite Hid. exact Hvis.
    + apply (Hrest t2 (GridPreloadRequest (TraverseNode.id t2) :: ev1) Hid).
      change (GridPreloadRequest (TraverseNode.id t2) :: ev1)
        with ([GridPreloadRequest (TraverseNode.id t2)] ++ ev1).
      rewrite rendered_app, Hq1. reflexivity.
  - apply (Hrest t1 [] eq_refl eq_refl).
Qed.

(** X19.  Started at a node without ancestors, [travLod] renders only
    nodes that have their draws determined and pass [myVisibilityTest] for
    the grid: this includes the coarser nodes rendered in place of children
    that failed. *)
Theorem travLod_renders_over_grid (fuel : nat) (trav : TraverseNode.t)
    (lod a1 b1 a2 b2 : Z) :
  Forall (fun t => TraverseNode.determined t = true
                   /\ overGrid lod a1 b1 a2 b2 t)
    (rendered (snd (travLod ulChild cam layer fuel [] trav lod a1 b1 a2 b2))).
Proof. apply travLod_rendered. constructor. Qed.

(** [travLod] answers whether the node has its meta node. *)
Lemma travLod_answers_meta (fuel : nat) (ancestors : list TraverseNode.t)
    (trav : TraverseNode.t) (lod a1 b1 a2 b2 : Z) :
  let r := travLod ulChild cam layer (S fuel) ancestors trav lod a1 b1 a2 b2 in
  fst (fst r) = isSome (TraverseNode.meta (snd (fst r)))
  /\ fst (fst r) = fst (fst (travInit ulChild cam layer (head ancestors) trav
                                      false)).
Proof.
  cbv zeta. cbn [travLod].
  destruct (travInit_frame ulChild cam layer (head ancestors) trav false)
    as (_ & _ & Hans & _).
  destruct (travInit ulChild cam layer (head ancestors) trav false)
    as [[ok t1] ev0].
  cbn [fst snd] in *.
  destruct ok; cbn [negb]; [|cbn [fst snd]; split; [exact Hans|reflexivity]].
  destruct (negb (myVisibilityTest t1 lod a1 b1 a2 b2));
    [cbn [fst snd]; split; [exact Hans|reflexivity]|].
  destruct (_ || isNil (TraverseNode.childs t1)).
  - destruct (travDetermineDraws_frame cam layer (head ancestors) t1)
      as (_ & Hmeta & _ & _ & _).
    destruct (travDetermineDraws cam layer (head ancestors) t1)
      as [[d t2] ev1].
    cbn [fst snd] in *.
    destruct d.
    + cbn [fst snd]. rewrite Hmeta. split; [exact Hans|reflexivity].
    + destruct (forChilds _ _) as [[oks childs] ev2].
      cbn [fst snd TraverseNode.meta TraverseNode.set_childs].
      rewrite Hmeta. split; [exact Hans|reflexivity].
  - destruct (forChilds _ _) as [[oks childs] ev2].
    cbn [fst snd TraverseNode.meta TraverseNode.set_childs].
    split; [exact Hans|reflexivity].
Qed.

(** X20.  Whatever the traverse mode of the options, every node
    [traverseRender] renders has its draws determined; in mode [None] it
    renders nothing. *)
Theorem traverseRender_renders_determined (fuel : nat)
    (ancestors : list TraverseNode.t) (trav : TraverseNode.t) :
  Forall (fun t => TraverseNode.determined t = true)
    (rendered (snd (traverseRender ulChild cam layer options fuel ancestors
                                   trav)))
  /\ ((if MapLayer.isGeodata layer
       then CameraOptions.traverseModeGeodata options
       else CameraOptions.traverseModeSurfaces options) = TM_None ->
      rendered (snd (traverseRender ulChild cam layer options fuel ancestors
                                    trav)) = []).
Proof.
  split; [|unfold traverseRender; intros ->; reflexivity].
  unfold traverseRender.
  destruct (if MapLayer.isGeodata layer then _ else _).
  - constructor.
  - eapply Forall_impl; [apply travModeFlat_rendered|].
    intros t (_ & H & _). exact H.
  - pose proof (travModeStable_rendered ulChild cam layer fuel ancestors trav 0)
      as H.
    destruct (travModeStable _ _ _ _ _ _ _) as [[b t] ev]. cbn [snd] in *.
    eapply Forall_impl; [exact H|]. intros t' [_ H']. exact H'.
  - pose proof (travModeBalanced_determined fuel ancestors trav false) as H.
    destruct (travModeBalanced _ _ _ _ _ _ _) as [[b t] ev]. exact H.
  - eapply Forall_impl;
      [apply (proj1 (travModeHierarchical_rendered fuel ancestors trav false))|].
    intros t [_ H]. exact H.
  - eapply Forall_impl; [apply travModeFixed_rendered|].
    intros t [H _]. exact H.
  - pose proof (proj1 (travModeDistanceBaseFixed_rendered fuel ancestors trav))
      as H.
    destruct (travModeDistanceBaseFixed _ _ _ _ _ _ _) as [[b t] ev]. exact H.
Qed.

End StrategyFacts.

(** A parent with its meta node and a child that has none: the parent is
    rendered alone, or nothing is. *)
Lemma travModeHierarchical_waits_for_children_witness :
  let r := LibBrowser.travModeHierarchical 0
             (Examples.lbCamera Examples.allValid false) Examples.layerS
             2 [] Examples.parentOfFresh false in
  LibBrowser.rendered (snd r) = []
  \/ (LibBrowser.rendered (snd r) = [fst r]
      /\ LibBrowser.TraverseNode.determined (fst r) = true).
Proof.
  apply (travModeHierarchical_waits_for_children 0
           (Examples.lbCamera Examples.allValid false) Examples.layerS
           2 [] Examples.parentOfFresh false).
  - discriminate.
  - constructor. left. reflexivity.
Defined.

Section MetaSuccess.

Import LibBrowser.

Variable ulChild : Z.
Variable cam : CameraImpl.t.
Variable layer : MapLayer.t.

Lemma checkMetaTiles_determined (priority : float)
    (metaTiles : list (option string)) :
  fst (checkMetaTiles cam priority metaTiles) = true
  <-> Forall (notLoading cam) metaTiles.
Proof.
  unfold notLoading.
  induction metaTiles as [|[m|] rest IH]; cbn [checkMetaTiles].
  - split; [constructor|reflexivity].
  - destruct (checkMetaTiles cam priority rest) as [d ev]. cbn [fst] in *.
    split.
    + intros H. constructor.
      * intros m' [= <-]. destruct (MapImpl.getResourceValidity _ m);
          congruence.
      * apply IH. destruct (MapImpl.getResourceValidity _ m);
          congruence.
    + intros H. inversion H as [|? ? H1 H2]; subst.
      specialize (H1 m eq_refl). apply IH in H2.
      destruct (MapImpl.getResourceValidity _ m); congruence.
  - rewrite IH. split.
    + intros H. constructor; [discriminate|exact H].
    + intros H. inversion H; assumption.
Qed.

Lemma findTopmost_chosen_keeps (nodeId : TileId.t) :
  forall (metaTiles : list (option string)) (i : nat) (st : Topmost.t),
    Topmost.chosen st <> None ->
    Topmost.chosen (findTopmost ulChild cam layer nodeId i metaTiles st)
    <> None.
Proof.
  induction metaTiles as [|[m|] rest IH]; intros i st Hst; cbn [findTopmost].
  - exact Hst.
  - destruct (isSome (Topmost.topmost st) || _); [apply IH; exact Hst|].
    destruct (VtsMetaNode.geometry _); cbn; apply IH; cbn;
      [discriminate|destruct (Topmost.chosen st); congruence].
  - apply IH. exact Hst.
Qed.

Lemma findTopmost_chosen (nodeId : TileId.t) :
  forall (metaTiles : list (option string)) (i : nat) (st : Topmost.t),
    (Topmost.topmost st <> None -> Topmost.chosen st <> None) ->
    (Topmost.chosen (findTopmost ulChild cam layer nodeId i metaTiles st)
     <> None
     <-> Topmost.chosen st <> None
         \/ exists (k : nat) (m : string),
              metaTiles !! k = Some (Some m) /\ alienMatches cam layer nodeId (i + k) m).
Proof.
  induction metaTiles as [|o rest IH]; intros i st Hinv; cbn [findTopmost].
  - split; [intros H; left; exact H|].
    intros [H | (k & m & H & _)]; [exact H|discriminate H].
  - assert (Hshift : (exists (k : nat) (m : string),
                         rest !! k = Some (Some m) /\ alienMatches cam layer nodeId (S i + k) m)
                     -> exists (k : nat) (m : string),
                          (o :: rest) !! k = Some (Some m)
                          /\ alienMatches cam layer nodeId (i + k) m).
    { intros (k & m & H1 & H2). exists (S k), m.
      rewrite <- Nat.add_succ_comm. split; assumption. }
    destruct o as [m0|].
    + destruct (isSome (Topmost.topmost st)) eqn:Htop; cbn [orb].
      * assert (Hc : Topmost.chosen st <> None)
          by (apply Hinv; destruct (Topmost.topmost st); [discriminate|discriminate Htop]).
        split; [intros _; left; exact Hc|intros _].
        apply findTopmost_chosen_keeps. exact Hc.
      * destruct (Bool.eqb _ _) eqn:Heq; cbn [negb].
        -- apply eqb_prop in Heq.
           split.
           ++ intros _. right. exists 0%nat, m0.
              rewrite Nat.add_0_r. split; [reflexivity|exact Heq].
           ++ intros _.
              destruct (VtsMetaNode.geometry _);
                apply findTopmost_chosen_keeps; cbn;
                [discriminate|destruct (Topmost.chosen st); discriminate].
        -- rewrite IH; cbn [Topmost.chosen Topmost.topmost]; [|exact Hinv].
           split.
           ++ intros [H | H]; [left; exact H|right; apply Hshift; exact H].
           ++ intros [H | (k & m & H1 & H2)]; [left; exact H|].
              destruct k as [|k].
              ** cbn in H1. injection H1 as <-. rewrite Nat.add_0_r in H2.
                 unfold alienMatches in H2. rewrite H2, eqb_reflx in Heq.
                 discriminate Heq.
              ** right. exists k, m. rewrite Nat.add_succ_comm.
                 split; assumption.
    + rewrite IH by exact Hinv. split.
      * intros [H | H]; [left; exact H|right; apply Hshift; exact H].
      * intros [H | (k & m & H1 & H2)]; [left; exact H|].
        destruct k as [|k]; [discriminate H1|].
        right. exists k, m. rewrite Nat.add_succ_comm. split; assumption.
Qed.

(** X12.  On a layer that is not a monolithic geodata free layer,
    [travDetermineMeta] answers [true] exactly when none of the meta tiles
    the node then holds is still loading and one of them, for some surface
    of the stack, holds a meta node whose alien flag is that of the
    surface. *)
Theorem travDetermineMeta_succeeds_iff (parent : option TraverseNode.t)
    (trav : TraverseNode.t) (initAllChild : bool) :
  MapLayer.freeLayer layer <> Some FL_geodata ->
  let r := travDetermineMeta ulChild cam layer parent trav initAllChild in
  let handles := TraverseNode.metaTiles (snd (fst r)) in
  let nodeId := TraverseNode.id trav in
  fst (fst r) = true
  <-> Forall (notLoading cam) handles
      /\ exists (i : nat) (m : string),
           handles !! i = Some (Some m) /\ alienMatches cam layer nodeId i m.
Proof.
  intros Hfree. cbv zeta. unfold travDetermineMeta.
  assert (Hbody : forall body geo : bool * TraverseNode.t * list Event,
            match MapLayer.freeLayer layer with
            | Some FL_geodata => geo
            | _ => body
            end = body).
  { intros body geo. destruct (MapLayer.freeLayer layer) as [[]|];
      try reflexivity. contradiction. }
  rewrite Hbody. clear Hbody.
  destruct (if isNil (TraverseNode.metaTiles trav) then _ else _) as [mts ev1].
  pose proof (checkMetaTiles_determined
                (TraverseNode.priority (TraverseNode.set_metaTiles mts trav)) mts)
    as Hchk.
  destruct (checkMetaTiles cam _ mts) as [det ev2]. cbn [fst] in Hchk.
  pose proof (findTopmost_chosen (TraverseNode.id trav) mts 0 Topmost.init
                ltac:(intros H; exfalso; apply H; reflexivity)) as Hcho.
  cbn [Topmost.chosen Topmost.init] in Hcho.
  destruct det; cbn [negb].
  - cbn [TraverseNode.id TraverseNode.set_metaTiles] in *.
    destruct (Topmost.chosen _) as [chosen|].
    + cbn [fst snd].
      destruct (updateNodePriority_fields cam parent
                  (TraverseNode.set_childs
                     (newChilds (TraverseNode.id trav) initAllChild
                        (Topmost.childsAvailable
                           (findTopmost ulChild cam layer (TraverseNode.id trav) 0 mts
                              Topmost.init)))
                     (TraverseNode.set_meta
                        (Some (MapImpl.metaTileGetNode (CameraImpl.map cam) chosen
                                 (TraverseNode.id trav)))
                        match Topmost.topmost
                                (findTopmost ulChild cam layer (TraverseNode.id trav) 0
                                   mts Topmost.init) with
                        | Some topmost =>
                            TraverseNode.set_credits
                              (TraverseNode.credits (TraverseNode.set_metaTiles mts trav)
                               ++ VtsMetaNode.credits
                                    (MapImpl.metaTileGet (CameraImpl.map cam) chosen
                                       (TraverseNode.id trav)))
                              (TraverseNode.set_surface (Some topmost)
                                 (TraverseNode.set_metaTiles mts trav))
                        | None => TraverseNode.set_metaTiles mts trav
                        end)))
        as (_ & _ & _ & _ & Hmts & _).
      rewrite Hmts.
      assert (Hm : TraverseNode.metaTiles
                     (TraverseNode.set_childs
                        (newChilds (TraverseNode.id trav) initAllChild
                           (Topmost.childsAvailable
                              (findTopmost ulChild cam layer (TraverseNode.id trav) 0 mts
                                 Topmost.init)))
                        (TraverseNode.set_meta
                           (Some (MapImpl.metaTileGetNode (CameraImpl.map cam) chosen
                                    (TraverseNode.id trav)))
                           match Topmost.topmost
                                   (findTopmost ulChild cam layer (TraverseNode.id trav) 0
                                      mts Topmost.init) with
                           | Some topmost =>
                               TraverseNode.set_credits
                                 (TraverseNode.credits (TraverseNode.set_metaTiles mts trav)
                                  ++ VtsMetaNode.credits
                                       (MapImpl.metaTileGet (CameraImpl.map cam) chosen
                                          (TraverseNode.id trav)))
                                 (TraverseNode.set_surface (Some topmost)
                                    (TraverseNode.set_metaTiles mts trav))
                           | None => TraverseNode.set_metaTiles mts trav
                           end)) = mts)
        by (destruct (Topmost.topmost _); reflexivity).
      rewrite Hm. split; [intros _|reflexivity].
      split; [apply Hchk; reflexivity|].
      destruct (proj1 Hcho ltac:(discriminate)) as [H | H];
        [contradiction H; reflexivity|exact H].
    + cbn [fst snd TraverseNode.metaTiles TraverseNode.set_metaTiles].
      split; [discriminate|]. intros [_ H].
      exfalso. apply (proj2 Hcho); [right; exact H|reflexivity].
  - cbn [fst snd TraverseNode.metaTiles TraverseNode.set_metaTiles].
    split; [discriminate|]. intros [H _]. apply Hchk in H. discriminate H.
Qed.

End MetaSuccess.

(** The root over a map all of whose resources are valid: the call
    succeeds, with the meta tile of the one surface. *)
Lemma travDetermineMeta_succeeds_iff_witness :
  let r := LibBrowser.travDetermineMeta 0
             (Examples.lbCamera Examples.allValid true) Examples.layerS
             None Examples.root false in
  Forall (LibBrowser.notLoading (Examples.lbCamera Examples.allValid true))
         (LibBrowser.TraverseNode.metaTiles (snd (fst r)))
  /\ exists (i : nat) (m : string),
       LibBrowser.TraverseNode.metaTiles (snd (fst r)) !! i = Some (Some m)
       /\ LibBrowser.alienMatches (Examples.lbCamera Examples.allValid true)
                                  Examples.layerS (TileId.mk 0 0 0) i m.
Proof.
  exact (proj1 (travDetermineMeta_succeeds_iff 0
                  (Examples.lbCamera Examples.allValid true) Examples.layerS
                  None Examples.root false ltac:(discriminate))
               eq_refl).
Defined.

Section DrawMore.

Import LibBrowser.

Variable cam : CameraImpl.t.
Variable layer : MapLayer.t.

(** X13.  A call of [travDetermineDraws] that answers [false] leaves no
    partial result in the node: the draws stay undetermined, and the
    opaque, transparent, collider and geodata lists and the credits are
    what they were. *)
Theorem travDetermineDraws_failure_keeps_draws (parent : option TraverseNode.t)
    (trav : TraverseNode.t) :
  let r := travDetermineDraws cam layer parent trav in
  let trav' := snd (fst r) in
  fst (fst r) = false ->
  TraverseNode.determined trav' = false
  /\ TraverseNode.opaque trav' = TraverseNode.opaque trav
  /\ TraverseNode.transparent trav' = TraverseNode.transparent trav
  /\ TraverseNode.colliders trav' = TraverseNode.colliders trav
  /\ TraverseNode.geodata trav' = TraverseNode.geodata trav
  /\ TraverseNode.credits trav' = TraverseNode.credits trav.
Proof.
  cbv zeta. unfold travDetermineDraws.
  destruct (negb (isSome (TraverseNode.surface trav))
            || TraverseNode.determined trav).
  { cbn [fst snd]. intros ->. repeat split. }
  destruct (updateNodePriority_fields cam parent trav)
    as (_ & _ & _ & _ & _ & _ & Hop & Htr & Hcol & Hgeo & _).
  assert (Hcr : TraverseNode.credits (updateNodePriority cam parent trav)
                = TraverseNode.credits trav).
  { unfold updateNodePriority.
    destruct (TraverseNode.meta trav); [|destruct parent]; reflexivity. }
  set (trav1 := updateNodePriority cam parent trav) in *.
  destruct (MapLayer.isGeodata layer).
  - unfold travDetermineDrawsGeodata.
    destruct (Validity_eqb _ _ || Validity_eqb _ _);
      [cbn; intros _; repeat split; assumption|].
    destruct (Validity_eqb _ _ || Validity_eqb _ _);
      [cbn; intros _; repeat split; assumption|].
    destruct (MapImpl.getResourceValidity _ _); cbn [fst snd];
      try discriminate; cbn; intros _; repeat split; assumption.
  - unfold travDetermineDrawsSurface.
    destruct (existsb _ _); [cbn; intros _; repeat split; assumption|].
    cbn [TraverseNode.resources TraverseNode.set_resources TraverseNode.priority].
    destruct (MapImpl.getResourceValidity _ _);
      [cbn; intros _; repeat split; assumption
      |cbn; intros _; repeat split; assumption|].
    destruct (Draws.determined _); cbn [fst snd]; [discriminate|].
    cbn. intros _. repeat split; assumption.
Qed.


(** ** The draws of a surface node come from the submeshes of its mesh
    aggregate *)

Section FromParts.

Variable parts : list MeshPart.t.

Lemma classifyBoundLayers_parts (part : MeshPart.t) :
  In part parts ->
  forall (bls : list BoundParamInfo.t) (st : Classify.t),
    Forall (drawsSubmeshOf parts) (Classify.newOpaque st) ->
    Forall (drawsSubmeshOf parts) (Classify.newTransparent st) ->
    Forall (drawsSubmeshOf parts) (Classify.newOpaque (classifyBoundLayers cam part bls st))
    /\ Forall (drawsSubmeshOf parts)
         (Classify.newTransparent (classifyBoundLayers cam part bls st)).
Proof.
  intros Hin. induction bls as [|b rest IH]; intros st Ho Ht;
    cbn [classifyBoundLayers]; [split; assumption|].
  assert (Htask : (drawsSubmeshOf parts) (boundLayerTask part b))
    by (exists part; repeat split; assumption).
  assert (Hadd : forall l : list RenderSurfaceTask.t,
             Forall (drawsSubmeshOf parts) l -> Forall (drawsSubmeshOf parts) (l ++ [boundLayerTask part b])).
  { intros l Hl. apply Forall_app. split; [exact Hl|].
    constructor; [exact Htask|constructor]. }
  destruct (negb (BoundParamInfo.transparent b) && _);
    [destruct (Classify.anyOpaqueLayer st)|];
    try destruct (BoundParamInfo.transparent b);
    apply IH; cbn [Classify.newOpaque Classify.newTransparent];
    auto.
Qed.

Lemma internalTexture_parts (trav : TraverseNode.t) (subMeshIndex : Z)
    (part : MeshPart.t) (st : Draws.t) :
  In part parts ->
  Forall (drawsSubmeshOf parts) (Draws.newOpaque st) ->
  Forall (drawsSubmeshOf parts) (Draws.newTransparent st) ->
  let st' := internalTexture cam layer trav subMeshIndex part st in
  Forall (drawsSubmeshOf parts) (Draws.newOpaque st')
  /\ Forall (drawsSubmeshOf parts) (Draws.newTransparent st')
  /\ exists more : list string,
       Draws.resources st' = Draws.resources st ++ more.
Proof.
  intros Hin Ho Ht. cbv zeta. unfold internalTexture, travInternalTexture.
  destruct (MeshPart.internalUv part);
    [|repeat split; try assumption; exists []; symmetry; apply app_nil_r].
  destruct (MapImpl.getResourceValidity _ _);
    cbn [Draws.newOpaque Draws.newTransparent Draws.resources];
    repeat split; try assumption; try (eexists; reflexivity).
  constructor; [|assumption]. exists part. repeat split; assumption.
Qed.

Lemma submeshStep_parts (trav : TraverseNode.t) (subMeshIndex : Z)
    (part : MeshPart.t) (st : Draws.t) :
  In part parts ->
  Forall (drawsSubmeshOf parts) (Draws.newOpaque st) ->
  Forall (drawsSubmeshOf parts) (Draws.newTransparent st) ->
  let st' := submeshStep cam layer trav subMeshIndex part st in
  Forall (drawsSubmeshOf parts) (Draws.newOpaque st')
  /\ Forall (drawsSubmeshOf parts) (Draws.newTransparent st')
  /\ exists more : list string,
       Draws.resources st' = Draws.resources st ++ more.
Proof.
  intros Hin Ho Ht. cbv zeta. unfold submeshStep.
  destruct (MeshPart.externalUv part);
    [|apply internalTexture_parts; assumption].
  destruct (CameraImpl.reorderBoundLayers _ _ _ _ _ _) as [validity bls].
  destruct validity;
    try (cbn [Draws.newOpaque Draws.newTransparent Draws.resources];
         repeat split; try assumption; eexists; reflexivity).
  match goal with
  | |- context [classifyBoundLayers cam part bls ?c] =>
      destruct (classifyBoundLayers_parts part Hin bls c Ho Ht) as [Ho' Ht'];
      destruct (classifyBoundLayers cam part bls c) as [any allT no nt nc]
  end.
  cbn [Classify.newOpaque Classify.newTransparent Classify.allTransparent
       Classify.newCredits] in *.
  destruct allT; cbn [negb].
  - match goal with
    | |- context [internalTexture cam layer trav subMeshIndex part ?st0] =>
        destruct (internalTexture_parts trav subMeshIndex part st0 Hin Ho' Ht')
          as (H1 & H2 & more & H3)
    end.
    repeat split; try assumption.
    rewrite H3. cbn [Draws.resources]. rewrite <- app_assoc.
    eexists. reflexivity.
  - cbn [Draws.newOpaque Draws.newTransparent Draws.resources].
    repeat split; try assumption. eexists. reflexivity.
Qed.

Lemma submeshLoop_parts (trav : TraverseNode.t) :
  forall (rest : list MeshPart.t) (subMeshIndex : Z) (st : Draws.t),
    (forall part : MeshPart.t, In part rest -> In part parts) ->
    Forall (drawsSubmeshOf parts) (Draws.newOpaque st) ->
    Forall (drawsSubmeshOf parts) (Draws.newTransparent st) ->
    let st' := submeshLoop cam layer trav subMeshIndex rest st in
    Forall (drawsSubmeshOf parts) (Draws.newOpaque st')
    /\ Forall (drawsSubmeshOf parts) (Draws.newTransparent st')
    /\ exists more : list string,
         Draws.resources st' = Draws.resources st ++ more.
Proof.
  induction rest as [|part rest IH]; intros subMeshIndex st Hsub Ho Ht;
    cbn [submeshLoop].
  - repeat split; try assumption. exists []. symmetry. apply app_nil_r.
  - destruct (submeshStep_parts trav subMeshIndex part st
                (Hsub part (or_introl eq_refl)) Ho Ht) as (Ho1 & Ht1 & m1 & Hr1).
    destruct (IH (subMeshIndex + 1)
                 (submeshStep cam layer trav subMeshIndex part st)
                 (fun p Hp => Hsub p (or_intror Hp)) Ho1 Ht1)
      as (Ho2 & Ht2 & m2 & Hr2).
    repeat split; try assumption.
    cbv zeta in Hr2. rewrite Hr2, Hr1, <- app_assoc. eexists. reflexivity.
Qed.

End FromParts.

(** X14.  When [travDetermineDraws] determines the draws of a surface
    node, it appends one collider per submesh of the node's mesh aggregate,
    in order; every opaque or transparent task of the node draws one of
    those submeshes with the model matrix of that submesh; and the first
    resource the node holds is the mesh aggregate. *)
Theorem surface_draws_come_from_submeshes (parent : option TraverseNode.t)
    (trav : TraverseNode.t) :
  TraverseNode.surface trav <> None ->
  TraverseNode.determined trav = false ->
  MapLayer.isGeodata layer = false ->
  let r := travDetermineDraws cam layer parent trav in
  let trav' := snd (fst r) in
  let meshAgg := meshAggregateName layer trav in
  let parts := MapImpl.submeshes (CameraImpl.map cam) meshAgg in
  fst (fst r) = true ->
  TraverseNode.colliders trav'
  = TraverseNode.colliders trav ++ List.map colliderTask parts
  /\ Forall (drawsSubmeshOf parts)
            (TraverseNode.opaque trav' ++ TraverseNode.transparent trav')
  /\ head (TraverseNode.resources trav') = Some meshAgg.
Proof.
  intros Hs Hd Hgeo. cbv zeta. unfold travDetermineDraws.
  destruct (TraverseNode.surface trav) as [s|] eqn:Hsurf; [|contradiction].
  rewrite Hd, Hgeo. cbn [isSome negb orb].
  destruct (updateNodePriority_fields cam parent trav)
    as (Hid & Hmeta & Hsf & _ & _ & Hres & _ & _ & Hcol & _ & _).
  set (trav1 := updateNodePriority cam parent trav) in *.
  assert (Hname : meshAggregateName layer trav1 = meshAggregateName layer trav).
  { unfold meshAggregateName, metaLocalId. rewrite Hid, Hmeta, Hsf. reflexivity. }
  unfold travDetermineDrawsSurface.
  destruct (existsb _ _); [cbn; discriminate|].
  fold (meshAggregateName layer trav1). rewrite Hname.
  cbn [TraverseNode.resources TraverseNode.set_resources TraverseNode.priority].
  destruct (MapImpl.getResourceValidity _ _); try (cbn; discriminate).
  match goal with
  | |- context [submeshLoop cam layer ?t 0 ?ps ?st] =>
      destruct (submeshLoop_parts ps t ps 0 st (fun p Hp => Hp)
                  ltac:(constructor) ltac:(constructor))
        as (Ho & Ht & more & Hr);
      destruct (submeshLoop cam layer t 0 ps st) as [d no nt nc res ev]
  end.
  cbn [Draws.determined Draws.newOpaque Draws.newTransparent Draws.resources
       Draws.newCredits Draws.events] in *.
  destruct d; cbn [fst snd]; [|discriminate]. intros _.
  cbn. rewrite Hcol, Hr. repeat split.
  apply Forall_app. split; assumption.
Qed.

End DrawMore.

(** A node whose mesh aggregate is invalid. *)
Lemma travDetermineDraws_failure_keeps_draws_witness :
  let r := LibBrowser.travDetermineDraws
             (Examples.lbCamera Examples.meshInvalid true) Examples.layerS
             None Examples.pendingNode in
  LibBrowser.TraverseNode.determined (snd (fst r)) = false
  /\ LibBrowser.TraverseNode.opaque (snd (fst r)) = []
  /\ LibBrowser.TraverseNode.colliders (snd (fst r)) = [].
Proof.
  pose proof (travDetermineDraws_failure_keeps_draws
                (Examples.lbCamera Examples.meshInvalid true) Examples.layerS
                None Examples.pendingNode eq_refl) as (H1 & H2 & _ & H3 & _).
  split; [exact H1|]. split; [exact H2|exact H3].
Defined.

(** A node whose mesh aggregate has one submesh with internal UVs. *)
Lemma surface_draws_come_from_submeshes_witness :
  let r := LibBrowser.travDetermineDraws
             (Examples.lbCamera Examples.oneSubmesh true) Examples.layerS
             None Examples.pendingNode in
  LibBrowser.TraverseNode.colliders (snd (fst r))
  = [LibBrowser.colliderTask Examples.internalPart]
  /\ Forall (LibBrowser.drawsSubmeshOf [Examples.internalPart])
            (LibBrowser.TraverseNode.opaque (snd (fst r))
             ++ LibBrowser.TraverseNode.transparent (snd (fst r)))
  /\ head (LibBrowser.TraverseNode.resources (snd (fst r)))
     = Some "S/mesh"%string.
Proof.
  exact (surface_draws_come_from_submeshes
           (Examples.lbCamera Examples.oneSubmesh true) Examples.layerS
           None Examples.pendingNode ltac:(discriminate) eq_refl eq_refl
           eq_refl).
Defined.

(* ================================================================== *)
(** * Further properties of the renderer classes (classes.cpp) *)
(* ================================================================== *)

Section TextureFacts.

Import Renderer.

Variable khr_debug : bool.
Variable ext_texture_filter_anisotropic : bool.
Variable maxAnisotropySamples : float.
Variable sizeofTexture : Z.

(** X21.  [enforceUsingMipMaps] turns every filter mode of the
    enumeration into one of the two linear mipmap modes,
    [LinearMipmapNearest] or [LinearMipmapLinear], the one with the same
    magnification filter: the two nearest mipmap modes are rewritten as
    well, and only the two linear mipmap modes come out as they went in.
    It throws for a value outside the enumeration only, for which
    [magFilter] throws as well. *)
Theorem enforceUsingMipMaps_keeps_magFilter (filterMode : FilterMode.t) :
  match enforceUsingMipMaps filterMode with
  | Returns enforced =>
      (enforced = FilterMode.LinearMipmapNearest
       \/ enforced = FilterMode.LinearMipmapLinear)
      /\ magFilter enforced = magFilter filterMode
      /\ (enforced = filterMode
          <-> filterMode = FilterMode.LinearMipmapNearest
              \/ filterMode = FilterMode.LinearMipmapLinear)
      /\ enforceUsingMipMaps enforced = Returns enforced
  | Throws e => filterMode = FilterMode.Other /\ magFilter filterMode = Throws e
  end.
Proof.
  destruct filterMode; cbn; repeat split; auto;
    try discriminate; intros [H | H]; discriminate H.
Qed.

Lemma findFormat_succeeds (spec : GpuTextureSpec.t) :
  (exists format : GLenum.t, findFormat spec = Returns format)
  <-> 1 <= GpuTextureSpec.components spec <= 4.
Proof.
  unfold findFormat. split.
  - intros [format H].
    destruct (GpuTextureSpec.components spec) as [|[[|[]|]|[|[]|]|]|];
      try discriminate H; lia.
  - intros H.
    destruct (GpuTextureSpec.components spec) as [|[[|[]|]|[|[]|]|]|];
      try lia; eexists; reflexivity.
Qed.

Lemma findFormat_throws (spec : GpuTextureSpec.t) :
  findFormat spec = Throws invalid_argument
  <-> ~ 1 <= GpuTextureSpec.components spec <= 4.
Proof.
  rewrite <- findFormat_succeeds. unfold findFormat.
  destruct (GpuTextureSpec.components spec) as [|[[|[]|]|[|[]|]|]|];
    split; intros H; try reflexivity; try discriminate H;
    try (intros [format Hf]; discriminate Hf);
    exfalso; apply H; eexists; reflexivity.
Qed.

Lemma findInternalFormat_throws (spec : GpuTextureSpec.t) :
  1 <= GpuTextureSpec.components spec <= 4 ->
  (exists e : Exn, findInternalFormat spec = Throws e)
  <-> GpuTextureSpec.internalFormat spec = 0
      /\ GpuTextureSpec.type spec = GpuTypeEnum.Other.
Proof.
  intros Hc. unfold findInternalFormat.
  destruct (Z.eqb_spec (GpuTextureSpec.internalFormat spec) 0) as [E|N];
    cbn [negb].
  - assert (H : GpuTextureSpec.components spec = 1
                \/ GpuTextureSpec.components spec = 2
                \/ GpuTextureSpec.components spec = 3
                \/ GpuTextureSpec.components spec = 4) by lia.
    destruct (GpuTextureSpec.type spec);
      destruct H as [H | [H | [H | H]]]; rewrite ?H;
      split;
      try (intros [e He]; discriminate He);
      try (intros [_ He]; discriminate He);
      try (intros _; split; [exact E|reflexivity]);
      intros _; eexists; reflexivity.
  - split; [intros [e He]; discriminate He|intros [H _]; contradiction].
Qed.


Lemma magFilter_throws (filterMode : FilterMode.t) :
  (exists e : Exn, magFilter filterMode = Throws e)
  <-> filterMode = FilterMode.Other.
Proof.
  destruct filterMode; cbn; split; try discriminate;
    try (intros [e H]; discriminate H); try reflexivity.
  intros _. eexists. reflexivity.
Qed.

(** What a [Texture::load] that throws leaves behind. *)
Lemma load_thrown_state (newId : Z) (self : Texture.t)
    (info : ResourceInfo.t) (spec : GpuTextureSpec.t) (debugId : string) :
  let r := Texture.load khr_debug ext_texture_filter_anisotropic
                        maxAnisotropySamples sizeofTexture
                        newId self info spec debugId in
  fst (fst (fst r)) <> None ->
  Texture.id (snd (fst (fst r))) = newId /\ snd (fst r) = info.
Proof.
  cbv zeta. unfold Texture.load, Texture.clear.
  destruct (findInternalFormat spec); destruct (findFormat spec);
    try destruct (magFilter _);
    cbn [fst snd Texture.id]; intros H;
    try (contradiction H; reflexivity); split; reflexivity.
Qed.

(** X22.  [Texture::load] throws exactly when the spec has a number of
    components outside 1..4, or no internal format and a type outside the
    enumeration, or a filter mode outside the enumeration.  It has then
    taken the new texture name, which it keeps and does not delete, and
    has not touched the memory costs. *)
Theorem texture_load_throws_iff (newId : Z) (self : Texture.t)
    (info : ResourceInfo.t) (spec : GpuTextureSpec.t) (debugId : string) :
  let r := Texture.load khr_debug ext_texture_filter_anisotropic
                        maxAnisotropySamples sizeofTexture
                        newId self info spec debugId in
  let thrown := fst (fst (fst r)) in
  let self' := snd (fst (fst r)) in
  (thrown <> None
   <-> ~ 1 <= GpuTextureSpec.components spec <= 4
       \/ (GpuTextureSpec.internalFormat spec = 0
           /\ GpuTextureSpec.type spec = GpuTypeEnum.Other)
       \/ GpuTextureSpec.filterMode spec = FilterMode.Other)
  /\ (thrown <> None ->
      Texture.id self' = newId
      /\ snd (fst r) = info
      /\ (newId <> Texture.id self -> ~ In (glDeleteTextures newId) (snd r))).
Proof.
  cbv zeta. unfold Texture.load, Texture.clear.
  assert (Hold : forall c : Call,
            In c (if Texture.id self =? 0 then []
                  else [glDeleteTextures (Texture.id self)]) ->
            c = glDeleteTextures (Texture.id self)).
  { intros c Hc. destruct (Texture.id self =? 0); [destruct Hc|].
    destruct Hc as [<- | []]. reflexivity. }
  destruct (Z_le_dec 1 (GpuTextureSpec.components spec)) as [H1|H1];
    [destruct (Z_le_dec (GpuTextureSpec.components spec) 4) as [H4|H4]|].
  - pose proof (findInternalFormat_throws spec (conj H1 H4)) as Hif.
    destruct (proj2 (findFormat_succeeds spec) (conj H1 H4)) as [format Hf].
    rewrite Hf.
    destruct (findInternalFormat spec) as [internalFormat|e].
    + pose proof (magFilter_throws (GpuTextureSpec.filterMode spec)) as Hmag.
      destruct (magFilter (GpuTextureSpec.filterMode spec)) as [mag|e].
      * cbn [fst snd]. split.
        -- split; [intros H; contradiction H; reflexivity|].
           intros [H | [H | H]]; [lia| |].
           ++ apply (proj2 Hif) in H. destruct H as [e He]. discriminate He.
           ++ apply (proj2 Hmag) in H. destruct H as [e He]. discriminate He.
        -- intros H. contradiction H. reflexivity.
      * cbn [fst snd Texture.id]. split.
        -- split; [intros _|discriminate].
           right. right. apply Hmag. eexists. reflexivity.
        -- intros _. repeat split. intros Hne Hin.
           rewrite !in_app_iff in Hin.
           destruct Hin as [[Hin | Hin] | Hin].
           ++ apply Hold in Hin. congruence.
           ++ destruct Hin as [Hin | [Hin | []]]; discriminate Hin.
           ++ destruct Hin as [Hin | [Hin | []]]; discriminate Hin.
    + cbn [fst snd Texture.id]. split.
      * split; [intros _|discriminate].
        right. left. apply Hif. eexists. reflexivity.
      * intros _. repeat split. intros Hne Hin.
        rewrite !in_app_iff in Hin. destruct Hin as [Hin | Hin].
        -- apply Hold in Hin. congruence.
        -- destruct Hin as [Hin | [Hin | []]]; discriminate Hin.
  - assert (Hf : findFormat spec = Throws invalid_argument)
      by (apply findFormat_throws; lia).
    rewrite Hf.
    destruct (findInternalFormat spec) as [internalFormat|e];
      cbn [fst snd Texture.id]; (split; [split; [intros _; left; lia|discriminate]|]);
      intros _; repeat split; intros Hne Hin;
      rewrite !in_app_iff in Hin; destruct Hin as [Hin | Hin];
      try (apply Hold in Hin; congruence);
      destruct Hin as [Hin | [Hin | []]]; discriminate Hin.
  - assert (Hf : findFormat spec = Throws invalid_argument)
      by (apply findFormat_throws; lia).
    rewrite Hf.
    destruct (findInternalFormat spec) as [internalFormat|e];
      cbn [fst snd Texture.id]; (split; [split; [intros _; left; lia|discriminate]|]);
      intros _; repeat split; intros Hne Hin;
      rewrite !in_app_iff in Hin; destruct Hin as [Hin | Hin];
      try (apply Hold in Hin; congruence);
      destruct Hin as [Hin | [Hin | []]]; discriminate Hin.
Qed.


(** X23.  With the option [enforceUsingMipMaps] set, a texture that
    [loadTexture] loads has its mipmaps generated: the spec is left with a
    linear mipmap minification filter, which is the one set, and the
    magnification filter set is the one of the mode the caller asked for. *)
Theorem loadTexture_enforced_generates_mipmaps (optCallGlFinish : bool)
    (newId : Z) (info : ResourceInfo.t) (spec : GpuTextureSpec.t)
    (debugId : string) :
  let r := Texture.loadTexture khr_debug ext_texture_filter_anisotropic
             maxAnisotropySamples sizeofTexture true optCallGlFinish
             newId info spec debugId in
  let spec' := snd (fst r) in
  fst (fst (fst (fst r))) = None ->
  In glGenerateMipmap (snd r)
  /\ (GpuTextureSpec.filterMode spec' = FilterMode.LinearMipmapNearest
      \/ GpuTextureSpec.filterMode spec' = FilterMode.LinearMipmapLinear)
  /\ In (glTexParameter (GL_TEXTURE_MIN_FILTER (GpuTextureSpec.filterMode spec')))
        (snd r)
  /\ exists mag : FilterMode.t,
       magFilter (GpuTextureSpec.filterMode spec) = Returns mag
       /\ In (glTexParameter (GL_TEXTURE_MAG_FILTER mag)) (snd r).
Proof.
  cbv zeta. unfold Texture.loadTexture.
  assert (Henf : match enforceUsingMipMaps (GpuTextureSpec.filterMode spec) with
                 | Returns enforced =>
                     magFilter enforced
                     = magFilter (GpuTextureSpec.filterMode spec)
                     /\ enforceUsingMipMaps enforced = Returns enforced
                     /\ enforced <> FilterMode.Nearest
                     /\ enforced <> FilterMode.Linear
                 | Throws _ => True
                 end)
    by (destruct (GpuTextureSpec.filterMode spec); cbn; repeat split;
        discriminate).
  destruct (enforceUsingMipMaps (GpuTextureSpec.filterMode spec))
    as [mode|e]; [|cbn; discriminate].
  destruct Henf as (Hmag & Hidem & Hn & Hl).
  assert (Hmode : mode = FilterMode.LinearMipmapNearest
                  \/ mode = FilterMode.LinearMipmapLinear).
  { destruct mode; cbn in Hidem; try discriminate Hidem;
      try contradiction; auto. }
  unfold Texture.load, Texture.clear, Texture.make, Texture.setDebugId.
  cbn [Texture.id Texture.grayscale Texture.debugId Z.eqb
       GpuTextureSpec.filterMode GpuTextureSpec.set_filterMode
       GpuTextureSpec.width GpuTextureSpec.height GpuTextureSpec.type
       GpuTextureSpec.buffer GpuTextureSpec.wrapMode GpuTextureSpec.components].
  destruct (findInternalFormat _) as [internalFormat|e];
    [|cbn; discriminate].
  destruct (findFormat _) as [format|e]; [|cbn; discriminate].
  rewrite Hmag.
  destruct (magFilter (GpuTextureSpec.filterMode spec)) as [mag|e] eqn:Hm;
    [|cbn; discriminate].
  cbn [fst snd]. intros _.
  split; [|split; [exact Hmode|split]].
  - rewrite !in_app_iff. left. left.
    destruct Hmode as [-> | ->];
      destruct ext_texture_filter_anisotropic;
      rewrite !in_app_iff; cbn; tauto.
  - rewrite !in_app_iff. left. left.
    destruct Hmode as [-> | ->];
      destruct ext_texture_filter_anisotropic;
      rewrite !in_app_iff; cbn; tauto.
  - exists mag. split; [reflexivity|].
    rewrite !in_app_iff. left. left.
    destruct Hmode as [-> | ->];
      destruct ext_texture_filter_anisotropic;
      rewrite !in_app_iff; cbn; tauto.
Qed.

(** X24.  When [loadTexture] throws, it stores no texture in the resource
    info and leaves the memory costs alone; if it had taken a texture name,
    deleting that name is the last GL call it makes. *)
Theorem loadTexture_releases_on_throw
    (optEnforceUsingMipMaps optCallGlFinish : bool)
    (newId : Z) (info : ResourceInfo.t) (spec : GpuTextureSpec.t)
    (debugId : string) :
  newId <> 0 ->
  let r := Texture.loadTexture khr_debug ext_texture_filter_anisotropic
             maxAnisotropySamples sizeofTexture
             optEnforceUsingMipMaps optCallGlFinish
             newId info spec debugId in
  fst (fst (fst (fst r))) <> None ->
  snd (fst (fst (fst r))) = None
  /\ snd (fst (fst r)) = info
  /\ (snd r = []
      \/ (In (glGenTextures newId) (snd r)
          /\ last (snd r) = Some (glDeleteTextures newId))).
Proof.
  intros Hnew. cbv zeta. unfold Texture.loadTexture.
  destruct (if optEnforceUsingMipMaps then _ else _) as [mode|e];
    [|cbn; intros _; repeat split; left; reflexivity].
  pose proof (load_thrown_state newId Texture.make info
                (GpuTextureSpec.set_filterMode mode spec) debugId)
    as Hthrow.
  cbv zeta in Hthrow.
  destruct (Texture.load _ _ _ _ newId Texture.make info _ debugId)
    as [[[thrown r] info'] calls] eqn:Hload.
  cbn [fst snd] in Hthrow.
  destruct thrown as [e|]; cbn [fst snd]; [|intros H; contradiction H; reflexivity].
  intros _.
  destruct (Hthrow ltac:(discriminate)) as (Hid & Hinfo).
  split; [reflexivity|]. split; [exact Hinfo|]. right.
  unfold Texture.clear. rewrite Hid.
  destruct (Z.eqb_spec newId 0) as [E|_]; [contradiction|].
  split.
  - apply in_app_iff. left.
    unfold Texture.load, Texture.clear, Texture.make in Hload.
    cbn [Texture.id Z.eqb] in Hload.
    destruct (findInternalFormat _); try destruct (findFormat _);
      try destruct (magFilter _);
      try discriminate Hload;
      injection Hload as _ _ _ <-;
      rewrite ?in_app_iff; cbn; tauto.
  - cbn [snd]. apply last_snoc.
Qed.

End TextureFacts.

(** A texture of 2 x 2 RGBA bytes that asks for linear filtering. *)
Lemma loadTexture_enforced_generates_mipmaps_witness :
  let r := Renderer.Texture.loadTexture false false 1%float 64 true false
             5 Examples.noCost Examples.rgbaSpec EmptyString in
  In Renderer.glGenerateMipmap (snd r)
  /\ Renderer.GpuTextureSpec.filterMode (snd (fst r))
     = Renderer.FilterMode.LinearMipmapLinear.
Proof.
  pose proof (loadTexture_enforced_generates_mipmaps false false 1%float 64
                false 5 Examples.noCost Examples.rgbaSpec EmptyString eq_refl)
    as (H1 & _).
  split; [exact H1|reflexivity].
Defined.

(** A spec of five components: the name 5 is taken and given back. *)
Lemma loadTexture_releases_on_throw_witness :
  let r := Renderer.Texture.loadTexture false false 1%float 64 false false
             5 Examples.noCost Examples.fiveComponents EmptyString in
  snd (fst (fst (fst r))) = None
  /\ snd (fst (fst r)) = Examples.noCost
  /\ (snd r = []
      \/ (In (Renderer.glGenTextures 5) (snd r)
          /\ last (snd r) = Some (Renderer.glDeleteTextures 5))).
Proof.
  apply (loadTexture_releases_on_throw false false 1%float 64 false false
           5 Examples.noCost Examples.fiveComponents EmptyString).
  - lia.
  - vm_compute. discriminate.
Defined.

Section MeshMore.

Import Renderer.

Variable sizeofMesh : Z.

(** What [Mesh::clear] does to the buffers of GL. *)
Lemma clear_store (self : Mesh.t) (gl : GL.t) :
  let gl' := snd (Mesh.clear self gl) in
  GL.nextName gl' = GL.nextName gl
  /\ (forall name : Z,
        name <> Mesh.vbo self -> name <> Mesh.vio self ->
        GL.store gl' !! name = GL.store gl !! name)
  /\ (Mesh.vbo self <> 0 -> GL.store gl' !! Mesh.vbo self = None)
  /\ (Mesh.vio self <> 0 -> GL.store gl' !! Mesh.vio self = None)
  /\ (forall (name : Z) (d : BufferData.t),
        GL.store gl' !! name = Some d -> GL.store gl !! name = Some d).
Proof.
  cbv zeta. unfold Mesh.clear. cbn [snd].
  destruct (Z.eqb_spec (Mesh.vbo self) 0) as [Eb|Nb];
    destruct (Z.eqb_spec (Mesh.vio self) 0) as [Ei|Ni];
    cbn [GL.glDeleteBuffers GL.nextName GL.store];
    (split; [reflexivity|]);
    (split; [intros name H1 H2; rewrite ?lookup_delete_ne by congruence;
             reflexivity|]);
    (split; [intros H; first [contradiction
                             | rewrite ?lookup_delete; repeat case_decide;
                               congruence]|]);
    (split; [intros H; first [contradiction
                             | rewrite ?lookup_delete; repeat case_decide;
                               congruence]|]);
    intros name d H; rewrite ?lookup_delete in H; repeat case_decide;
    congruence.
Qed.


(** X26.  For a spec whose index buffer holds [indicesCount] indices of
    32 bits, [Mesh::load] adds to [gpuMemoryCost] two bytes per index more
    than the buffers it creates hold: the indices are counted as they come
    and uploaded as 16-bit values. *)
Theorem mesh_load_cost_exceeds_upload (self : Mesh.t) (gl : GL.t)
    (info : ResourceInfo.t) (spec : GpuMeshSpec.t) (debugId : string) :
  namesInUse gl self ->
  GpuMeshSpec.indicesCount spec = Z.of_nat (length (GpuMeshSpec.indices spec)) ->
  (GpuMeshSpec.verticesCount spec = 0 -> GpuMeshSpec.vertices spec = []) ->
  let r := Mesh.load sizeofMesh self gl info spec debugId in
  ResourceInfo.gpuMemoryCost (snd r) - ResourceInfo.gpuMemoryCost info
  = meshBytes (snd (fst r)) (fst (fst r)) + 2 * GpuMeshSpec.indicesCount spec.
Proof.
  intros (Hpos & Hstore & Hvbo & Hvio) Hic Hvc. cbv zeta.
  unfold Mesh.load, meshBytes.
  destruct (clear_store self gl) as (Hn & _ & _ & _ & Hsub).
  cbv zeta in *.
  assert (Hself0 : fst (Mesh.clear self gl)
                   = Mesh.mk 0 0 (Mesh.spec self) (Mesh.debugId self))
    by reflexivity.
  destruct (Mesh.clear self gl) as [self0 gl0]. cbn [fst snd] in *. subst self0.
  cbn [Mesh.vbo Mesh.vio].
  assert (Hzero : GL.store gl0 !! 0 = None).
  { destruct (GL.store gl0 !! 0) as [d|] eqn:E; [|reflexivity].
    apply Hsub, Hstore in E. lia. }
  assert (Hlen : length (Mesh.convertIndices
                           (Z.to_nat (GpuMeshSpec.indicesCount spec)) 0
                           (GpuMeshSpec.indices spec)
                           (replicate (Z.to_nat (GpuMeshSpec.indicesCount spec)) 0))
                 = length (GpuMeshSpec.indices spec)).
  { rewrite convertIndices_all by lia.
    rewrite length_map, length_take. lia. }
  unfold GpuMeshSpec.verticesSize, GpuMeshSpec.indicesSize.
  destruct (Z.eqb_spec (GpuMeshSpec.verticesCount spec) 0) as [Ev|Nv];
    destruct (Z.eqb_spec (GpuMeshSpec.indicesCount spec) 0) as [Ei|Ni];
    cbn -[Mesh.convertIndices replicate Z.mul Z.add Z.sub]; rewrite ?Hn.
  - rewrite Hzero, (Hvc Ev). cbn [length]. lia.
  - rewrite lookup_insert_ne by lia. rewrite Hzero, lookup_insert_eq.
    unfold BufferData.sizeInBytes. cbn [BufferData.elemSize BufferData.elems].
    rewrite Hlen, (Hvc Ev). cbn [length]. lia.
  - rewrite lookup_insert_eq, lookup_insert_ne by lia. rewrite Hzero.
    unfold BufferData.sizeInBytes. cbn [BufferData.elemSize BufferData.elems].
    lia.
  - rewrite lookup_insert_ne by lia. rewrite !lookup_insert_eq.
    unfold BufferData.sizeInBytes. cbn [BufferData.elemSize BufferData.elems].
    rewrite Hlen. lia.
Qed.

End MeshMore.

(** Three indices: 12 bytes are accounted for and 6 uploaded. *)
Lemma mesh_load_cost_exceeds_upload_witness :
  let r := Renderer.Mesh.load 64 Examples.freshMesh Examples.freshGL
             Examples.noCost Examples.bigMesh EmptyString in
  Renderer.ResourceInfo.gpuMemoryCost (snd r) - 0
  = Renderer.meshBytes (snd (fst r)) (fst (fst r)) + 2 * 3.
Proof.
  apply (mesh_load_cost_exceeds_upload 64 Examples.freshMesh Examples.freshGL
           Examples.noCost Examples.bigMesh EmptyString).
  - split; [cbn; lia|]. split; [|cbn; lia].
    intros name d H. cbn in H. rewrite lookup_empty in H. discriminate H.
  - reflexivity.
  - reflexivity.
Defined.

Section BufferFacts.

Import Renderer.

Variable khr_debug : bool.




(** [UniformBuffer::bind] creates the buffer on first use only. *)
Lemma uniformBuffer_bind_creates_once (newName newName' : Z)
    (self : UniformBuffer.t) :
  newName <> 0 ->
  let first := UniformBuffer.bind khr_debug newName self in
  let second := UniformBuffer.bind khr_debug newName' (fst first) in
  UniformBuffer.ubo (fst first)
  = (if UniformBuffer.ubo self =? 0 then newName else UniformBuffer.ubo self)
  /\ UniformBuffer.ubo (fst first) <> 0
  /\ (In (glGenBuffers newName) (snd first) <-> UniformBuffer.ubo self = 0)
  /\ last (snd first) = Some (glBindBuffer (UniformBuffer.ubo (fst first)))
  /\ second = (fst first, [glBindBuffer (UniformBuffer.ubo (fst first))]).
Proof.
  intros Hnew. cbv zeta.
  unfold UniformBuffer.bind, UniformBuffer.bindInit, UniformBuffer.setDebugId.
  destruct (Z.eqb_spec (UniformBuffer.ubo self) 0) as [E|N].
  - cbn [fst snd UniformBuffer.ubo].
    destruct (Z.eqb_spec newName 0) as [E'|_]; [contradiction|].
    cbn [fst snd UniformBuffer.ubo].
    split; [reflexivity|]. split; [exact Hnew|]. split; [|split].
    + split; [intros _; exact E|intros _; left; reflexivity].
    + rewrite last_snoc. reflexivity.
    + reflexivity.
  - cbn [fst snd app].
    destruct (Z.eqb_spec (UniformBuffer.ubo self) 0) as [E'|_]; [contradiction|].
    cbn [fst snd app].
    split; [reflexivity|]. split; [exact N|]. split; [|split].
    + split; [intros [H | []]; discriminate H|intros H; contradiction].
    + reflexivity.
    + reflexivity.
Qed.

End BufferFacts.


Section UniformLocationFacts.

Import Renderer.

Variable glGetUniformLocation : Z -> string -> Z.

(** X28.  [loadUniformLocations] returns the number of locations the
    shader held; the location of the [k]-th name is stored at that index
    plus [k], and the locations stored before stay where they were. *)
Theorem loadUniformLocations_lookup (self : Shader.t) (names : list string) :
  let r := Shader.loadUniformLocations glGetUniformLocation self names in
  let res := fst (fst r) in
  let self' := snd (fst r) in
  res = Z.of_nat (length (Shader.uniformLocations self))
  /\ length (Shader.uniformLocations self')
     = (length (Shader.uniformLocations self) + length names)%nat
  /\ (forall (k : nat) (name : string),
        names !! k = Some name ->
        Shader.uniformLocations self' !! (Z.to_nat res + k)%nat
        = Some (glGetUniformLocation (Shader.id self) name))
  /\ (forall i : nat,
        (i < length (Shader.uniformLocations self))%nat ->
        Shader.uniformLocations self' !! i = Shader.uniformLocations self !! i)
  /\ Shader.id self' = Shader.id self.
Proof.
  cbv zeta. unfold Shader.loadUniformLocations.
  cbn [fst snd Shader.uniformLocations Shader.id].
  split; [reflexivity|]. split; [|split; [|split; [|reflexivity]]].
  - rewrite length_app, length_map. reflexivity.
  - intros k name Hk. rewrite Nat2Z.id.
    rewrite lookup_app_r by lia.
    replace (length (Shader.uniformLocations self) + k
             - length (Shader.uniformLocations self))%nat with k by lia.
    change (List.map ?f ?l) with (f <$> l).
    rewrite list_lookup_fmap, Hk. reflexivity.
  - intros i Hi. apply lookup_app_l. exact Hi.
Qed.

End UniformLocationFacts.

Section ShaderFacts.

Import Renderer.

Variable khr_debug : bool.
Variable preamble : string.
Variable compiles : ShaderStage -> string -> bool.
Variable links : string -> string -> bool.

Lemma loadShader_cases (s : Z) (source : string) (stage : ShaderStage) :
  let r := Shader.loadShader compiles s source stage in
  (compiles stage source = true
   /\ r = (Returns s, [glCreateShader stage s; glShaderSource s source;
                       glCompileShader s]))
  \/ (compiles stage source = false
      /\ r = (Throws runtime_error,
              [glCreateShader stage s; glShaderSource s source;
               glCompileShader s; glDeleteShader s])).
Proof.
  cbv zeta. unfold Shader.loadShader.
  destruct (compiles stage source); [left|right]; split; reflexivity.
Qed.

(** X29.  [Shader::load] returns normally exactly when both shaders
    compile and the program links.  The shader then holds the new program,
    and both shader objects have been deleted.  Otherwise it throws a
    [runtime_error], holds no program, and deleting the new program is the
    last GL call.  The uniform locations are never touched. *)
Theorem shader_load_all_or_nothing (newProgram v f : Z) (self : Shader.t)
    (vertexShader fragmentShader : string) :
  let vsrc := Shader.vertexSource preamble vertexShader in
  let fsrc := Shader.fragmentSource preamble fragmentShader in
  let r := Shader.load khr_debug preamble compiles links newProgram v f self
                       vertexShader fragmentShader in
  let thrown := fst (fst r) in
  let self' := snd (fst r) in
  (thrown = None
   <-> compiles GL_VERTEX_SHADER vsrc = true
       /\ compiles GL_FRAGMENT_SHADER fsrc = true
       /\ links vsrc fsrc = true)
  /\ (thrown = None ->
      Shader.id self' = newProgram
      /\ In (glDeleteShader v) (snd r) /\ In (glDeleteShader f) (snd r)
      /\ (newProgram <> Shader.id self ->
          ~ In (glDeleteProgram newProgram) (snd r)))
  /\ (thrown <> None ->
      thrown = Some runtime_error
      /\ Shader.id self' = 0
      /\ last (snd r) = Some (glDeleteProgram newProgram))
  /\ Shader.uniformLocations self' = Shader.uniformLocations self.
Proof.
  cbv zeta. unfold Shader.load, Shader.clear, Shader.setDebugId.
  assert (Hold : forall c : Call,
            In c (if Shader.id self =? 0 then []
                  else [glDeleteProgram (Shader.id self)]) ->
            c = glDeleteProgram (Shader.id self)).
  { intros c Hc. destruct (Shader.id self =? 0); [destruct Hc|].
    destruct Hc as [<- | []]. reflexivity. }
  destruct (loadShader_cases v (Shader.vertexSource preamble vertexShader)
              GL_VERTEX_SHADER) as [[Hv ->] | [Hv ->]].
  - destruct (loadShader_cases f (Shader.fragmentSource preamble fragmentShader)
                GL_FRAGMENT_SHADER) as [[Hf ->] | [Hf ->]].
    + destruct (links _ _) eqn:Hl.
      * cbn [fst snd Shader.id Shader.uniformLocations Shader.debugId].
        split; [split; [intros _; auto|reflexivity]|].
        split; [intros _|split; [intros H; contradiction H; reflexivity|reflexivity]].
        split; [reflexivity|].
        split; [rewrite !in_app_iff; cbn; tauto|].
        split; [rewrite !in_app_iff; cbn; tauto|].
        intros Hne Hin. rewrite !in_app_iff in Hin.
        destruct Hin as [[[Hin | Hin] | Hin] | Hin].
        -- apply Hold in Hin. congruence.
        -- destruct Hin as [Hin | []]. discriminate Hin.
        -- cbn in Hin. intuition discriminate.
        -- unfold setDebugLabel in Hin.
           destruct (_ || _) in Hin; [destruct Hin|].
           destruct Hin as [Hin | []]. discriminate Hin.
      * cbn [fst snd Shader.id Shader.uniformLocations].
        split; [split; [discriminate|intros (_ & _ & H); discriminate H]|].
        split; [discriminate|]. split; [intros _|reflexivity].
        split; [reflexivity|]. split; [reflexivity|]. apply last_snoc.
    + cbn [fst snd Shader.id Shader.uniformLocations].
      split; [split; [discriminate|intros (_ & H & _); congruence]|].
      split; [discriminate|]. split; [intros _|reflexivity].
      split; [reflexivity|]. split; [reflexivity|]. apply last_snoc.
  - cbn [fst snd Shader.id Shader.uniformLocations].
    split; [split; [discriminate|intros (H & _); congruence]|].
    split; [discriminate|]. split; [intros _|reflexivity].
    split; [reflexivity|]. split; [reflexivity|]. apply last_snoc.
Qed.

(** X30.  When the vertex shader compiles and the fragment shader does
    not, [Shader::load] throws and deletes the fragment shader and the
    program, but never deletes the vertex shader it has created. *)
Theorem shader_load_leaves_vertex_shader (newProgram v f : Z)
    (self : Shader.t) (vertexShader fragmentShader : string) :
  compiles GL_VERTEX_SHADER (Shader.vertexSource preamble vertexShader) = true ->
  compiles GL_FRAGMENT_SHADER (Shader.fragmentSource preamble fragmentShader)
  = false ->
  v <> f ->
  let r := Shader.load khr_debug preamble compiles links newProgram v f self
                       vertexShader fragmentShader in
  fst (fst r) = Some runtime_error
  /\ In (glCreateShader GL_VERTEX_SHADER v) (snd r)
  /\ ~ In (glDeleteShader v) (snd r)
  /\ In (glDeleteShader f) (snd r)
  /\ In (glDeleteProgram newProgram) (snd r).
Proof.
  intros Hv Hf Hne. cbv zeta. unfold Shader.load, Shader.clear, Shader.loadShader.
  rewrite Hv, Hf. cbn [fst snd Shader.id].
  split; [reflexivity|].
  split; [rewrite !in_app_iff; cbn; tauto|].
  split; [|split; rewrite !in_app_iff; cbn; tauto].
  assert (Hold : ~ In (glDeleteShader v)
                      (if Shader.id self =? 0 then []
                       else [glDeleteProgram (Shader.id self)])).
  { destruct (Shader.id self =? 0); cbn; intuition discriminate. }
  intros Hin. rewrite !in_app_iff in Hin. cbn [In] in Hin.
  intuition (try discriminate; try congruence).
Qed.

End ShaderFacts.

(** A GL that rejects every fragment shader. *)
Lemma shader_load_leaves_vertex_shader_witness :
  let r := Renderer.Shader.load false EmptyString Examples.vertexOnly
             (fun _ _ => true) 9 1 2 Examples.noShader
             EmptyString EmptyString in
  fst (fst r) = Some Renderer.runtime_error
  /\ In (Renderer.glCreateShader Renderer.GL_VERTEX_SHADER 1) (snd r)
  /\ ~ In (Renderer.glDeleteShader 1) (snd r)
  /\ In (Renderer.glDeleteShader 2) (snd r)
  /\ In (Renderer.glDeleteProgram 9) (snd r).
Proof.
  apply (shader_load_leaves_vertex_shader false EmptyString Examples.vertexOnly
           (fun _ _ => true) 9 1 2 Examples.noShader EmptyString EmptyString).
  - reflexivity.
  - reflexivity.
  - lia.
Defined.
